(** * microscope2ome: batch conversion of microscope images to OME-TIFF

    A shallow embedding of the two command-line scripts of the repository,
    [img2ome.py] (bioformats2raw followed by raw2ometiff) and
    [qupath_img2ome.py] (a wrapper around [QuPath convert-ome]), and the
    properties of their orchestration logic: discovery of the input images,
    mapping of an input to its output location, the skip / overwrite policy,
    the two-stage pipeline, the clean-up of the intermediate zarr directory
    and the exit status of the process.

    Modelling choices.
    - Paths are Python [str] values, here [string]; the functions of
      [os.path] the scripts call are written out for POSIX ([posixpath]).
    - The file system is a tree of directories with ordered entries (the
      order is the one [os.scandir] reports).  There are no symbolic links,
      so a path is resolved lexically.
    - Python code that prints, touches the file system or raises runs in a
      state-and-exception monad [M] over a [world]: the file system, the
      working directory and the log of what was printed and which child
      processes were started.
    - The external tools are black boxes: a function [exec] from the
      argument vector, the working directory and the file system to the way
      the child process ended and the file system it left; for QuPath,
      whose output [qupath_img2ome.py] captures as text, also to what it
      wrote, or to the fact that it does not decode.
    - [pathlib]'s [glob] is written out for the patterns the default
      extensions give, a star and a suffix without wildcard or slash; the
      matching of any other pattern is a black box too. *)

From Stdlib Require Import String Ascii List ZArith Lia Bool DecimalString.
Import ListNotations.
Open Scope string_scope.

Set Implicit Arguments.

(* ================================================================== *)
(** * Python strings *)

Module PyStr.

Definition sep : ascii := "/"%char.
Definition extsep : ascii := "."%char.

(** [c.lower()] on the ASCII range. *)
Definition lower_ascii (c : ascii) : ascii :=
  let n := nat_of_ascii c in
  if andb (Nat.leb 65 n) (Nat.leb n 90) then ascii_of_nat (n + 32) else c.

(** [s.lower()] *)
Fixpoint lower (s : string) : string :=
  match s with
  | EmptyString => EmptyString
  | String c r => String (lower_ascii c) (lower r)
  end.

(** [s.startswith(p)] *)
Fixpoint startswith (s p : string) {struct p} : bool :=
  match p with
  | EmptyString => true
  | String b p' =>
      match s with
      | EmptyString => false
      | String a s' => andb (Ascii.eqb a b) (startswith s' p')
      end
  end.

(** [s.endswith(p)]: [s] is [p], or what follows its first character ends
    with [p]. *)
Fixpoint endswith (s p : string) : bool :=
  if String.eqb s p then true
  else match s with
       | EmptyString => false
       | String _ r => endswith r p
       end.

(** [bool(s)]: a string is true when it is not empty. *)
Definition truthy (s : string) : bool :=
  match s with EmptyString => false | _ => true end.

(** [s.split(c)] for a one-character separator: never the empty list. *)
Fixpoint split (c : ascii) (s : string) : list string :=
  match s with
  | EmptyString => [EmptyString]
  | String a r =>
      if Ascii.eqb a c then EmptyString :: split c r
      else match split c r with
           | x :: xs => String a x :: xs
           | [] => [String a EmptyString]
           end
  end.

(** [c.join(l)] *)
Definition join (c : string) (l : list string) : string := String.concat c l.

(** [s.lstrip(c)] *)
Fixpoint lstrip (c : ascii) (s : string) : string :=
  match s with
  | EmptyString => EmptyString
  | String a r => if Ascii.eqb a c then lstrip c r else s
  end.

(** [s.rstrip(c)] *)
Fixpoint rstrip (c : ascii) (s : string) : string :=
  match s with
  | EmptyString => EmptyString
  | String a r =>
      match rstrip c r with
      | EmptyString => if Ascii.eqb a c then EmptyString else String a EmptyString
      | r' => String a r'
      end
  end.

(** [s == c * len(s)] *)
Fixpoint all_char (c : ascii) (s : string) : bool :=
  match s with
  | EmptyString => true
  | String a r => andb (Ascii.eqb a c) (all_char c r)
  end.

(** [(s[:i], s[i:])] for [i = s.rfind(c) + 1]: the text up to and with the
    last [c], and the text after it; the first part is empty when [c]
    does not occur. *)
Fixpoint rpartition (c : ascii) (s : string) : string * string :=
  match s with
  | EmptyString => (EmptyString, EmptyString)
  | String a r =>
      match rpartition c r with
      | (EmptyString, t) =>
          if Ascii.eqb a c then (String a EmptyString, r)
          else (EmptyString, String a t)
      | (h, t) => (String a h, t)
      end
  end.

(** [(s[:i], s[i:])] for [i = s.rfind(c)], when [c] occurs in [s]. *)
Fixpoint rsplit_at (c : ascii) (s : string) : option (string * string) :=
  match s with
  | EmptyString => None
  | String a r =>
      match rsplit_at c r with
      | Some (h, t) => Some (String a h, t)
      | None => if Ascii.eqb a c then Some (EmptyString, s) else None
      end
  end.

(** [str(n)] for an [int]. *)
Definition str_int (n : Z) : string := NilZero.string_of_int (Z.to_int n).

(** [str(n)] for a length or a counter. *)
Definition str_nat (n : nat) : string := str_int (Z.of_nat n).

(** [x in l] for a list of strings. *)
Definition mem (x : string) (l : list string) : bool :=
  existsb (String.eqb x) l.

(** [repr(l)] of a list of strings, for strings without quotes or
    backslashes. *)
Definition repr_list (l : list string) : string :=
  "[" ++ join ", " (map (fun s => "'" ++ s ++ "'") l) ++ "]".

End PyStr.

(* ================================================================== *)
(** * [os.path] on POSIX *)

Module posixpath.
Import PyStr.

(** [os.path.isabs] *)
Definition isabs (p : string) : bool := startswith p "/".

(** [os.path.join(a, b)] *)
Definition join (a b : string) : string :=
  if startswith b "/" then b
  else if orb (negb (truthy a)) (endswith a "/") then a ++ b
  else a ++ "/" ++ b.

(** [os.path.basename] *)
Definition basename (p : string) : string := snd (rpartition sep p).

(** [os.path.dirname] *)
Definition dirname (p : string) : string :=
  let head := fst (rpartition sep p) in
  if andb (truthy head) (negb (all_char sep head)) then rstrip sep head
  else head.

(** [os.path.splitext]: the extension starts at the last dot of the last
    component, unless only dots come before it. *)
Definition splitext (p : string) : string * string :=
  let (h, t) := rpartition sep p in
  match rsplit_at extsep t with
  | Some (a, e) => if all_char extsep a then (p, EmptyString) else (h ++ a, e)
  | None => (p, EmptyString)
  end.

(** One step of the loop of [normpath] over the components. *)
Definition norm_step (initial_slashes : nat) (new_comps : list string)
           (comp : string) : list string :=
  if orb (String.eqb comp "") (String.eqb comp ".") then new_comps
  else if orb (negb (String.eqb comp ".."))
            (orb (andb (Nat.eqb initial_slashes 0)
                       (match new_comps with [] => true | _ => false end))
                 (match List.rev new_comps with
                  | last :: _ => String.eqb last ".."
                  | [] => false
                  end))
       then (new_comps ++ [comp])%list
       else removelast new_comps.

(** [os.path.normpath] *)
Definition normpath (path : string) : string :=
  if negb (truthy path) then "."
  else
    let initial_slashes :=
      if startswith path "/" then
        if andb (startswith path "//") (negb (startswith path "///"))
        then 2 else 1
      else 0 in
    let comps := fold_left (norm_step initial_slashes) (split sep path) [] in
    let path' := PyStr.join "/" comps in
    let path'' :=
      match initial_slashes with
      | 0 => path'
      | 1 => "/" ++ path'
      | _ => "//" ++ path'
      end in
    if truthy path'' then path'' else ".".

(** [os.path.abspath], with [os.getcwd()] as an argument. *)
Definition abspath (cwd path : string) : string :=
  if isabs path then normpath path else normpath (join cwd path).

Fixpoint commonprefix (a b : list string) : list string :=
  match a, b with
  | x :: a', y :: b' => if String.eqb x y then x :: commonprefix a' b' else []
  | _, _ => []
  end.

(** [os.path.relpath(path, start)]; [None] is the [ValueError] raised for
    an empty [path]. *)
Definition relpath (cwd path start : string) : option string :=
  if negb (truthy path) then None
  else
    let start_tail := lstrip sep (abspath cwd start) in
    let path_tail := lstrip sep (abspath cwd path) in
    let start_list := if truthy start_tail then split sep start_tail else [] in
    let path_list := if truthy path_tail then split sep path_tail else [] in
    let i := length (commonprefix start_list path_list) in
    let rel_list :=
      (repeat ".." (length start_list - i) ++ skipn i path_list)%list in
    match rel_list with
    | [] => Some "."
    | _ => Some (PyStr.join "/" rel_list)
    end.

End posixpath.

(* ================================================================== *)
(** * The file system *)

Module FS.
Import PyStr.

(** A regular file with its content, or a directory with its entries in
    the order [os.scandir] lists them. *)
#[warnings="-register-all"]
Inductive node : Type :=
| File (content : string)
| Dir (entries : list (string * node)).

Definition is_dir (n : node) : bool :=
  match n with Dir _ => true | File _ => false end.

Fixpoint assoc (name : string) (es : list (string * node)) : option node :=
  match es with
  | [] => None
  | (k, v) :: r => if String.eqb k name then Some v else assoc name r
  end.

(** The node a list of components leads to, from [n]. *)
Fixpoint lookup (p : list string) (n : node) : option node :=
  match p with
  | [] => Some n
  | name :: rest =>
      match n with
      | Dir es =>
          match assoc name es with
          | Some c => lookup rest c
          | None => None
          end
      | File _ => None
      end
  end.

Definition resolve_step (stack : list string) (comp : string) : list string :=
  if orb (String.eqb comp "") (String.eqb comp ".") then stack
  else if String.eqb comp ".." then removelast stack
  else (stack ++ [comp])%list.

(** The components, from the root, of the path [p] used in directory
    [cwd]. *)
Definition resolve (cwd p : string) : list string :=
  fold_left resolve_step (split sep (posixpath.join cwd p)) [].

Definition remove_entry (name : string) (es : list (string * node))
  : list (string * node) :=
  filter (fun kv => negb (String.eqb (fst kv) name)) es.

(** Applies [f] to the entry [name], the one [assoc] finds. *)
Fixpoint update_entry (name : string) (f : node -> node)
         (es : list (string * node)) : list (string * node) :=
  match es with
  | [] => []
  | (k, v) :: r =>
      if String.eqb k name then (k, f v) :: r
      else (k, v) :: update_entry name f r
  end.

(** Removes what is at [p], with all beneath it. *)
Fixpoint delete (p : list string) (n : node) : node :=
  match p, n with
  | [name], Dir es => Dir (remove_entry name es)
  | name :: rest, Dir es => Dir (update_entry name (delete rest) es)
  | _, _ => n
  end.

(** Creates the directories along [p] that are missing; [None] when a
    regular file is in the way. *)
Fixpoint mkdirs (p : list string) (n : node) : option node :=
  match n with
  | File _ => None
  | Dir es =>
      match p with
      | [] => Some n
      | name :: rest =>
          match assoc name es with
          | Some c =>
              match mkdirs rest c with
              | Some c' => Some (Dir (update_entry name (fun _ => c') es))
              | None => None
              end
          | None =>
              match mkdirs rest (Dir []) with
              | Some c' => Some (Dir (es ++ [(name, c')]))
              | None => None
              end
          end
      end
  end.

(** Puts [new] at [p], in place of what was there; the parent directory
    has to exist.  The external tools write their outputs with it. *)
Fixpoint put (p : list string) (new : node) (n : node) : node :=
  match p, n with
  | [name], Dir es =>
      match assoc name es with
      | Some _ => Dir (update_entry name (fun _ => new) es)
      | None => Dir (es ++ [(name, new)])
      end
  | name :: rest, Dir es => Dir (update_entry name (put rest new) es)
  | _, _ => n
  end.

(** [os.walk(top)] on the directory [n], top-down: one triple
    [(root, dirs, files)] per directory. *)
Fixpoint walk (top : string) (n : node) : list (string * list string * list string) :=
  match n with
  | File _ => []
  | Dir es =>
      (top,
       map fst (filter (fun kv => is_dir (snd kv)) es),
       map fst (filter (fun kv => negb (is_dir (snd kv))) es))
      :: flat_map (fun kv => walk (posixpath.join top (fst kv)) (snd kv)) es
  end.

(** Induction on a tree, with the property for every entry of a
    directory. *)
Fixpoint node_induction (P : node -> Prop)
         (file_case : forall content, P (File content))
         (dir_case : forall es, Forall (fun kv => P (snd kv)) es -> P (Dir es))
         (n : node) {struct n} : P n :=
  match n with
  | File content => file_case content
  | Dir es =>
      dir_case es
               ((fix entries (l : list (string * node))
                 : Forall (fun kv => P (snd kv)) l :=
                   match l with
                   | [] => Forall_nil _
                   | kv :: r =>
                       Forall_cons kv
                                   (node_induction P file_case dir_case (snd kv))
                                   (entries r)
                   end) es)
  end.

End FS.

(* ================================================================== *)
(** * Effects: the world, exceptions and the monad [M] *)

Inductive event : Type :=
| Stdout (line : string)         (** a line written by [print] *)
| Spawn (argv : list string).    (** a call of [subprocess.run] with this command *)

Record world : Type := World {
  fs : FS.node;              (** the root directory *)
  cwd_parts : list string;   (** the components of the working directory *)
  log : list event           (** what happened so far, oldest first *)
}.

(** [os.getcwd()]: an absolute path. *)
Definition cwd (w : world) : string := "/" ++ String.concat "/" (cwd_parts w).

Inductive os_errno : Type := ENOENT | EEXIST | ENOTDIR | EISDIR.

(** The exceptions the scripts meet.  [OSError] stands for the class and its
    subclasses [FileNotFoundError], [FileExistsError], [NotADirectoryError]
    and [IsADirectoryError]; [ValueError] for the class and its subclass
    [UnicodeDecodeError]. *)
Inductive exn : Type :=
| OSError (errno : os_errno) (filename : string)
| CalledProcessError (cmd : list string) (returncode : Z) (stderr : string)
| ValueError (msg : string)
| SystemExit (code : Z).

Definition is_OSError (e : exn) : bool :=
  match e with OSError _ _ => true | _ => false end.

Definition is_CalledProcessError (e : exn) : bool :=
  match e with CalledProcessError _ _ _ => true | _ => false end.

Definition strerror (e : os_errno) : string :=
  match e with
  | ENOENT => "[Errno 2] No such file or directory"
  | EEXIST => "[Errno 17] File exists"
  | ENOTDIR => "[Errno 20] Not a directory"
  | EISDIR => "[Errno 21] Is a directory"
  end.

(** [signal.Signals(n).name] on Linux; [None] when [signal.Signals(n)]
    raises [ValueError]. *)
Definition signal_name (n : Z) : option string :=
  match n with
  | 1 => Some "SIGHUP" | 2 => Some "SIGINT" | 3 => Some "SIGQUIT"
  | 4 => Some "SIGILL" | 5 => Some "SIGTRAP" | 6 => Some "SIGABRT"
  | 7 => Some "SIGBUS" | 8 => Some "SIGFPE" | 9 => Some "SIGKILL"
  | 10 => Some "SIGUSR1" | 11 => Some "SIGSEGV" | 12 => Some "SIGUSR2"
  | 13 => Some "SIGPIPE" | 14 => Some "SIGALRM" | 15 => Some "SIGTERM"
  | 16 => Some "SIGSTKFLT" | 17 => Some "SIGCHLD" | 18 => Some "SIGCONT"
  | 19 => Some "SIGSTOP" | 20 => Some "SIGTSTP" | 21 => Some "SIGTTIN"
  | 22 => Some "SIGTTOU" | 23 => Some "SIGURG" | 24 => Some "SIGXCPU"
  | 25 => Some "SIGXFSZ" | 26 => Some "SIGVTALRM" | 27 => Some "SIGPROF"
  | 28 => Some "SIGWINCH" | 29 => Some "SIGIO" | 30 => Some "SIGPWR"
  | 31 => Some "SIGSYS" | 34 => Some "SIGRTMIN" | 64 => Some "SIGRTMAX"
  | _ => None
  end%Z.

(** [str(e)].  For a child that a signal killed, [CalledProcessError]
    prints the [repr] of the member of [signal.Signals]. *)
Definition str_exn (e : exn) : string :=
  match e with
  | OSError errno filename => strerror errno ++ ": '" ++ filename ++ "'"
  | CalledProcessError cmd rc _ =>
      if (rc <? 0)%Z
      then match signal_name (- rc) with
           | Some name =>
               "Command '" ++ PyStr.repr_list cmd ++ "' died with <Signals."
               ++ name ++ ": " ++ PyStr.str_int (- rc) ++ ">."
           | None =>
               "Command '" ++ PyStr.repr_list cmd ++ "' died with unknown signal "
               ++ PyStr.str_int (- rc) ++ "."
           end
      else "Command '" ++ PyStr.repr_list cmd
           ++ "' returned non-zero exit status " ++ PyStr.str_int rc ++ "."
  | ValueError msg => msg
  | SystemExit code => PyStr.str_int code
  end.

Inductive result (A : Type) : Type :=
| Ok (a : A)
| Raise (e : exn).
Arguments Ok {A} a.
Arguments Raise {A} e.

(** A computation returns or raises, and leaves a world in both cases. *)
Definition M (A : Type) : Type := world -> result A * world.

Definition ret {A} (a : A) : M A := fun w => (Ok a, w).

Definition bind {A B} (m : M A) (k : A -> M B) : M B :=
  fun w =>
    match m w with
    | (Ok a, w') => k a w'
    | (Raise e, w') => (Raise e, w')
    end.

Definition raise {A} (e : exn) : M A := fun w => (Raise e, w).

Declare Scope py_scope.
Delimit Scope py_scope with py.
Notation "x <- m ;; k" := (bind m (fun x => k))
  (at level 61, m at next level, right associativity) : py_scope.
Notation "m ;; k" := (bind m (fun _ => k))
  (at level 61, right associativity) : py_scope.
Open Scope py_scope.

(** [try: body / except E as e: handler(e); return ...]: [true] when the
    body ran to its end, [false] when it raised an exception of the class
    [catches] and the handler ran.  Any other exception goes through. *)
Definition attempt (body : M unit) (catches : exn -> bool)
           (handler : exn -> M unit) : M bool :=
  fun w =>
    match body w with
    | (Ok _, w') => (Ok true, w')
    | (Raise e, w') =>
        if catches e then (handler e ;; ret false) w' else (Raise e, w')
    end.

(** [for x in l: s = body(x, s)] *)
Fixpoint for_each {A S} (l : list A) (body : A -> S -> M S) (s : S) : M S :=
  match l with
  | [] => ret s
  | x :: r => s' <- body x s ;; for_each r body s'
  end.

Definition print (line : string) : M unit :=
  fun w => (Ok tt, World (fs w) (cwd_parts w) (log w ++ [Stdout line])).

(** [sys.exit(code)] *)
Definition sys_exit {A} (code : Z) : M A := raise (SystemExit code).

(** The exit status of the interpreter when the script ends this way: an
    exception nobody caught prints a traceback and gives status 1. *)
Definition exit_status (r : result unit) : Z :=
  match r with
  | Ok _ => 0
  | Raise (SystemExit code) => code
  | Raise _ => 1
  end.

(** ** [os], [os.path] and [shutil] on the world *)

Definition node_at (w : world) (p : string) : option FS.node :=
  if PyStr.truthy p then FS.lookup (FS.resolve (cwd w) p) (fs w) else None.

Definition os_path_exists (p : string) : M bool :=
  fun w => (Ok (match node_at w p with Some _ => true | None => false end), w).

Definition os_path_isfile (p : string) : M bool :=
  fun w => (Ok (match node_at w p with Some (FS.File _) => true | _ => false end), w).

Definition os_path_isdir (p : string) : M bool :=
  fun w => (Ok (match node_at w p with Some (FS.Dir _) => true | _ => false end), w).

Definition set_fs (w : world) (n : FS.node) : world :=
  World n (cwd_parts w) (log w).

(** [os.remove(p)] *)
Definition os_remove (p : string) : M unit :=
  fun w =>
    match node_at w p with
    | Some (FS.File _) => (Ok tt, set_fs w (FS.delete (FS.resolve (cwd w) p) (fs w)))
    | Some (FS.Dir _) => (Raise (OSError EISDIR p), w)
    | None => (Raise (OSError ENOENT p), w)
    end.

(** [os.makedirs(p, exist_ok=True)] *)
Definition os_makedirs (p : string) : M unit :=
  fun w =>
    if PyStr.truthy p then
      match FS.mkdirs (FS.resolve (cwd w) p) (fs w) with
      | Some n => (Ok tt, set_fs w n)
      | None =>
          (Raise (OSError (match node_at w p with
                           | Some (FS.File _) => EEXIST
                           | _ => ENOTDIR
                           end) p), w)
      end
    else (Raise (OSError ENOENT p), w).

(** [shutil.rmtree(p)] *)
Definition shutil_rmtree (p : string) : M unit :=
  fun w =>
    match node_at w p with
    | Some (FS.Dir _) => (Ok tt, set_fs w (FS.delete (FS.resolve (cwd w) p) (fs w)))
    | Some (FS.File _) => (Raise (OSError ENOTDIR p), w)
    | None => (Raise (OSError ENOENT p), w)
    end.

(** [list(os.walk(top))]: nothing when [top] is not a directory. *)
Definition os_walk (top : string) : M (list (string * list string * list string)) :=
  fun w =>
    (Ok (match node_at w top with
         | Some n => FS.walk top n
         | None => []
         end), w).

(** ** Child processes *)

(** How a child process ended: it exited with a status, a signal killed it,
    or it never started because the executable was not found. *)
Inductive proc_end : Type :=
| Exited (status : N)
| Killed (signal : positive)
| NotFound.

(** [returncode] of a process that ran. *)
Definition returncode (e : proc_end) : Z :=
  match e with
  | Exited status => Z.of_N status
  | Killed signal => Z.neg signal
  | NotFound => 0
  end.

(** An external tool: from the argument vector, the working directory and
    the file system to how the process ended, what it wrote on its standard
    error and the file system it left. *)
Definition tool : Type :=
  list string -> string -> FS.node -> proc_end * string * FS.node.

(** [subprocess.run(cmd, check=True)]: raises [FileNotFoundError] when the
    executable is not found and [CalledProcessError] when the return code is
    not zero. *)
Definition subprocess_run (exec : tool) (cmd : list string) : M unit :=
  fun w =>
    let w1 := World (fs w) (cwd_parts w) (log w ++ [Spawn cmd]) in
    match exec cmd (cwd w) (fs w) with
    | (NotFound, _, _) => (Raise (OSError ENOENT (hd "" cmd)), w1)
    | (e, stderr, fs') =>
        if Z.eqb (returncode e) 0 then (Ok tt, set_fs w1 fs')
        else (Raise (CalledProcessError cmd (returncode e) stderr), set_fs w1 fs')
    end.

(** What [subprocess.run(cmd, capture_output=True, text=True)] reads from
    the pipes of the child: the texts of its standard output and standard
    error, or bytes that do not decode in the encoding of the locale, with
    the message of the [UnicodeDecodeError] they give. *)
Inductive captured : Type :=
| Text (stdout stderr : string)
| Undecodable (message : string).

(** An external tool whose output is captured. *)
Definition capturing_tool : Type :=
  list string -> string -> FS.node -> proc_end * captured * FS.node.

(** [subprocess.run(cmd, check=True, capture_output=True, text=True)]:
    raises [FileNotFoundError] when the executable is not found,
    [UnicodeDecodeError] when what the child wrote does not decode, whatever
    its return code, and [CalledProcessError] with the text of the standard
    error when the return code is not zero. *)
Definition subprocess_run_captured (exec : capturing_tool) (cmd : list string)
  : M unit :=
  fun w =>
    let w1 := World (fs w) (cwd_parts w) (log w ++ [Spawn cmd]) in
    match exec cmd (cwd w) (fs w) with
    | (NotFound, _, _) => (Raise (OSError ENOENT (hd "" cmd)), w1)
    | (_, Undecodable message, fs') => (Raise (ValueError message), set_fs w1 fs')
    | (e, Text _ stderr, fs') =>
        if Z.eqb (returncode e) 0 then (Ok tt, set_fs w1 fs')
        else (Raise (CalledProcessError cmd (returncode e) stderr), set_fs w1 fs')
    end.

(* ================================================================== *)
(** * [img2ome.py]: bioformats2raw, then raw2ometiff *)

Module img2ome.
Import PyStr.

Definition image_extensions : list string :=
  [".tif"; ".tiff"; ".jpg"; ".jpeg"; ".png"; ".nd2"; ".czi"; ".lif"; ".mrxs"; ".svs"].

(** [ext = os.path.splitext(p)[1].lower(); ext in image_extensions] *)
Definition is_image (p : string) : bool :=
  mem (lower (snd (posixpath.splitext p))) image_extensions.

(** The loops of [find_images] over [os.walk(path)] and the files of each
    directory: [results.append(os.path.join(root, file))] for each image. *)
Definition walk_images (triples : list (string * list string * list string))
  : list string :=
  flat_map
    (fun t : string * list string * list string =>
       let '(root, _, files) := t in
       flat_map (fun file =>
                   if is_image file then [posixpath.join root file] else [])
                files)
    triples.

(** [find_images(path)] *)
Definition find_images (path : string) : M (list string) :=
  isfile <- os_path_isfile path ;;
  if isfile then
    ret (if is_image path then [path] else [])
  else
    triples <- os_walk path ;;
    ret (walk_images triples).

Definition image_name (image_path : string) : string :=
  fst (posixpath.splitext (posixpath.basename image_path)).

Definition zarr_dir (image_path output_dir : string) : string :=
  posixpath.join output_dir (image_name image_path ++ ".zarr").

Definition ometiff_path (image_path output_dir : string) : string :=
  posixpath.join output_dir (image_name image_path ++ ".ome.tiff").

Definition bf2raw_cmd (image_path output_dir : string) (bf2raw_args : list string)
  : list string :=
  (["bioformats2raw"] ++ bf2raw_args ++ [image_path; zarr_dir image_path output_dir])%list.

Definition raw2ometiff_cmd (image_path output_dir : string)
           (raw2ometiff_args : list string) : list string :=
  (["raw2ometiff"] ++ raw2ometiff_args
     ++ [zarr_dir image_path output_dir; ometiff_path image_path output_dir])%list.

(** [# Cleanup zarr directory if not keeping it]:
    [if not keep_zarr and os.path.exists(zarr_dir): shutil.rmtree(zarr_dir)] *)
Definition cleanup_zarr (keep_zarr : bool) (zarr : string) : M unit :=
  if negb keep_zarr then
    there <- os_path_exists zarr ;;
    if there then shutil_rmtree zarr else ret tt
  else ret tt.

Section Pipeline.
Variable exec : tool.

(** [convert_image] from its comment [# Run raw2ometiff] on: the second
    stage and the clean-up. *)
Definition run_raw2ometiff (image_path output_dir : string)
           (raw2ometiff_args : list string) (keep_zarr : bool) : M bool :=
  let zarr := zarr_dir image_path output_dir in
  let ometiff := ometiff_path image_path output_dir in
  let cmd2 := raw2ometiff_cmd image_path output_dir raw2ometiff_args in
  print "Converting zarr to OME-TIFF format..." ;;
  print ("Running: " ++ join " " cmd2) ;;
  ok2 <- attempt (subprocess_run exec cmd2) is_CalledProcessError
           (fun e => print ("Error converting zarr to OME-TIFF: " ++ str_exn e)) ;;
  if negb ok2 then ret false
  else
    cleanup_zarr keep_zarr zarr ;;
    print ("Successfully converted " ++ image_path ++ " to " ++ ometiff) ;;
    ret true.

(** [convert_image] from its comment [# Run bioformats2raw] on: the two
    stages and the clean-up. *)
Definition run_stages (image_path output_dir : string)
           (bf2raw_args raw2ometiff_args : list string) (keep_zarr : bool)
  : M bool :=
  let cmd1 := bf2raw_cmd image_path output_dir bf2raw_args in
  print ("Converting " ++ image_path ++ " to zarr format...") ;;
  print ("Running: " ++ join " " cmd1) ;;
  ok1 <- attempt (subprocess_run exec cmd1) is_CalledProcessError
           (fun e => print ("Error converting " ++ image_path ++ " to zarr: "
                            ++ str_exn e)) ;;
  if negb ok1 then ret false
  else run_raw2ometiff image_path output_dir raw2ometiff_args keep_zarr.

(** [convert_image(image_path, output_dir, bf2raw_args, raw2ometiff_args,
    keep_zarr, overwrite)] *)
Definition convert_image (image_path output_dir : string)
           (bf2raw_args raw2ometiff_args : list string)
           (keep_zarr overwrite : bool) : M bool :=
  let ometiff := ometiff_path image_path output_dir in
  let stages :=
    run_stages image_path output_dir bf2raw_args raw2ometiff_args keep_zarr in
  there <- os_path_exists ometiff ;;
  if there then
    if overwrite then
      removed <- attempt (os_remove ometiff) is_OSError
                   (fun e => print ("Error deleting existing OME-TIFF "
                                    ++ ometiff ++ ": " ++ str_exn e)) ;;
      if removed then stages else ret false
    else
      print ("Skipping " ++ image_path ++ " as output " ++ ometiff
             ++ " exists. Use --overwrite to replace.") ;;
      ret true
  else stages.
End Pipeline.

(** The namespace [parse_args()] returns.  An option that was not given is
    [None] and a [store_true] flag is a [bool]. *)
Record args : Type := Args {
  input_path : string;
  output_dir : string;
  keep_zarr : bool;
  overwrite : bool;
  progress : bool;
  tile_width : option Z;
  tile_height : option Z;
  resolutions : option Z;
  compression : option string;
  max_workers : option Z;
  series : option string;
  no_minmax : bool;
  memo_directory : option string;
  downsample_type : option string;
  ometiff_compression : string;
  ometiff_quality : option Z;
  rgb : bool;
  split : bool;
  split_planes : bool;
  debug : bool
}.

(** [if v: l.extend([flag, str(v)])] for an [int] option: [None] and [0]
    are both false. *)
Definition int_opt (flag : string) (v : option Z) : list string :=
  match v with
  | Some n => if Z.eqb n 0 then [] else [flag; str_int n]
  | None => []
  end.

(** [if v: l.extend([flag, v])] for a string option. *)
Definition str_opt (flag : string) (v : option string) : list string :=
  match v with
  | Some s => if truthy s then [flag; s] else []
  | None => []
  end.

(** [if v: l.append(flag)] *)
Definition flag_opt (flag : string) (v : bool) : list string :=
  if v then [flag] else [].

Definition bf2raw_args (a : args) : list string :=
  (flag_opt "-p" (progress a)
   ++ int_opt "--tile-width" (tile_width a)
   ++ int_opt "--tile-height" (tile_height a)
   ++ int_opt "--resolutions" (resolutions a)
   ++ str_opt "--compression" (compression a)
   ++ int_opt "--max-workers" (max_workers a)
   ++ str_opt "--series" (series a)
   ++ flag_opt "--no-minmax" (no_minmax a)
   ++ str_opt "--memo-directory" (memo_directory a)
   ++ str_opt "--downsample-type" (downsample_type a)
   ++ flag_opt "--overwrite" (overwrite a)
   ++ (if debug a then ["--log-level"; "DEBUG"] else []))%list.

Definition raw2ometiff_args (a : args) : list string :=
  (flag_opt "-p" (progress a)
   ++ ["--compression"; ometiff_compression a]
   ++ int_opt "--quality" (ometiff_quality a)
   ++ flag_opt "--rgb" (rgb a)
   ++ flag_opt "--split" (split a)
   ++ flag_opt "--split-planes" (split_planes a)
   ++ (if debug a then ["--log-level"; "DEBUG"] else []))%list.

Section Main.
Variable exec : tool.

(** [os.path.relpath(image_path, input_dir)] *)
Definition os_path_relpath (path start : string) : M string :=
  fun w =>
    match posixpath.relpath (cwd w) path start with
    | Some r => (Ok r, w)
    | None => (Raise (ValueError "no path specified"), w)
    end.

(** [output_subdir] for a relative path of the image. *)
Definition output_subdir (a : args) (rel_path : string) : string :=
  posixpath.join (output_dir a) (posixpath.dirname rel_path).

(** The body of the loop of [main] over [image_paths], up to the call
    of [convert_image]. *)
Definition convert_item (a : args) (input_dir : string) (image_path : string)
  : M bool :=
  rel_path <- os_path_relpath image_path input_dir ;;
  os_makedirs (output_subdir a rel_path) ;;
  convert_image exec image_path (output_subdir a rel_path)
                (bf2raw_args a) (raw2ometiff_args a) (keep_zarr a) (overwrite a).

(** The body of the loop: [if convert_image(...): success_count += 1]. *)
Definition convert_one (a : args) (input_dir : string)
           (image_path : string) (success_count : nat) : M nat :=
  converted <- convert_item a input_dir image_path ;;
  ret (if converted then success_count + 1 else success_count).

(** [main()], after [args = parse_args()]. *)
Definition main (a : args) : M unit :=
  os_makedirs (output_dir a) ;;
  isfile <- os_path_isfile (input_path a) ;;
  let input_dir :=
    if isfile then posixpath.dirname (input_path a) else input_path a in
  image_paths <- find_images (input_path a) ;;
  match image_paths with
  | [] =>
      print ("No supported images found in " ++ input_path a) ;;
      sys_exit 1
  | _ =>
      print ("Found " ++ str_nat (length image_paths) ++ " image(s) to convert") ;;
      success_count <- for_each image_paths (convert_one a input_dir) 0 ;;
      print ("Successfully converted " ++ str_nat success_count ++ "/"
             ++ str_nat (length image_paths) ++ " images.") ;;
      if Nat.ltb success_count (length image_paths) then sys_exit 1 else ret tt
  end.
End Main.

End img2ome.

(* ================================================================== *)
(** * [qupath_img2ome.py]: one call of [QuPath convert-ome] per image *)

Module qupath_img2ome.
Import PyStr.

(** ** [pathlib] *)

(** [str(Path(s))]: empty and [.] components are dropped, [..] is kept. *)
Definition Path (s : string) : string :=
  let parts :=
    filter (fun c => negb (orb (String.eqb c "") (String.eqb c "."))) (PyStr.split sep s) in
  let root :=
    if startswith s "/" then
      if andb (startswith s "//") (negb (startswith s "///")) then "//" else "/"
    else "" in
  let r := root ++ join "/" parts in
  if truthy r then r else ".".

(** [str(d / name)] for a path [d] and a file name. *)
Definition child (d name : string) : string :=
  if String.eqb d "." then name else posixpath.join d name.

(** [Path(name).stem]: the name without its last suffix; a leading or a
    final dot starts no suffix. *)
Definition stem (name : string) : string :=
  match rsplit_at extsep name with
  | Some (a, e) =>
      if andb (truthy a) (Nat.ltb 1 (String.length e)) then a else name
  | None => name
  end.

(** A suffix without the wildcards of [fnmatch] ([*], [?] and [[]) and
    without a slash: the pattern ["*" + ext] has one component, and a name
    matches it when it ends with [ext] as it is written. *)
Fixpoint plain (ext : string) : bool :=
  match ext with
  | EmptyString => true
  | String c r =>
      andb (negb (orb (orb (Ascii.eqb c "*") (Ascii.eqb c "?"))
                      (orb (Ascii.eqb c "[") (Ascii.eqb c "/"))))
           (plain r)
  end.

(** [list(d.glob("*" + ext))] for a plain [ext]: the entries of the
    directory, files and directories alike, whose name ends with [ext], in
    the order of the directory. *)
Definition glob_suffix (d ext : string) : M (list string) :=
  fun w =>
    (Ok (match node_at w d with
         | Some (FS.Dir es) =>
             map (fun kv => child d (fst kv))
                 (filter (fun kv => endswith (fst kv) ext) es)
         | _ => []
         end), w).

Section Listing.
(** [list(d.glob(pattern))] for the other patterns, with more wildcards,
    character classes or several components: the matching of [pathlib] is
    not written out.  It reads the file system and it can raise
    ([ValueError] for a misplaced [**]). *)
Variable glob_pattern : string -> string -> world -> result (list string).

(** [list(d.glob(pattern))] *)
Definition glob (d pattern : string) : M (list string) :=
  fun w =>
    match pattern with
    | String "*" ext =>
        if plain ext then glob_suffix d ext w else (glob_pattern d pattern w, w)
    | _ => (glob_pattern d pattern w, w)
    end.

(** The loop of [process_directory] over [extensions]:
    [files.extend(list(input_path.glob(f"*{ext}")))]. *)
Definition gather_files (input_path : string) (extensions : list string)
  : M (list string) :=
  for_each extensions
           (fun ext files =>
              found <- glob input_path ("*" ++ ext) ;;
              ret (files ++ found)%list)
           [].
End Listing.

Section Floats.
(** Python's [float], with the two tests the script makes on one and
    [str]. *)
Variable float : Type.
Variable float_ne_one : float -> bool.   (** [x != 1.0] *)
Variable float_gt_one : float -> bool.   (** [x > 1.0] *)
Variable str_float : float -> string.    (** [str(x)] *)

(** The keyword arguments of [convert_image]. *)
Record options : Type := Options {
  crop : option string;
  zslices : option string;
  timepoints : option string;
  downsample : float;
  pyramid_scale : float;
  big_tiff : option bool;
  tile_size : option Z;
  tile_width : Z;
  tile_height : Z;
  compression : option string;
  parallelize : bool;
  overwrite : bool;
  series : option Z
}.

Definition str_opt (flag : string) (v : option string) : list string :=
  match v with
  | Some s => if truthy s then [flag; s] else []
  | None => []
  end.

(** [if v is not None: cmd.extend([flag, str(v)])] *)
Definition given_int (flag : string) (v : option Z) : list string :=
  match v with
  | Some n => [flag; str_int n]
  | None => []
  end.

(** The command line [cmd] of [convert_image]. *)
Definition convert_cmd (input_path output_path : string) (o : options)
  : list string :=
  (["QuPath"; "convert-ome"]
   ++ str_opt "-r" (crop o)
   ++ str_opt "-z" (zslices o)
   ++ str_opt "-t" (timepoints o)
   ++ (if float_ne_one (downsample o) then ["-d"; str_float (downsample o)] else [])
   ++ (if float_gt_one (pyramid_scale o)
       then ["-y"; str_float (pyramid_scale o)] else [])
   ++ (match big_tiff o with
       | Some b => [if b then "--big-tiff" else "--big-tiff=false"]
       | None => []
       end)
   ++ given_int "--tile-size" (tile_size o)
   ++ (if Z.eqb (tile_width o) 512 then []
       else ["--tile-width"; str_int (tile_width o)])
   ++ (if Z.eqb (tile_height o) 512 then []
       else ["--tile-height"; str_int (tile_height o)])
   ++ str_opt "-c" (compression o)
   ++ (if parallelize o then [] else ["--no-parallelize"])
   ++ (if overwrite o then ["--overwrite"] else [])
   ++ given_int "--series" (series o)
   ++ [input_path; output_path])%list.

(** [e.stderr] *)
Definition stderr_of (e : exn) : string :=
  match e with
  | CalledProcessError _ _ stderr => stderr
  | _ => ""
  end.

(** The namespace of the argument parser of [main]. *)
Record args : Type := Args {
  input : string;
  output : string;
  format : string;
  extensions : list string;
  opts : options
}.

Section Run.
Variable exec : capturing_tool.
Variable glob_pattern : string -> string -> world -> result (list string).

(** [convert_image(input_path, output_path, **kwargs)] *)
Definition convert_image (input_path output_path : string) (o : options)
  : M bool :=
  let cmd := convert_cmd input_path output_path o in
  attempt
    (subprocess_run_captured exec cmd ;;
     print ("Successfully converted " ++ input_path ++ " to " ++ output_path))
    is_CalledProcessError
    (fun e => print ("Error converting " ++ input_path ++ ": " ++ stderr_of e)).

(** The body of the loop of [process_directory] over [files]. *)
Definition process_file (output_path output_format : string) (o : options)
           (file : string) (success_count : nat) : M nat :=
  let output_file :=
    if String.eqb output_format "tiff"
    then child output_path (stem (posixpath.basename file) ++ ".ome.tiff")
    else child output_path (stem (posixpath.basename file) ++ ".ome.zarr") in
  converted <- convert_image file output_file o ;;
  ret (if converted then success_count + 1 else success_count).

(** [process_directory(input_dir, output_dir, output_format,
    extensions, **kwargs)] *)
Definition process_directory (input_dir output_dir output_format : string)
           (extensions : list string) (o : options) : M unit :=
  let input_path := Path input_dir in
  let output_path := Path output_dir in
  os_makedirs output_path ;;
  files <- gather_files glob_pattern input_path extensions ;;
  match files with
  | [] =>
      print ("No files with extensions " ++ repr_list extensions
             ++ " found in " ++ input_dir)
  | _ =>
      success_count <- for_each files
                         (process_file output_path output_format o) 0 ;;
      print ("Successfully converted " ++ str_nat success_count ++ " of "
             ++ str_nat (length files) ++ " files")
  end.

(** [main()], after [args = parser.parse_args()]. *)
Definition main (a : args) : M unit :=
  let input_path := Path (input a) in
  isfile <- os_path_isfile input_path ;;
  if isfile then
    let output_path :=
      if orb (endswith (output a) ".ome.tiff") (endswith (output a) ".ome.zarr")
      then output a
      else if String.eqb (format a) "tiff" then output a ++ ".ome.tiff"
           else output a ++ ".ome.zarr" in
    convert_image input_path output_path (opts a) ;;
    ret tt
  else
    isdir <- os_path_isdir input_path ;;
    if isdir then
      process_directory input_path (output a) (format a) (extensions a) (opts a)
    else
      print ("Error: Input path '" ++ input a ++ "' does not exist") ;;
      sys_exit 1.
End Run.
End Floats.

End qupath_img2ome.

(* ================================================================== *)
(** * Vocabulary of the properties *)

(** The command lines of the child processes started, oldest first. *)
Definition spawned (l : list event) : list (list string) :=
  flat_map (fun e => match e with Spawn argv => [argv] | Stdout _ => [] end) l.

(** The lines printed, oldest first. *)
Definition printed (l : list event) : list string :=
  flat_map (fun e => match e with Stdout line => [line] | Spawn _ => [] end) l.

(** [os.path.exists(p)], [os.path.isdir(p)] and [os.path.isfile(p)] as
    tests on a world. *)
Definition exists_in (w : world) (p : string) : bool :=
  match node_at w p with Some _ => true | None => false end.

Definition isdir_in (w : world) (p : string) : bool :=
  match node_at w p with Some (FS.Dir _) => true | _ => false end.

Definition isfile_in (w : world) (p : string) : bool :=
  match node_at w p with Some (FS.File _) => true | _ => false end.

(** A string without a slash. *)
Fixpoint no_sep (n : string) : bool :=
  match n with
  | EmptyString => true
  | String c r => andb (negb (Ascii.eqb c PyStr.sep)) (no_sep r)
  end.

(** A file name: not empty, without a slash, and neither [.] nor [..]. *)
Definition proper_name (n : string) : bool :=
  andb (andb (PyStr.truthy n) (no_sep n))
       (negb (orb (String.eqb n ".") (String.eqb n ".."))).

(** [file_beneath top n name p]: the directory [n], reached as [top], has
    somewhere beneath it a regular file called [name], and [p] is its path
    as [os.path.join] builds it from [top] on the way down. *)
Inductive file_beneath : string -> FS.node -> string -> string -> Prop :=
| beneath_here : forall top es name content,
    In (name, FS.File content) es ->
    file_beneath top (FS.Dir es) name (posixpath.join top name)
| beneath_deeper : forall top es d sub name p,
    In (d, sub) es ->
    file_beneath (posixpath.join top d) sub name p ->
    file_beneath top (FS.Dir es) name p.

(** The path [os.walk] gives to what lies [comps] below [top]. *)
Definition path_below (top : string) (comps : list string) : string :=
  fold_left posixpath.join comps top.

(** The components that [normpath] keeps of an absolute path. *)
Definition kept (s : string) : list string :=
  fold_left (posixpath.norm_step 1) (PyStr.split PyStr.sep s) [].

(** [abspath] before [normpath]: the path itself, or the path in the working
    directory. *)
Definition anchored (c p : string) : string :=
  if posixpath.isabs p then p else posixpath.join c p.

(** Components that are not empty and hold no slash. *)
Definition clean (comps : list string) : Prop :=
  Forall (fun c => no_sep c = true /\ PyStr.truthy c = true) comps.

(** The numeric options of [img2ome.py] that are passed on to a tool. *)
Inductive numeric_option : Type :=
| TileWidth | TileHeight | Resolutions | MaxWorkers | OmetiffQuality.

(** The namespace [a] with the numeric option [o] set to [v]. *)
Definition set_numeric (o : numeric_option) (v : option Z) (a : img2ome.args)
  : img2ome.args :=
  match a with
  | img2ome.Args i od kz ow pr tw th rs co mw se nm md dt oc oq rg sp spl db =>
      match o with
      | TileWidth =>
          img2ome.Args i od kz ow pr v th rs co mw se nm md dt oc oq rg sp spl db
      | TileHeight =>
          img2ome.Args i od kz ow pr tw v rs co mw se nm md dt oc oq rg sp spl db
      | Resolutions =>
          img2ome.Args i od kz ow pr tw th v co mw se nm md dt oc oq rg sp spl db
      | MaxWorkers =>
          img2ome.Args i od kz ow pr tw th rs co v se nm md dt oc oq rg sp spl db
      | OmetiffQuality =>
          img2ome.Args i od kz ow pr tw th rs co mw se nm md dt oc v rg sp spl db
      end
  end.

(** The flag the tool gets for the option. *)
Definition tool_flag (o : numeric_option) : string :=
  match o with
  | TileWidth => "--tile-width"
  | TileHeight => "--tile-height"
  | Resolutions => "--resolutions"
  | MaxWorkers => "--max-workers"
  | OmetiffQuality => "--quality"
  end.

(** The argument list the option goes to. *)
Definition tool_args (o : numeric_option) (a : img2ome.args) : list string :=
  match o with
  | OmetiffQuality => img2ome.raw2ometiff_args a
  | _ => img2ome.bf2raw_args a
  end.

(** What each item of the loop of [img2ome.main] gave, in order, up to the
    first item that raised: the loop itself only keeps the count. *)
Fixpoint item_results (exec : tool) (a : img2ome.args) (input_dir : string)
         (image_paths : list string) (w : world) : list (result bool) :=
  match image_paths with
  | [] => []
  | image_path :: rest =>
      match img2ome.convert_item exec a input_dir image_path w with
      | (Ok b, w') => Ok b :: item_results exec a input_dir rest w'
      | (Raise e, _) => [Raise e]
      end
  end.

Definition returned_true (r : result bool) : bool :=
  match r with Ok true => true | _ => false end.

Definition returned (r : result bool) : bool :=
  match r with Ok _ => true | Raise _ => false end.

(** The child process ran and failed: it exited with a status that is not
    zero, or a signal killed it. *)
Definition ran_and_failed (e : proc_end) : bool :=
  match e with
  | Exited status => negb (N.eqb status 0)
  | Killed _ => true
  | NotFound => false
  end.

(** How the child process of a command line ends in a world, and the file
    system it leaves. *)
Definition ending (exec : tool) (cmd : list string) (w : world) : proc_end :=
  fst (fst (exec cmd (cwd w) (fs w))).

Definition fs_after (exec : tool) (cmd : list string) (w : world) : FS.node :=
  snd (exec cmd (cwd w) (fs w)).

(** The same for a tool whose output is captured, with what it wrote. *)
Definition captured_ending (exec : capturing_tool) (cmd : list string) (w : world)
  : proc_end :=
  fst (fst (exec cmd (cwd w) (fs w))).

Definition captured_output (exec : capturing_tool) (cmd : list string) (w : world)
  : captured :=
  snd (fst (exec cmd (cwd w) (fs w))).

(** [output_file] of the loop of [process_directory]. *)
Definition output_file (output_path output_format file : string) : string :=
  if String.eqb output_format "tiff"
  then qupath_img2ome.child output_path
         (qupath_img2ome.stem (posixpath.basename file) ++ ".ome.tiff")
  else qupath_img2ome.child output_path
         (qupath_img2ome.stem (posixpath.basename file) ++ ".ome.zarr").

(** What each item of the loop of [process_directory] gave, in order, up to
    the first item that raised. *)
Fixpoint qupath_item_results
         {float : Type} (float_ne_one float_gt_one : float -> bool)
         (str_float : float -> string) (exec : capturing_tool)
         (output_path output_format : string) (o : qupath_img2ome.options float)
         (files : list string) (w : world) : list (result bool) :=
  match files with
  | [] => []
  | file :: rest =>
      match qupath_img2ome.convert_image
              float_ne_one float_gt_one str_float exec file
              (output_file output_path output_format file) o w with
      | (Ok b, w') =>
          Ok b :: qupath_item_results float_ne_one float_gt_one str_float exec
                                      output_path output_format o rest w'
      | (Raise e, _) => [Raise e]
      end
  end.

(** How many items returned [True]. *)
Definition count_true (rs : list (result bool)) : nat :=
  length (filter returned_true rs).

(** An exception other than [SystemExit]: uncaught, it ends the process
    with a traceback and status 1. *)
Definition not_exit (e : exn) : bool :=
  match e with SystemExit _ => false | _ => true end.

(** A computation that never raises [SystemExit]. *)
Definition never_exits {A : Type} (m : M A) : Prop :=
  forall w e w', m w = (Raise e, w') -> not_exit e = true.

(** A computation that keeps an invariant of the world, whether it returns
    or raises. *)
Definition preserves {A : Type} (I : world -> Prop) (m : M A) : Prop :=
  forall w r w', I w -> m w = (r, w') -> I w'.

(** The working directory is [c0] and the file system has the property
    [P]: an invariant for tools and removals that keep [P]. *)
Definition kept_world (c0 : list string) (P : FS.node -> Prop) (w : world) : Prop :=
  cwd_parts w = c0 /\ P (fs w).

(** The line [convert_image] prints when it skips an image. *)
Definition skip_line (image_path output_dir : string) : string :=
  "Skipping " ++ image_path ++ " as output "
  ++ img2ome.ometiff_path image_path output_dir
  ++ " exists. Use --overwrite to replace.".

(** The OME-TIFF of every image of the batch is on disk. *)
Definition outputs_exist (a : img2ome.args) (input_dir : string)
           (image_paths : list string) (w : world) : Prop :=
  forall image_path rel_path,
    In image_path image_paths ->
    posixpath.relpath (cwd w) image_path input_dir = Some rel_path ->
    exists_in w (img2ome.ometiff_path image_path (img2ome.output_subdir a rel_path))
    = true.

(** A tool that leaves the directory at [p] a directory. *)
Definition keeps_dir (exec : tool) (p : list string) : Prop :=
  forall cmd dir n es,
    FS.lookup p n = Some (FS.Dir es) ->
    exists es', FS.lookup p (snd (exec cmd dir n)) = Some (FS.Dir es').








(* ================================================================== *)
(** * Scenarios: concrete tools, file systems and command lines *)

Module Scenario.

(** The last argument of a command line: where the tool writes. *)
Definition target (dir : string) (cmd : list string) : list string :=
  FS.resolve dir (last cmd "").

(** Both tools work: bioformats2raw writes a zarr directory and
    raw2ometiff writes the OME-TIFF file. *)
Definition converters : tool :=
  fun cmd dir n =>
    match cmd with
    | "bioformats2raw" :: _ =>
        (Exited 0, "", FS.put (target dir cmd) (FS.Dir [(".zattrs", FS.File "{}")]) n)
    | "raw2ometiff" :: _ =>
        (Exited 0, "", FS.put (target dir cmd) (FS.File "II*") n)
    | _ => (NotFound, "", n)
    end.

(** bioformats2raw works, raw2ometiff exits with status 1. *)
Definition raw2ometiff_fails : tool :=
  fun cmd dir n =>
    match cmd with
    | "bioformats2raw" :: _ =>
        (Exited 0, "", FS.put (target dir cmd) (FS.Dir [(".zattrs", FS.File "{}")]) n)
    | "raw2ometiff" :: _ => (Exited 1, "cannot write", n)
    | _ => (NotFound, "", n)
    end.

(** bioformats2raw works and raw2ometiff is not installed. *)
Definition raw2ometiff_missing : tool :=
  fun cmd dir n =>
    match cmd with
    | "bioformats2raw" :: _ =>
        (Exited 0, "", FS.put (target dir cmd) (FS.Dir [(".zattrs", FS.File "{}")]) n)
    | _ => (NotFound, "", n)
    end.

(** No tool is installed. *)
Definition nothing_installed : tool := fun _ _ n => (NotFound, "", n).

(** Every tool exits with status 1 and writes nothing. *)
Definition always_fails : tool := fun _ _ n => (Exited 1, "failed", n).

(** Every tool is killed by signal 9. *)
Definition always_killed : tool := fun _ _ n => (Killed 9, "", n).

(** Both tools work, and raw2ometiff honours [--split]: asked to split
    its output into several files, it writes none under the name it was
    given. *)
Definition splitting : tool :=
  fun cmd dir n =>
    match cmd with
    | "bioformats2raw" :: _ =>
        (Exited 0, "", FS.put (target dir cmd) (FS.Dir [(".zattrs", FS.File "{}")]) n)
    | "raw2ometiff" :: _ =>
        if PyStr.mem "--split" cmd
        then (Exited 0, "",
              FS.put (FS.resolve dir (last cmd "" ++ "_s0")) (FS.File "II*") n)
        else (Exited 0, "", FS.put (target dir cmd) (FS.File "II*") n)
    | _ => (NotFound, "", n)
    end.

(** [/data/in] holds [x.tif], [y.png] and [z.txt]. *)
Definition flat_tree : FS.node :=
  FS.Dir [("data",
           FS.Dir [("in", FS.Dir [("x.tif", FS.File "x");
                                  ("y.png", FS.File "y");
                                  ("z.txt", FS.File "z")])])].

(** [/data/root/a/b] holds [img.tif]. *)
Definition deep_tree : FS.node :=
  FS.Dir [("data",
           FS.Dir [("root",
                    FS.Dir [("a", FS.Dir [("b", FS.Dir [("img.tif", FS.File "i")])])])])].

(** [/data/in] holds [a.tif], [B.TIF] and [sub/c.tif]. *)
Definition mixed_tree : FS.node :=
  FS.Dir [("data",
           FS.Dir [("in", FS.Dir [("a.tif", FS.File "a");
                                  ("B.TIF", FS.File "b");
                                  ("sub", FS.Dir [("c.tif", FS.File "c")])])])].

(** [/data/in] is empty. *)
Definition empty_tree : FS.node :=
  FS.Dir [("data", FS.Dir [("in", FS.Dir [])])].

(** A world in [/data], with nothing printed yet. *)
Definition at_data (n : FS.node) : world := World n ["data"] [].

(** [/data/in] with [x.tif], [y.png] and [z.txt], and an empty
    [/data/out]. *)
Definition ready : world := snd (os_makedirs "out" (at_data flat_tree)).

(** [img2ome.py INPUT OUTPUT], with or without [--overwrite]. *)
Definition cli (input output : string) (overwrite : bool) : img2ome.args :=
  img2ome.Args input output false overwrite false None None None None None None
               false None None "LZW" None false false false false.

(** The world after [img2ome.py in out] with both tools at work, from
    [/data/in] with [x.tif], [y.png] and [z.txt]. *)
Definition converted : world :=
  snd (img2ome.main converters (cli "in" "out" false) (at_data flat_tree)).

(** The world after the loop of [img2ome.py in out] over [in/x.tif] and
    [in/y.png], with both tools at work. *)
Definition converted_twice : world :=
  snd (for_each ["in/x.tif"; "in/y.png"]
                (img2ome.convert_one converters (cli "in" "out" false) "in") 0 ready).

(** [img2ome.py INPUT OUTPUT --split] *)
Definition cli_split (input output : string) : img2ome.args :=
  img2ome.Args input output false false false None None None None None None
               false None None "LZW" None false true false false.

(** The world after the loop of [img2ome.py in out --split] over the same
    images, with a raw2ometiff that splits. *)
Definition split_once : world :=
  snd (for_each ["in/x.tif"; "in/y.png"]
                (img2ome.convert_one splitting (cli_split "in" "out") "in") 0 ready).

(** Floats that hold whole numbers. *)
Definition whole_ne_one (x : Z) : bool := negb (Z.eqb x 1).
Definition whole_gt_one (x : Z) : bool := Z.ltb 1 x.
Definition str_whole (x : Z) : string := PyStr.str_int x ++ ".0".

(** The defaults of the options of [qupath_img2ome.py]. *)
Definition qupath_defaults : qupath_img2ome.options Z :=
  qupath_img2ome.Options None None None 1%Z 1%Z None None 512 512 None true false None.

(** The default of [--extensions]. *)
Definition qupath_extensions : list string :=
  [".tif"; ".tiff"; ".svs"; ".ndpi"; ".jpg"; ".jpeg"; ".png"; ".czi"].

(** [qupath_img2ome.py INPUT OUTPUT] *)
Definition qupath_cli (input output : string) : qupath_img2ome.args Z :=
  qupath_img2ome.Args input output "tiff" qupath_extensions qupath_defaults.

(** A tool whose standard error is text and whose standard output is
    empty, as [subprocess.run] captures it. *)
Definition captured_text (t : tool) : capturing_tool :=
  fun cmd dir n =>
    match t cmd dir n with
    | (e, stderr, n') => (e, Text "" stderr, n')
    end.

(** A tool that exits with status 1 after it wrote bytes that do not
    decode. *)
Definition garbled : capturing_tool :=
  fun _ _ n =>
    (Exited 1,
     Undecodable "'utf-8' codec can't decode byte 0xff in position 0: invalid start byte",
     n).

(** The scenarios only list with plain extensions: no other pattern is
    met. *)
Definition no_pattern : string -> string -> world -> result (list string) :=
  fun _ _ _ => Ok [].

Definition qupath_main (exec : capturing_tool) (a : qupath_img2ome.args Z)
  : M unit :=
  qupath_img2ome.main whole_ne_one whole_gt_one str_whole exec no_pattern a.

Definition qupath_convert_image (exec : capturing_tool)
           (input_path output_path : string) : M bool :=
  qupath_img2ome.convert_image whole_ne_one whole_gt_one str_whole exec
                               input_path output_path qupath_defaults.

End Scenario.

(* ================================================================== *)
(** * Properties *)

Unset Implicit Arguments.

(** ** The model on small inputs, as Python answers *)

Section Checks.
Import PyStr posixpath.

Example splitext_last_dot : splitext "a/b.c/x.tar.GZ" = ("a/b.c/x.tar", ".GZ").
Proof. reflexivity. Qed.

Example splitext_leading_dot : splitext "a/.bashrc" = ("a/.bashrc", "").
Proof. reflexivity. Qed.

Example splitext_final_dot : splitext "a." = ("a", ".").
Proof. reflexivity. Qed.

Example lower_extension : lower (snd (splitext "img.TIF")) = ".tif".
Proof. reflexivity. Qed.

Example basename_dirname :
  (basename "a/b/c.tif", dirname "a/b/c.tif", dirname "c.tif", dirname "/c", dirname "a//b")
  = ("c.tif", "a/b", "", "/", "a").
Proof. reflexivity. Qed.

Example join_cases :
  (join "out" "", join "out/" "a", join "" "a", join "out" "/a", join "out" "a/b")
  = ("out/", "out/a", "a", "/a", "out/a/b").
Proof. reflexivity. Qed.

Example normpath_cases :
  (normpath "a//b/./c/../d", normpath "", normpath "//a", normpath "///a", normpath "/..")
  = ("a/b/d", ".", "//a", "/a", "/").
Proof. reflexivity. Qed.

Example relpath_cases :
  (relpath "/home/u" "in/a/b/img.tif" "in", relpath "/home/u" "x.tif" "",
   relpath "/home/u" "a" "b/c", relpath "/home/u" "" "in")
  = (Some "a/b/img.tif", Some "x.tif", Some "../../a", None).
Proof. reflexivity. Qed.

Example pathlib_cases :
  (qupath_img2ome.Path "in/", qupath_img2ome.Path "./in//x", qupath_img2ome.Path "",
   qupath_img2ome.stem "x.ome.tiff", qupath_img2ome.stem ".bashrc",
   qupath_img2ome.child "." "x.tif")
  = ("in", "in/x", ".", "x.ome", ".bashrc", "x.tif").
Proof. reflexivity. Qed.

Example str_int_cases : (str_int 0, str_int 512, str_int (-3)) = ("0", "512", "-3").
Proof. reflexivity. Qed.

Example str_exn_cases :
  (str_exn (CalledProcessError ["a"; "b c"] 1 ""),
   str_exn (CalledProcessError ["a"; "b c"] (-9) ""),
   str_exn (CalledProcessError ["a"; "b c"] (-33) ""),
   str_exn (OSError EISDIR "out/x.ome.tiff"))
  = ("Command '['a', 'b c']' returned non-zero exit status 1.",
     "Command '['a', 'b c']' died with <Signals.SIGKILL: 9>.",
     "Command '['a', 'b c']' died with unknown signal 33.",
     "[Errno 21] Is a directory: 'out/x.ome.tiff'").
Proof. reflexivity. Qed.

Example glob_cases :
  let w := Scenario.at_data Scenario.mixed_tree in
  (fst (qupath_img2ome.glob Scenario.no_pattern "in" "*.tif" w),
   fst (qupath_img2ome.glob Scenario.no_pattern "in" "*tif" w),
   fst (qupath_img2ome.glob Scenario.no_pattern "in" "*" w),
   fst (qupath_img2ome.glob Scenario.no_pattern "nowhere" "*.tif" w),
   qupath_img2ome.plain ".[tT][iI][fF]", qupath_img2ome.plain "/*.tif")
  = (Ok ["in/a.tif"], Ok ["in/a.tif"], Ok ["in/a.tif"; "in/B.TIF"; "in/sub"], Ok [],
     false, false).
Proof. reflexivity. Qed.

Example find_images_flat :
  fst (img2ome.find_images "in" (Scenario.at_data Scenario.flat_tree))
  = Ok ["in/x.tif"; "in/y.png"].
Proof. reflexivity. Qed.

Example find_images_single_file :
  (fst (img2ome.find_images "in/x.tif" (Scenario.at_data Scenario.flat_tree)),
   fst (img2ome.find_images "in/z.txt" (Scenario.at_data Scenario.flat_tree)),
   fst (img2ome.find_images "nowhere" (Scenario.at_data Scenario.flat_tree)))
  = (Ok ["in/x.tif"], Ok [], Ok []).
Proof. reflexivity. Qed.

Example main_converts_flat_tree :
  let run := img2ome.main Scenario.converters (Scenario.cli "in" "out" false)
                          (Scenario.at_data Scenario.flat_tree) in
  exit_status (fst run) = 0%Z
  /\ spawned (log (snd run))
     = [["bioformats2raw"; "in/x.tif"; "out/x.zarr"];
        ["raw2ometiff"; "--compression"; "LZW"; "out/x.zarr"; "out/x.ome.tiff"];
        ["bioformats2raw"; "in/y.png"; "out/y.zarr"];
        ["raw2ometiff"; "--compression"; "LZW"; "out/y.zarr"; "out/y.ome.tiff"]]
  /\ last (printed (log (snd run))) "" = "Successfully converted 2/2 images."
  /\ exists_in (snd run) "out/x.ome.tiff" = true
  /\ exists_in (snd run) "out/x.zarr" = false.
Proof. vm_compute. repeat split. Qed.

Example overwrite_fails_on_directory :
  fst (img2ome.convert_image Scenario.converters "in/x.tif" "in" [] [] false true
         (Scenario.at_data
            (FS.Dir [("data",
                      FS.Dir [("in", FS.Dir [("x.tif", FS.File "x");
                                             ("x.ome.tiff", FS.Dir [])])])])))
  = Ok false.
Proof. reflexivity. Qed.

End Checks.

(** ** Unfolding the monad *)

Lemma bind_ok_inv {A B : Type} (m : M A) (k : A -> M B) (w w' : world) (b : B) :
  bind m k w = (Ok b, w') ->
  exists a w1, m w = (Ok a, w1) /\ k a w1 = (Ok b, w').
Proof.
  unfold bind. destruct (m w) as [[a | e] w1]; [ | discriminate].
  intros H. now exists a, w1.
Qed.

Lemma bind_ok {A B : Type} (m : M A) (k : A -> M B) (w w1 : world) (a : A) :
  m w = (Ok a, w1) -> bind m k w = k a w1.
Proof. unfold bind. now intros ->. Qed.

Lemma bind_raise {A B : Type} (m : M A) (k : A -> M B) (w w1 : world) (e : exn) :
  m w = (Raise e, w1) -> bind m k w = (Raise e, w1).
Proof. unfold bind. now intros ->. Qed.

Lemma print_eq (line : string) (w : world) :
  print line w = (Ok tt, World (fs w) (cwd_parts w) (log w ++ [Stdout line])).
Proof. reflexivity. Qed.

Lemma spawned_app (l1 l2 : list event) :
  spawned (l1 ++ l2) = (spawned l1 ++ spawned l2)%list.
Proof. unfold spawned. apply flat_map_app. Qed.

Lemma printed_app (l1 l2 : list event) :
  printed (l1 ++ l2) = (printed l1 ++ printed l2)%list.
Proof. unfold printed. apply flat_map_app. Qed.

(** ** The command lines of [img2ome.py] *)

Section Options.
Import img2ome.

Lemma int_opt_zero (flag : string) : int_opt flag (Some 0%Z) = int_opt flag None.
Proof. reflexivity. Qed.

Lemma int_opt_nonzero (flag : string) (n : Z) :
  n <> 0%Z -> int_opt flag (Some n) = [flag; PyStr.str_int n].
Proof.
  intros H. unfold int_opt. destruct (Z.eqb_spec n 0); [contradiction | reflexivity].
Qed.

(** C10. In [img2ome.py] a numeric option given the value 0
    ([--tile-width 0], [--tile-height 0], [--resolutions 0],
    [--max-workers 0], [--ometiff-quality 0]) leaves both argument lists,
    and so the whole run, as they are when the option is not given; a
    value that is not 0 is passed to the tool as the flag followed by the
    number. *)
Theorem zero_numeric_option_is_omitted (exec : tool) (o : numeric_option) (a : args) :
  (bf2raw_args (set_numeric o (Some 0%Z) a) = bf2raw_args (set_numeric o None a)
   /\ raw2ometiff_args (set_numeric o (Some 0%Z) a)
      = raw2ometiff_args (set_numeric o None a)
   /\ main exec (set_numeric o (Some 0%Z) a) = main exec (set_numeric o None a))
  /\ (forall n : Z, n <> 0%Z ->
      exists before after : list string,
        tool_args o (set_numeric o (Some n) a)
        = (before ++ [tool_flag o; PyStr.str_int n] ++ after)%list
        /\ tool_args o (set_numeric o None a) = (before ++ after)%list).
Proof.
  split.
  - destruct a, o; repeat split; reflexivity.
  - intros n Hn.
    destruct a as [i od kz ow pr tw th rs co mw se nm md dt oc oq rg sp spl db].
    destruct o; unfold tool_args, set_numeric, bf2raw_args, raw2ometiff_args;
      cbn [progress tile_width tile_height resolutions compression max_workers
           series no_minmax memo_directory downsample_type overwrite debug
           ometiff_compression ometiff_quality rgb split split_planes];
      rewrite (int_opt_nonzero _ _ Hn).
    + exists (flag_opt "-p" pr). eexists. split; [reflexivity | reflexivity].
    + exists (flag_opt "-p" pr ++ int_opt "--tile-width" tw)%list. eexists.
      rewrite <- !app_assoc. split; reflexivity.
    + exists (flag_opt "-p" pr ++ int_opt "--tile-width" tw
              ++ int_opt "--tile-height" th)%list. eexists.
      rewrite <- !app_assoc. split; reflexivity.
    + exists (flag_opt "-p" pr ++ int_opt "--tile-width" tw
              ++ int_opt "--tile-height" th ++ int_opt "--resolutions" rs
              ++ str_opt "--compression" co)%list. eexists.
      rewrite <- !app_assoc. split; reflexivity.
    + exists (flag_opt "-p" pr ++ ["--compression"; oc])%list. eexists.
      rewrite <- !app_assoc. split; reflexivity.
Qed.

Lemma zero_numeric_option_is_omitted_witness :
  (3 <> 0)%Z
  /\ bf2raw_args (set_numeric TileWidth (Some 0%Z) (Scenario.cli "in" "out" false)) = []
  /\ (exists before after : list string,
        tool_args TileWidth (set_numeric TileWidth (Some 3%Z) (Scenario.cli "in" "out" false))
        = (before ++ ["--tile-width"; "3"] ++ after)%list
        /\ tool_args TileWidth (set_numeric TileWidth None (Scenario.cli "in" "out" false))
           = (before ++ after)%list).
Proof.
  split; [lia | split; [reflexivity | ]].
  apply (proj2 (zero_numeric_option_is_omitted Scenario.converters TileWidth
                  (Scenario.cli "in" "out" false)) 3%Z).
  lia.
Defined.
End Options.

(** ** Strings and paths *)

Section PathFacts.
Import PyStr.

Lemma append_nil_r (s : string) : s ++ "" = s.
Proof. induction s; simpl; congruence. Qed.

Lemma append_assoc (a b c : string) : (a ++ b) ++ c = a ++ (b ++ c).
Proof. induction a; simpl; congruence. Qed.

Lemma truthy_append_r (a b : string) : truthy b = true -> truthy (a ++ b) = true.
Proof. destruct a; simpl; auto. Qed.

Lemma truthy_false (a : string) : truthy a = false -> a = "".
Proof. destruct a; simpl; congruence. Qed.

Lemma split_not_nil (c : ascii) (s : string) : split c s <> [].
Proof.
  induction s as [ | a r IH]; simpl; [discriminate | ].
  destruct (Ascii.eqb a c); [discriminate | ].
  destruct (split c r); [contradiction | discriminate].
Qed.

(** Splitting at a slash that is there. *)
Lemma split_append_sep (x y : string) :
  split sep (x ++ String sep y) = (split sep x ++ split sep y)%list.
Proof.
  induction x as [ | a r IH]; simpl.
  - reflexivity.
  - rewrite IH. destruct (Ascii.eqb a sep); [reflexivity | ].
    destruct (split sep r) eqn:E; [now apply split_not_nil in E | reflexivity].
Qed.

Lemma split_no_sep (n : string) : no_sep n = true -> split sep n = [n].
Proof.
  induction n as [ | a r IH]; simpl; [reflexivity | ].
  intros H. apply andb_prop in H as [Ha Hr].
  apply negb_true_iff in Ha. rewrite Ha, (IH Hr). reflexivity.
Qed.

Lemma endswith_cons (a : ascii) (r p : string) :
  endswith (String a r) p
  = if String.eqb (String a r) p then true else endswith r p.
Proof. reflexivity. Qed.

Lemma endswith_sep_inv (s : string) :
  endswith s "/" = true -> exists x, s = x ++ "/".
Proof.
  induction s as [ | a r IH]; [discriminate | ].
  rewrite endswith_cons.
  destruct (String.eqb_spec (String a r) "/") as [E | E].
  - intros _. exists "". exact E.
  - intros H. destruct (IH H) as [x Hx]. exists (String a x). simpl. congruence.
Qed.

Lemma endswith_append (a d p : string) :
  String.length p <= String.length d -> endswith (a ++ d) p = endswith d p.
Proof.
  intros Hd. induction a as [ | c a IH]; [reflexivity | ].
  change (String c a ++ d) with (String c (a ++ d)).
  rewrite endswith_cons, IH.
  destruct (String.eqb_spec (String c (a ++ d)) p) as [E | E]; [ | reflexivity].
  exfalso. subst p. simpl in Hd.
  assert (L : forall u v : string, String.length (u ++ v) = String.length u + String.length v).
  { induction u; simpl; intros; [reflexivity | now rewrite IHu]. }
  rewrite L in Hd. lia.
Qed.

Lemma startswith_sep_append (d y : string) :
  truthy d = true -> startswith (d ++ y) "/" = startswith d "/".
Proof. destruct d; simpl; [discriminate | reflexivity]. Qed.

Lemma proper_name_inv (n : string) :
  proper_name n = true ->
  truthy n = true /\ no_sep n = true /\ n <> "." /\ n <> ".." /\ n <> "".
Proof.
  unfold proper_name. intros H.
  apply andb_prop in H as [H1 H2]. apply andb_prop in H1 as [H0 H1].
  apply negb_true_iff, orb_false_iff in H2 as [H2 H3].
  apply String.eqb_neq in H2, H3. repeat split; auto.
  intros ->. discriminate.
Qed.

Lemma proper_not_abs (n : string) : proper_name n = true -> startswith n "/" = false.
Proof.
  intros H. apply proper_name_inv in H as (_ & H & _).
  destruct n as [ | a r]; [reflexivity | ]. simpl in H.
  apply andb_prop in H as [H _]. apply negb_true_iff in H.
  simpl. unfold sep in H. now rewrite H.
Qed.

Lemma join_relative (a b : string) :
  startswith b "/" = false ->
  posixpath.join a b
  = if orb (negb (truthy a)) (endswith a "/") then a ++ b else a ++ "/" ++ b.
Proof. intros H. unfold posixpath.join. now rewrite H. Qed.

(** [os.path.join] with a file name: the name comes after a slash, which
    is added when the directory does not end with one. *)
Lemma join_name (x n : string) :
  proper_name n = true ->
  posixpath.join x n = n /\ x = ""
  \/ (exists x', x = x' ++ "/" /\ posixpath.join x n = x' ++ String sep n)
  \/ (truthy x = true /\ endswith x "/" = false
      /\ posixpath.join x n = x ++ String sep n).
Proof.
  intros H. rewrite (join_relative x n (proper_not_abs _ H)).
  destruct (truthy x) eqn:T.
  - right. destruct (endswith x "/") eqn:E; cbn [negb orb].
    + left. destruct (endswith_sep_inv _ E) as [x' Hx']. exists x'.
      split; [exact Hx' | ]. rewrite Hx', append_assoc. reflexivity.
    + right. repeat split.
  - left. apply truthy_false in T. subst x. split; reflexivity.
Qed.

Lemma resolve_step_proper (stack : list string) (n : string) :
  proper_name n = true -> FS.resolve_step stack n = (stack ++ [n])%list.
Proof.
  intros H. apply proper_name_inv in H as (_ & _ & H1 & H2 & H0).
  unfold FS.resolve_step.
  apply String.eqb_neq in H0, H1, H2. rewrite H0, H1, H2. reflexivity.
Qed.

(** The components of a path that ends with a file name. *)
Lemma components_join (x n : string) :
  proper_name n = true ->
  fold_left FS.resolve_step (split sep (posixpath.join x n)) []
  = (fold_left FS.resolve_step (split sep x) [] ++ [n])%list.
Proof.
  intros H. pose proof (proper_name_inv _ H) as (_ & Hn & _).
  destruct (join_name x n H) as [[E ->] | [(x' & -> & E) | (_ & _ & E)]]; rewrite E.
  - rewrite (split_no_sep _ Hn). simpl. now apply resolve_step_proper.
  - change ("/") with (String sep ""). rewrite !split_append_sep, !fold_left_app.
    rewrite (split_no_sep _ Hn). simpl. now apply resolve_step_proper.
  - rewrite split_append_sep, fold_left_app, (split_no_sep _ Hn). simpl.
    now apply resolve_step_proper.
Qed.

Lemma join_assoc_name (c d n : string) :
  proper_name n = true ->
  posixpath.join c (posixpath.join d n) = posixpath.join (posixpath.join c d) n.
Proof.
  intros H. pose proof (proper_not_abs _ H) as Hn.
  pose proof (proper_name_inv _ H) as (Ht & _).
  rewrite (join_relative d n Hn), (join_relative (posixpath.join c d) n Hn).
  destruct (truthy d) eqn:Td.
  - (* d is not empty *)
    assert (S1 : forall y, startswith (d ++ y) "/" = startswith d "/")
      by (intros; now apply startswith_sep_append).
    assert (L : 1 <= String.length d) by (destruct d; simpl in *; [discriminate | lia]).
    cbn [negb orb].
    assert (J : posixpath.join c d = d /\ startswith d "/" = true
                \/ exists c', posixpath.join c d = c' ++ d /\ startswith d "/" = false
                              /\ forall y, posixpath.join c (d ++ y) = c' ++ d ++ y).
    { unfold posixpath.join. destruct (startswith d "/") eqn:Sd; [left; auto | right].
      destruct (negb (truthy c) || endswith c "/").
      - exists c. repeat split. intros y. rewrite S1. reflexivity.
      - exists (c ++ "/"). rewrite append_assoc. repeat split.
        intros y. rewrite S1. now rewrite append_assoc. }
    destruct J as [[J Sd] | (c' & J & Sd & Jy)].
    + rewrite J, Td. cbn [negb orb].
      unfold posixpath.join. destruct (endswith d "/"); now rewrite S1, Sd.
    + rewrite J. rewrite (truthy_append_r c' d Td). cbn [negb orb].
      rewrite (endswith_append c' d "/") by (simpl; lia).
      destruct (endswith d "/"); rewrite Jy; now rewrite !append_assoc.
  - (* d is empty *)
    apply truthy_false in Td. subst d. cbn [negb orb]. change ("" ++ n) with n.
    rewrite (join_relative c n Hn).
    unfold posixpath.join. cbn [startswith].
    destruct (truthy c) eqn:Tc; cbn [negb orb].
    + destruct (endswith c "/") eqn:E.
      * rewrite append_nil_r, Tc, E. reflexivity.
      * change (c ++ "/" ++ "") with (c ++ "/").
        rewrite (truthy_append_r c "/") by reflexivity. cbn [negb orb].
        rewrite (endswith_append c "/" "/") by (simpl; lia).
        cbn. now rewrite append_assoc.
    + apply truthy_false in Tc. subst c. reflexivity.
Qed.

(** A file name in a directory: one more component. *)
Lemma resolve_join (c d n : string) :
  proper_name n = true ->
  FS.resolve c (posixpath.join d n) = (FS.resolve c d ++ [n])%list.
Proof.
  intros H. unfold FS.resolve. rewrite (join_assoc_name c d n H).
  now apply components_join.
Qed.

Lemma no_sep_append (x y : string) : no_sep (x ++ y) = andb (no_sep x) (no_sep y).
Proof.
  induction x as [ | a r IH]; simpl; [reflexivity | ].
  rewrite IH. now rewrite andb_assoc.
Qed.

Lemma length_append (x y : string) :
  String.length (x ++ y) = String.length x + String.length y.
Proof. induction x; simpl; [reflexivity | now rewrite IHx]. Qed.

Lemma rpartition_no_sep (n : string) :
  no_sep n = true -> rpartition sep n = ("", n).
Proof.
  induction n as [ | a r IH]; simpl; [reflexivity | ].
  intros H. apply andb_prop in H as [Ha Hr]. rewrite (IH Hr).
  apply negb_true_iff in Ha. now rewrite Ha.
Qed.

(** The last slash splits a path into its directory part, which ends
    with that slash, and its file name. *)
Lemma rpartition_dir_name (x n : string) :
  no_sep n = true -> rpartition sep (x ++ String sep n) = (x ++ "/", n).
Proof.
  intros H. induction x as [ | a r IH]; simpl.
  - rewrite (rpartition_no_sep n H). reflexivity.
  - rewrite IH. destruct r; reflexivity.
Qed.

Lemma rpartition_spec (p : string) :
  p = fst (rpartition sep p) ++ snd (rpartition sep p)
  /\ no_sep (snd (rpartition sep p)) = true.
Proof.
  induction p as [ | a r [IH1 IH2]]; simpl; [split; reflexivity | ].
  destruct (rpartition sep r) as [h t]. simpl in IH1, IH2.
  destruct h as [ | b h]; simpl in *.
  - subst r. destruct (Ascii.eqb a sep) eqn:E; simpl.
    + apply Ascii.eqb_eq in E. subst a. split; [reflexivity | exact IH2].
    + rewrite E, IH2. split; reflexivity.
  - split; [now rewrite IH1 | exact IH2].
Qed.

Lemma rsplit_at_spec (c : ascii) (t a e : string) :
  rsplit_at c t = Some (a, e) -> t = a ++ e.
Proof.
  revert a e. induction t as [ | b r IH]; simpl; [discriminate | ].
  intros a e. destruct (rsplit_at c r) as [[h t'] | ].
  - intros [= <- <-]. simpl. now rewrite (IH h t').
  - destruct (Ascii.eqb b c); [ | discriminate]. intros [= <- <-]. reflexivity.
Qed.

Lemma image_name_no_sep (p : string) : no_sep (img2ome.image_name p) = true.
Proof.
  unfold img2ome.image_name, posixpath.basename, posixpath.splitext.
  destruct (rpartition_spec p) as [_ H].
  set (t := snd (rpartition sep p)) in *.
  rewrite (rpartition_no_sep t H).
  destruct (rsplit_at extsep t) as [[a e] | ] eqn:E; [ | exact H].
  destruct (all_char extsep a); [exact H | ].
  simpl. apply rsplit_at_spec in E. rewrite E, no_sep_append in H.
  now apply andb_prop in H as [H _].
Qed.

(** The name of an artifact, the stem of the image with an extension such
    as [.zarr] or [.ome.tiff], is a file name. *)
Lemma artifact_name_proper (p ext : string) :
  no_sep ext = true -> 3 <= String.length ext ->
  proper_name (img2ome.image_name p ++ ext) = true.
Proof.
  intros He Hl. unfold proper_name.
  rewrite no_sep_append, image_name_no_sep, He.
  assert (L : 3 <= String.length (img2ome.image_name p ++ ext))
    by (rewrite length_append; lia).
  destruct (img2ome.image_name p ++ ext) as [ | a [ | b [ | c r]]];
    simpl in L; try lia.
  simpl. destruct (Ascii.eqb a "."), (Ascii.eqb b "."); reflexivity.
Qed.

Lemma zarr_dir_resolve (c image_path output_dir : string) :
  FS.resolve c (img2ome.zarr_dir image_path output_dir)
  = (FS.resolve c output_dir ++ [(img2ome.image_name image_path ++ ".zarr")%string])%list.
Proof. apply resolve_join, artifact_name_proper; [reflexivity | simpl; lia]. Qed.

Lemma ometiff_path_resolve (c image_path output_dir : string) :
  FS.resolve c (img2ome.ometiff_path image_path output_dir)
  = (FS.resolve c output_dir
     ++ [(img2ome.image_name image_path ++ ".ome.tiff")%string])%list.
Proof. apply resolve_join, artifact_name_proper; [reflexivity | simpl; lia]. Qed.

Lemma join_truthy (x n : string) : truthy n = true -> truthy (posixpath.join x n) = true.
Proof.
  intros H. unfold posixpath.join.
  destruct (startswith n "/"); [exact H | ].
  destruct (negb (truthy x) || endswith x "/"); apply truthy_append_r; auto.
Qed.

End PathFacts.

(** ** The file system tree *)

Section TreeFacts.
Import FS.

Lemma assoc_update_same (name : string) (f : node -> node) (es : list (string * node)) :
  assoc name (update_entry name f es) = option_map f (assoc name es).
Proof.
  induction es as [ | [k v] r IH]; simpl; [reflexivity | ].
  destruct (String.eqb k name) eqn:E; simpl; rewrite E; [reflexivity | exact IH].
Qed.

Lemma assoc_remove_same (name : string) (es : list (string * node)) :
  assoc name (remove_entry name es) = None.
Proof.
  induction es as [ | [k v] r IH]; simpl; [reflexivity | ].
  destruct (String.eqb k name) eqn:E; simpl; [exact IH | now rewrite E].
Qed.

Lemma update_entry_same (name : string) (c : node) (es : list (string * node)) :
  assoc name es = Some c -> update_entry name (fun _ => c) es = es.
Proof.
  induction es as [ | [k v] r IH]; simpl; [reflexivity | ].
  destruct (String.eqb k name) eqn:E.
  - intros [= ->]. reflexivity.
  - intros H. now rewrite (IH H).
Qed.

Lemma assoc_app_new (name : string) (c : node) (es : list (string * node)) :
  assoc name es = None -> assoc name (es ++ [(name, c)]) = Some c.
Proof.
  induction es as [ | [k v] r IH]; simpl.
  - now rewrite String.eqb_refl.
  - destruct (String.eqb k name); [discriminate | exact IH].
Qed.

Lemma lookup_app (p q : list string) (n : node) :
  lookup (p ++ q) n
  = match lookup p n with Some m => lookup q m | None => None end.
Proof.
  revert n. induction p as [ | a p IH]; intros n; simpl; [reflexivity | ].
  destruct n as [c | es]; [reflexivity | ].
  destruct (assoc a es); [apply IH | reflexivity].
Qed.

(** What is beneath a path is in a directory. *)
Lemma lookup_parent (p : list string) (name : string) (n m : node) :
  lookup (p ++ [name]) n = Some m -> exists es, lookup p n = Some (Dir es).
Proof.
  rewrite lookup_app. destruct (lookup p n) as [[c | es] | ]; simpl; try discriminate.
  intros _. now exists es.
Qed.

(** After [delete], nothing is left at the path. *)
Lemma delete_gone (p : list string) (name : string) (n : node) :
  lookup (p ++ [name]) (delete (p ++ [name]) n) = None.
Proof.
  revert n. induction p as [ | a p IH]; intros n.
  - destruct n as [c | es]; simpl; [reflexivity | ].
    now rewrite assoc_remove_same.
  - destruct n as [c | es].
    + simpl. destruct (p ++ [name])%list; reflexivity.
    + change ((a :: p) ++ [name])%list with (a :: (p ++ [name]))%list.
      assert (E : delete (a :: (p ++ [name])) (Dir es)
                  = Dir (update_entry a (delete (p ++ [name])) es)).
      { simpl. destruct (p ++ [name])%list eqn:E; [ | reflexivity].
        now apply app_eq_nil in E as [_ E]. }
      rewrite E. simpl. rewrite assoc_update_same.
      destruct (assoc a es); simpl; [apply IH | reflexivity].
Qed.

(** [delete] beneath a directory leaves the directory. *)
Lemma delete_keeps_dir (p q : list string) (n : node) (es : list (string * node)) :
  q <> [] ->
  lookup p n = Some (Dir es) ->
  exists es', lookup p (delete (p ++ q) n) = Some (Dir es').
Proof.
  intros Hq. revert n es. induction p as [ | a p IH]; intros n es.
  - simpl. intros [= ->]. destruct q as [ | b [ | c q]]; [contradiction | | ];
      simpl; eexists; reflexivity.
  - destruct n as [c | es0]; simpl; [discriminate | ].
    destruct (assoc a es0) as [child | ] eqn:A; [ | discriminate].
    intros H. destruct (IH child es H) as [es' H'].
    destruct (p ++ q)%list eqn:E; [now apply app_eq_nil in E as [_ E] | ].
    simpl. rewrite assoc_update_same, A. simpl. exists es'. exact H'.
Qed.

(** [mkdirs] leaves a directory at the path. *)
Lemma mkdirs_dir (p : list string) (n n' : node) :
  mkdirs p n = Some n' -> exists es, lookup p n' = Some (Dir es).
Proof.
  revert n n'. induction p as [ | a p IH]; intros n n'.
  - destruct n as [c | es]; simpl; [discriminate | ].
    intros [= <-]. now exists es.
  - destruct n as [c | es]; simpl; [discriminate | ].
    destruct (assoc a es) as [child | ] eqn:A.
    + destruct (mkdirs p child) as [c' | ] eqn:Mk; [ | discriminate].
      intros [= <-]. simpl. rewrite assoc_update_same, A. simpl. now apply (IH child).
    + destruct (mkdirs p (Dir [])) as [c' | ] eqn:Mk; [ | discriminate].
      intros [= <-]. simpl. rewrite (assoc_app_new a c' es A). now apply (IH (Dir [])).
Qed.

(** [mkdirs] changes nothing when the directory is there. *)
Lemma mkdirs_existing (p : list string) (n : node) (es : list (string * node)) :
  lookup p n = Some (Dir es) -> mkdirs p n = Some n.
Proof.
  revert n. induction p as [ | a p IH]; intros n.
  - simpl. intros [= ->]. reflexivity.
  - destruct n as [c | es0]; simpl; [discriminate | ].
    destruct (assoc a es0) as [child | ] eqn:A; [ | discriminate].
    intros H. rewrite (IH child H). now rewrite (update_entry_same a child es0 A).
Qed.

End TreeFacts.

(** ** The primitives on the world *)

Section WorldFacts.

Lemma os_path_exists_eq (p : string) (w : world) :
  os_path_exists p w = (Ok (exists_in w p), w).
Proof. reflexivity. Qed.

Lemma os_path_isfile_eq (p : string) (w : world) :
  os_path_isfile p w = (Ok (isfile_in w p), w).
Proof. reflexivity. Qed.

Lemma os_path_isdir_eq (p : string) (w : world) :
  os_path_isdir p w = (Ok (isdir_in w p), w).
Proof. reflexivity. Qed.

(** After [os.remove] or [shutil.rmtree] of a path that ends with a file
    name, the path does not exist. *)
Lemma deleted_path_is_gone (w : world) (d n : string) :
  proper_name n = true ->
  exists_in (set_fs w (FS.delete (FS.resolve (cwd w) (posixpath.join d n)) (fs w)))
            (posixpath.join d n) = false.
Proof.
  intros H. unfold exists_in, node_at. simpl.
  change (cwd (set_fs w _)) with (cwd w).
  rewrite (resolve_join _ _ _ H), delete_gone.
  now destruct (PyStr.truthy (posixpath.join d n)).
Qed.

End WorldFacts.

(** ** [img2ome.convert_image]: skip, overwrite, stages and clean-up *)

Section ConvertImage.
Import img2ome.

(** C5. When the OME-TIFF of the image exists and [overwrite] is false,
    [convert_image] returns [True]; it starts no child process, leaves
    the file system as it is and prints the line that says the image is
    skipped. *)
Theorem existing_output_is_skipped_without_overwrite
        (exec : tool) (image_path output_dir : string)
        (bf2raw_args raw2ometiff_args : list string) (keep_zarr : bool) (w : world) :
  exists_in w (ometiff_path image_path output_dir) = true ->
  let (r, w') := convert_image exec image_path output_dir bf2raw_args
                               raw2ometiff_args keep_zarr false w in
  r = Ok true
  /\ spawned (log w') = spawned (log w)
  /\ fs w' = fs w
  /\ log w' = (log w ++ [Stdout ("Skipping " ++ image_path ++ " as output "
                                 ++ ometiff_path image_path output_dir
                                 ++ " exists. Use --overwrite to replace.")])%list.
Proof.
  intros H. unfold convert_image, bind. rewrite os_path_exists_eq, H.
  simpl. rewrite spawned_app. simpl. rewrite app_nil_r. repeat split.
Qed.

Lemma existing_output_is_skipped_without_overwrite_witness :
  exists_in Scenario.converted (ometiff_path "in/x.tif" "out") = true
  /\ let (r, w') := convert_image Scenario.converters "in/x.tif" "out" [] [] false false
                                  Scenario.converted in
     r = Ok true
     /\ spawned (log w') = spawned (log Scenario.converted)
     /\ fs w' = fs Scenario.converted
     /\ log w' = (log Scenario.converted
                  ++ [Stdout ("Skipping " ++ "in/x.tif" ++ " as output "
                              ++ ometiff_path "in/x.tif" "out"
                              ++ " exists. Use --overwrite to replace.")])%list.
Proof.
  split; [vm_compute; reflexivity | ].
  apply (existing_output_is_skipped_without_overwrite
           Scenario.converters "in/x.tif" "out" [] [] false Scenario.converted).
  vm_compute; reflexivity.
Defined.

(** C6. When the OME-TIFF of the image exists and [overwrite] is true,
    [convert_image] first removes it.  If [os.remove] succeeds, the
    stages run in the world it leaves: the file is gone and no child
    process was started before.  If [os.remove] raises, [convert_image]
    prints the error and returns [False]: no child process is started and
    the file system is as it was. *)
Theorem existing_output_is_deleted_before_stages
        (exec : tool) (image_path output_dir : string)
        (bf2raw_args raw2ometiff_args : list string) (keep_zarr : bool) (w : world) :
  exists_in w (ometiff_path image_path output_dir) = true ->
  match os_remove (ometiff_path image_path output_dir) w with
  | (Ok _, w1) =>
      exists_in w1 (ometiff_path image_path output_dir) = false
      /\ log w1 = log w
      /\ convert_image exec image_path output_dir bf2raw_args raw2ometiff_args
                       keep_zarr true w
         = run_stages exec image_path output_dir bf2raw_args raw2ometiff_args
                      keep_zarr w1
  | (Raise e, _) =>
      convert_image exec image_path output_dir bf2raw_args raw2ometiff_args
                    keep_zarr true w
      = (Ok false,
         World (fs w) (cwd_parts w)
               (log w ++ [Stdout ("Error deleting existing OME-TIFF "
                                  ++ ometiff_path image_path output_dir ++ ": "
                                  ++ str_exn e)]))
  end.
Proof.
  intros H. unfold convert_image, bind, attempt.
  rewrite os_path_exists_eq, H.
  unfold os_remove. unfold exists_in in H.
  destruct (node_at w (ometiff_path image_path output_dir)) as [[c | es] | ];
    [ | reflexivity | discriminate].
  repeat split.
  apply deleted_path_is_gone, artifact_name_proper; [reflexivity | simpl; lia].
Qed.

Lemma existing_output_is_deleted_before_stages_witness :
  exists_in Scenario.converted (ometiff_path "in/x.tif" "out") = true
  /\ match os_remove (ometiff_path "in/x.tif" "out") Scenario.converted with
     | (Ok _, w1) =>
         exists_in w1 (ometiff_path "in/x.tif" "out") = false
         /\ log w1 = log Scenario.converted
         /\ convert_image Scenario.converters "in/x.tif" "out" [] [] false true
                          Scenario.converted
            = run_stages Scenario.converters "in/x.tif" "out" [] [] false w1
     | (Raise e, _) =>
         convert_image Scenario.converters "in/x.tif" "out" [] [] false true
                       Scenario.converted
         = (Ok false,
            World (fs Scenario.converted) (cwd_parts Scenario.converted)
                  (log Scenario.converted
                   ++ [Stdout ("Error deleting existing OME-TIFF "
                               ++ ometiff_path "in/x.tif" "out" ++ ": "
                               ++ str_exn e)]))
     end.
Proof.
  split; [vm_compute; reflexivity | ].
  apply (existing_output_is_deleted_before_stages
           Scenario.converters "in/x.tif" "out" [] [] false Scenario.converted).
  vm_compute; reflexivity.
Defined.

Lemma zarr_is_gone_after_cleanup (image_path output_dir : string) (w w' : world) :
  cleanup_zarr false (zarr_dir image_path output_dir) w = (Ok tt, w') ->
  exists_in w' (zarr_dir image_path output_dir) = false.
Proof.
  unfold cleanup_zarr. cbn [negb]. intros H.
  apply bind_ok_inv in H as (there & w1 & Hex & H).
  rewrite os_path_exists_eq in Hex. injection Hex as <- <-.
  destruct (exists_in w (zarr_dir image_path output_dir)) eqn:E.
  - unfold shutil_rmtree in H.
    destruct (node_at w (zarr_dir image_path output_dir)) as [[c | es] | ];
      try discriminate.
    injection H as <-.
    apply deleted_path_is_gone, artifact_name_proper; [reflexivity | simpl; lia].
  - injection H as <-. exact E.
Qed.

(** When both stages succeed and [keep_zarr] is false, the zarr directory
    is gone when [convert_image] returns. *)
Lemma zarr_is_removed_when_stages_succeed
      (exec : tool) (image_path output_dir : string)
      (bf2raw_args raw2ometiff_args : list string) (w w' : world) :
  run_stages exec image_path output_dir bf2raw_args raw2ometiff_args false w
  = (Ok true, w') ->
  exists_in w' (zarr_dir image_path output_dir) = false.
Proof.
  unfold run_stages. intros H.
  apply bind_ok_inv in H as (u1 & w1 & _ & H).
  apply bind_ok_inv in H as (u2 & w2 & _ & H).
  apply bind_ok_inv in H as (ok1 & w3 & _ & H).
  destruct ok1; cbn [negb] in H; [ | discriminate H].
  unfold run_raw2ometiff in H.
  apply bind_ok_inv in H as (u4 & w4 & _ & H).
  apply bind_ok_inv in H as (u5 & w5 & _ & H).
  apply bind_ok_inv in H as (ok2 & w6 & _ & H).
  destruct ok2; cbn [negb] in H; [ | discriminate H].
  apply bind_ok_inv in H as (u7 & w7 & Hclean & H).
  apply bind_ok_inv in H as (u8 & w8 & Hprint & H).
  unfold ret in H. injection H as Hw'. subst w'.
  rewrite print_eq in Hprint. injection Hprint as _ Hw8. subst w8.
  change (exists_in w7 (zarr_dir image_path output_dir) = false).
  destruct u7. now apply (zarr_is_gone_after_cleanup _ _ w6).
Qed.

(** C1. [img2ome.py in out] without [--keep-zarr], from a directory with
    [x.tif]: bioformats2raw writes [out/x.zarr] and exits with 0,
    raw2ometiff exits with 1.  [convert_image] returns [False] from its
    handler of the second stage and the zarr directory is still there:
    the clean-up is only reached after both stages succeeded. *)
Theorem zarr_is_left_when_raw2ometiff_fails :
  let (r, w') := convert_image Scenario.raw2ometiff_fails "in/x.tif" "out" [] []
                               false false Scenario.ready in
  exists_in Scenario.ready (zarr_dir "in/x.tif" "out") = false
  /\ spawned (log w') = [bf2raw_cmd "in/x.tif" "out" []; raw2ometiff_cmd "in/x.tif" "out" []]
  /\ r = Ok false
  /\ isdir_in w' (zarr_dir "in/x.tif" "out") = true.
Proof. vm_compute. repeat split. Qed.

End ConvertImage.

(** ** Child processes: what a stage gives back *)

Section Stages.

(** [subprocess.run(cmd, check=True)] by the way the child ended. *)
Lemma subprocess_run_eq (exec : tool) (cmd : list string) (w : world)
      (e : proc_end) (err : string) (n' : FS.node) :
  exec cmd (cwd w) (fs w) = (e, err, n') ->
  subprocess_run exec cmd w
  = let w1 := World (fs w) (cwd_parts w) (log w ++ [Spawn cmd]) in
    match e with
    | NotFound => (Raise (OSError ENOENT (hd "" cmd)), w1)
    | _ =>
        if ran_and_failed e
        then (Raise (CalledProcessError cmd (returncode e) err), set_fs w1 n')
        else (Ok tt, set_fs w1 n')
    end.
Proof.
  intros H. unfold subprocess_run. rewrite H.
  destruct e as [status | signal | ]; cbn [ran_and_failed]; try reflexivity.
  destruct status; reflexivity.
Qed.

(** [try: subprocess.run(cmd, check=True)] with a handler for
    [CalledProcessError] that prints a line: [false] when the child ran
    and failed, [true] when it exited with 0, and the [FileNotFoundError]
    goes through when the child could not start. *)
Lemma attempt_subprocess_run (exec : tool) (cmd : list string)
      (line : exn -> string) (w : world)
      (e : proc_end) (err : string) (n' : FS.node) :
  exec cmd (cwd w) (fs w) = (e, err, n') ->
  attempt (subprocess_run exec cmd) is_CalledProcessError
          (fun x => print (line x)) w
  = let l1 := (log w ++ [Spawn cmd])%list in
    match e with
    | NotFound => (Raise (OSError ENOENT (hd "" cmd)), World (fs w) (cwd_parts w) l1)
    | _ =>
        if ran_and_failed e
        then (Ok false,
              World n' (cwd_parts w)
                    (l1 ++ [Stdout (line (CalledProcessError cmd (returncode e) err))]))
        else (Ok true, World n' (cwd_parts w) l1)
    end.
Proof.
  intros H. unfold attempt. rewrite (subprocess_run_eq _ _ _ _ _ _ H).
  destruct e as [status | signal | ]; cbn [ran_and_failed]; try reflexivity.
  destruct (negb (N.eqb status 0)); reflexivity.
Qed.

Import img2ome.

Lemma ending_ext (exec : tool) (cmd : list string) (w1 w2 : world) :
  fs w1 = fs w2 -> cwd_parts w1 = cwd_parts w2 ->
  ending exec cmd w1 = ending exec cmd w2.
Proof. unfold ending, cwd. now intros -> ->. Qed.

(** The second stage of [img2ome.convert_image]. *)
Lemma raw2ometiff_verdict (exec : tool) (image_path output_dir : string)
      (raw2ometiff_args : list string) (keep_zarr : bool) (w : world) :
  let r := fst (run_raw2ometiff exec image_path output_dir raw2ometiff_args
                                keep_zarr w) in
  match ending exec (raw2ometiff_cmd image_path output_dir raw2ometiff_args) w with
  | NotFound => r = Raise (OSError ENOENT "raw2ometiff")
  | e2 => if ran_and_failed e2 then r = Ok false else True
  end.
Proof.
  cbv zeta. unfold ending, run_raw2ometiff.
  rewrite (bind_ok _ _ _ _ _ (print_eq _ _)).
  rewrite (bind_ok _ _ _ _ _ (print_eq _ _)).
  destruct (exec _ (cwd w) (fs w)) as [[e2 err2] n2] eqn:E2.
  cbn [fst snd].
  destruct e2 as [s2 | k2 | ]; cbn [ran_and_failed];
    [destruct (negb (N.eqb s2 0)) eqn:F; [ | exact I] | | ];
    unfold bind at 1; erewrite attempt_subprocess_run by exact E2;
    cbn [fst snd fs cwd_parts log ran_and_failed]; rewrite ?F; reflexivity.
Qed.

(** The first stage of [img2ome.convert_image]: when bioformats2raw
    exits with 0, the second stage runs on the file system it left. *)
Lemma bioformats2raw_verdict (exec : tool) (image_path output_dir : string)
      (bf2raw_args raw2ometiff_args : list string) (keep_zarr : bool) (w : world) :
  let cmd1 := bf2raw_cmd image_path output_dir bf2raw_args in
  let run := run_stages exec image_path output_dir bf2raw_args raw2ometiff_args
                        keep_zarr w in
  match ending exec cmd1 w with
  | NotFound => fst run = Raise (OSError ENOENT "bioformats2raw")
  | e1 =>
      if ran_and_failed e1 then fst run = Ok false
      else exists w1,
          run = run_raw2ometiff exec image_path output_dir raw2ometiff_args keep_zarr w1
          /\ fs w1 = fs_after exec cmd1 w
          /\ cwd_parts w1 = cwd_parts w
          /\ spawned (log w1) = (spawned (log w) ++ [cmd1])%list
  end.
Proof.
  intros cmd1. cbv zeta. unfold ending, fs_after, run_stages. fold cmd1.
  rewrite (bind_ok _ _ _ _ _ (print_eq _ _)).
  rewrite (bind_ok _ _ _ _ _ (print_eq _ _)).
  destruct (exec cmd1 (cwd w) (fs w)) as [[e1 err1] n1] eqn:E1.
  cbn [fst snd].
  assert (G : exists w1 : world,
             run_raw2ometiff exec image_path output_dir raw2ometiff_args keep_zarr
               (World n1 (cwd_parts w)
                      (((log w ++ [Stdout ("Converting " ++ image_path
                                           ++ " to zarr format...")])
                        ++ [Stdout ("Running: " ++ PyStr.join " " cmd1)])
                       ++ [Spawn cmd1]))
             = run_raw2ometiff exec image_path output_dir raw2ometiff_args keep_zarr w1
             /\ fs w1 = n1 /\ cwd_parts w1 = cwd_parts w
             /\ spawned (log w1) = (spawned (log w) ++ [cmd1])%list).
  { eexists. split; [reflexivity | ]. cbn [fs cwd_parts log].
    rewrite !spawned_app. cbn. now rewrite !app_nil_r. }
  destruct e1 as [s1 | k1 | ]; cbn [ran_and_failed];
    [destruct (negb (N.eqb s1 0)) eqn:F | | ];
    unfold bind at 1; erewrite attempt_subprocess_run by exact E1;
    cbn [fst snd fs cwd_parts log ran_and_failed]; rewrite ?F;
    cbn [negb]; try reflexivity.
  exact G.
Qed.

(** The single stage of [qupath_img2ome.convert_image], by the way QuPath
    ended and by what it wrote. *)
Lemma qupath_convert_image_eq
      (float : Type) (float_ne_one float_gt_one : float -> bool)
      (str_float : float -> string) (exec : capturing_tool)
      (input_path output_path : string) (o : qupath_img2ome.options float) (w : world)
      (e : proc_end) (out : captured) (n' : FS.node) :
  let cmd := qupath_img2ome.convert_cmd float_ne_one float_gt_one str_float
                                        input_path output_path o in
  exec cmd (cwd w) (fs w) = (e, out, n') ->
  qupath_img2ome.convert_image float_ne_one float_gt_one str_float exec
                               input_path output_path o w
  = match e, out with
    | NotFound, _ =>
        (Raise (OSError ENOENT "QuPath"),
         World (fs w) (cwd_parts w) (log w ++ [Spawn cmd]))
    | _, Undecodable message =>
        (Raise (ValueError message), World n' (cwd_parts w) (log w ++ [Spawn cmd]))
    | _, Text _ stderr =>
        if ran_and_failed e
        then (Ok false,
              World n' (cwd_parts w)
                    (log w ++ [Spawn cmd;
                               Stdout ("Error converting " ++ input_path ++ ": "
                                       ++ stderr)]))
        else (Ok true,
              World n' (cwd_parts w)
                    (log w ++ [Spawn cmd;
                               Stdout ("Successfully converted " ++ input_path
                                       ++ " to " ++ output_path)]))
    end.
Proof.
  intros cmd E. unfold qupath_img2ome.convert_image, attempt. fold cmd.
  unfold bind at 1. unfold subprocess_run_captured. rewrite E.
  destruct e as [s | k | ]; destruct out as [so se | message];
    cbn [ran_and_failed returncode];
    try reflexivity.
  - destruct s as [ | p]; cbn [N.eqb negb Z.of_N Z.eqb];
      cbn [is_CalledProcessError qupath_img2ome.stderr_of]; unfold bind;
      rewrite ?print_eq; unfold ret; cbn [fs cwd_parts log set_fs];
      rewrite <- ?app_assoc; reflexivity.
  - cbn [Z.eqb is_CalledProcessError qupath_img2ome.stderr_of]. unfold bind.
    rewrite print_eq. unfold ret. cbn [fs cwd_parts log set_fs].
    rewrite <- app_assoc. reflexivity.
Qed.

(** What [qupath_img2ome.convert_image] gives back: [False] for a child
    that ran, failed and wrote text, [True] for one that exited with 0 and
    wrote text; the [FileNotFoundError] of a child that could not start and
    the [UnicodeDecodeError] of one whose output does not decode leave the
    function. *)
Lemma qupath_stage_verdict
      (float : Type) (float_ne_one float_gt_one : float -> bool)
      (str_float : float -> string) (exec : capturing_tool)
      (input_path output_path : string) (o : qupath_img2ome.options float) (w : world) :
  let cmd := qupath_img2ome.convert_cmd float_ne_one float_gt_one str_float
                                        input_path output_path o in
  let e := captured_ending exec cmd w in
  let out := captured_output exec cmd w in
  let r := fst (qupath_img2ome.convert_image float_ne_one float_gt_one str_float exec
                                             input_path output_path o w) in
  (e = NotFound -> r = Raise (OSError ENOENT "QuPath"))
  /\ (forall message,
         e <> NotFound -> out = Undecodable message -> r = Raise (ValueError message))
  /\ (forall so se, out = Text so se -> ran_and_failed e = true -> r = Ok false)
  /\ (forall so se, out = Text so se -> e = Exited 0 -> r = Ok true).
Proof.
  cbv zeta. unfold captured_ending, captured_output.
  destruct (exec _ (cwd w) (fs w)) as [[e out] n'] eqn:E.
  rewrite (qupath_convert_image_eq _ _ _ _ _ _ _ _ _ _ _ _ E). cbn [fst snd].
  repeat split.
  - now intros ->.
  - intros message Hn ->. destruct e; try reflexivity. contradiction.
  - intros so se -> H. destruct e; cbn [ran_and_failed] in *; try discriminate;
      now rewrite ?H.
  - intros so se -> ->. reflexivity.
Qed.

(** When raw2ometiff ran and failed, [convert_image] returns [False] and
    the file system is the one raw2ometiff left: no clean-up took place. *)
Lemma failed_raw2ometiff_skips_cleanup
      (exec : tool) (image_path output_dir : string)
      (raw2ometiff_args : list string) (keep_zarr : bool) (w : world) :
  ran_and_failed (ending exec (raw2ometiff_cmd image_path output_dir raw2ometiff_args) w)
  = true ->
  exists w',
    run_raw2ometiff exec image_path output_dir raw2ometiff_args keep_zarr w
    = (Ok false, w')
    /\ fs w' = fs_after exec (raw2ometiff_cmd image_path output_dir raw2ometiff_args) w
    /\ cwd_parts w' = cwd_parts w.
Proof.
  unfold ending, fs_after, run_raw2ometiff.
  rewrite (bind_ok _ _ _ _ _ (print_eq _ _)).
  rewrite (bind_ok _ _ _ _ _ (print_eq _ _)).
  destruct (exec _ (cwd w) (fs w)) as [[e2 err2] n2] eqn:E2.
  cbn [fst snd]. intros F.
  unfold bind at 1. erewrite attempt_subprocess_run by exact E2.
  destruct e2 as [s2 | k2 | ]; cbn [ran_and_failed] in *; try discriminate;
    rewrite ?F; cbn [negb]; eexists; repeat split.
Qed.

(** The two stages of [img2ome.convert_image].  A child process that ran
    and failed, by an exit status that is not zero or by a signal, makes it
    return [False].  A child process that could not start because the
    executable is not found is not handled: the [FileNotFoundError] of
    [subprocess.run] leaves the function. *)
Lemma stage_failure_is_returned_unless_tool_is_missing
      (exec : tool) (image_path output_dir : string)
      (bf2raw_args raw2ometiff_args : list string) (keep_zarr : bool) (w : world) :
  let cmd1 := bf2raw_cmd image_path output_dir bf2raw_args in
  let cmd2 := raw2ometiff_cmd image_path output_dir raw2ometiff_args in
  let e1 := ending exec cmd1 w in
  let e2 := ending exec cmd2 (set_fs w (fs_after exec cmd1 w)) in
  let r := fst (run_stages exec image_path output_dir bf2raw_args raw2ometiff_args
                           keep_zarr w) in
  (ran_and_failed e1 = true -> r = Ok false)
  /\ (e1 = NotFound -> r = Raise (OSError ENOENT "bioformats2raw"))
  /\ (e1 = Exited 0 -> ran_and_failed e2 = true -> r = Ok false)
  /\ (e1 = Exited 0 -> e2 = NotFound -> r = Raise (OSError ENOENT "raw2ometiff")).
Proof.
  intros cmd1 cmd2 e1 e2 r.
  pose proof (bioformats2raw_verdict exec image_path output_dir bf2raw_args
                raw2ometiff_args keep_zarr w) as V1.
  cbv zeta in V1. fold cmd1 e1 r in V1.
  assert (V2 : e1 = Exited 0 ->
               match e2 with
               | NotFound => r = Raise (OSError ENOENT "raw2ometiff")
               | _ => if ran_and_failed e2 then r = Ok false else True
               end).
  { intros E. rewrite E in V1. cbn [ran_and_failed N.eqb negb] in V1.
    destruct V1 as (w1 & Hrun & Hfs & Hcwd & _).
    pose proof (raw2ometiff_verdict exec image_path output_dir raw2ometiff_args
                  keep_zarr w1) as V.
    cbv zeta in V. fold cmd2 in V.
    rewrite (ending_ext exec cmd2 w1 (set_fs w (fs_after exec cmd1 w)) Hfs Hcwd) in V.
    fold e2 in V. subst r. rewrite Hrun. clearbody e2. destruct e2; exact V. }
  split; [ | split; [ | split]].
  - intros H. clearbody e1. destruct e1; cbn [ran_and_failed] in *; try discriminate;
      rewrite ?H in V1; exact V1.
  - intros H. rewrite H in V1. exact V1.
  - intros E H. specialize (V2 E). clearbody e2.
    destruct e2; cbn [ran_and_failed] in *; try discriminate; rewrite ?H in V2; exact V2.
  - intros E H. specialize (V2 E). rewrite H in V2. exact V2.
Qed.

(** C2. [convert_image] does not turn every failure of the child process
    into [False].  With no tool installed the child of the first stage of
    [img2ome.py] cannot start and the [FileNotFoundError] of
    [subprocess.run] leaves [convert_image]; the same happens in the
    second stage when only raw2ometiff is missing, and in
    [qupath_img2ome.py] when QuPath is missing.  In [qupath_img2ome.py],
    whose docstring promises [False otherwise], a QuPath that exits with
    status 1 after writing bytes that do not decode makes
    [subprocess.run] raise [UnicodeDecodeError], which leaves
    [convert_image] too.  Only [CalledProcessError] is caught. *)
Theorem missing_tool_escapes_convert_image :
  (ending Scenario.nothing_installed (bf2raw_cmd "in/x.tif" "out" []) Scenario.ready
   = NotFound
   /\ fst (convert_image Scenario.nothing_installed "in/x.tif" "out" [] [] false false
                         Scenario.ready)
      = Raise (OSError ENOENT "bioformats2raw")
   /\ fst (convert_image Scenario.nothing_installed "in/x.tif" "out" [] [] false false
                         Scenario.ready)
      <> Ok false)
  /\ fst (convert_image Scenario.raw2ometiff_missing "in/x.tif" "out" [] [] false false
                        Scenario.ready)
     = Raise (OSError ENOENT "raw2ometiff")
  /\ (captured_ending (Scenario.captured_text Scenario.nothing_installed)
                      (qupath_img2ome.convert_cmd
                         Scenario.whole_ne_one Scenario.whole_gt_one Scenario.str_whole
                         "in/x.tif" "out/x.ome.tiff" Scenario.qupath_defaults)
                      Scenario.ready
      = NotFound
      /\ fst (Scenario.qupath_convert_image
                (Scenario.captured_text Scenario.nothing_installed)
                "in/x.tif" "out/x.ome.tiff" Scenario.ready)
         = Raise (OSError ENOENT "QuPath"))
  /\ (ran_and_failed
        (captured_ending Scenario.garbled
                         (qupath_img2ome.convert_cmd
                            Scenario.whole_ne_one Scenario.whole_gt_one
                            Scenario.str_whole "in/x.tif" "out/x.ome.tiff"
                            Scenario.qupath_defaults)
                         Scenario.ready) = true
      /\ fst (Scenario.qupath_convert_image Scenario.garbled
                                            "in/x.tif" "out/x.ome.tiff" Scenario.ready)
         = Raise (ValueError
                    "'utf-8' codec can't decode byte 0xff in position 0: invalid start byte")).
Proof. vm_compute. repeat split. discriminate. Qed.

End Stages.

(** ** Discovery of the images *)

Section Discovery.
Import img2ome.

Lemma in_walk_images (p : string) (triples : list (string * list string * list string)) :
  In p (walk_images triples)
  <-> exists root dirs files file,
      In (root, dirs, files) triples /\ In file files /\ is_image file = true
      /\ p = posixpath.join root file.
Proof.
  unfold walk_images. rewrite in_flat_map. split.
  - intros ([[root dirs] files] & Ht & Hp). apply in_flat_map in Hp as (file & Hf & Hp).
    destruct (is_image file) eqn:E; [ | contradiction].
    destruct Hp as [<- | []]. now exists root, dirs, files, file.
  - intros (root & dirs & files & file & Ht & Hf & E & ->).
    exists (root, dirs, files). split; [exact Ht | ].
    apply in_flat_map. exists file. split; [exact Hf | ]. rewrite E. now left.
Qed.

(** [os.walk] visits every directory beneath the top, and the images it
    lists are the regular files beneath it with a recognized extension. *)
Lemma walk_images_beneath (n : FS.node) :
  forall top p,
    In p (walk_images (FS.walk top n))
    <-> exists name, file_beneath top n name p /\ is_image name = true.
Proof.
  induction n as [content | es IH] using FS.node_induction; intros top p.
  - simpl. split; [intros [] | intros (name & H & _); inversion H].
  - rewrite in_walk_images. split.
    + intros (root & dirs & files & file & Ht & Hf & E & ->).
      simpl in Ht. destruct Ht as [Ht | Ht].
      * injection Ht as <- <- <-.
        apply in_map_iff in Hf as ([k v] & <- & Hkv).
        apply filter_In in Hkv as [Hkv Hd]. simpl in Hd.
        destruct v as [content | sub]; [ | discriminate].
        exists k. split; [ | exact E]. now apply beneath_here with content.
      * apply in_flat_map in Ht as ([d sub] & Hds & Ht). simpl in Ht.
        rewrite Forall_forall in IH. specialize (IH (d, sub) Hds). simpl in IH.
        assert (G : In (posixpath.join root file) (walk_images (FS.walk (posixpath.join top d) sub))).
        { apply in_walk_images. now exists root, dirs, files, file. }
        apply IH in G as (name & Hb & Hi).
        exists name. split; [ | exact Hi]. now apply beneath_deeper with d sub.
    + intros (name & Hb & E). inversion Hb as [top' es' name' content Hin | top' es' d sub name' p' Hin Hsub]; subst.
      * exists top, (map fst (filter (fun kv => FS.is_dir (snd kv)) es)),
          (map fst (filter (fun kv => negb (FS.is_dir (snd kv))) es)), name.
        repeat split; [now left | | exact E].
        apply in_map_iff. exists (name, FS.File content). split; [reflexivity | ].
        apply filter_In. now split.
      * rewrite Forall_forall in IH. specialize (IH (d, sub) Hin). simpl in IH.
        assert (G : In p (walk_images (FS.walk (posixpath.join top d) sub)))
          by (apply IH; now exists name).
        apply in_walk_images in G as (root & dirs & files & file & Ht & Hf & Ei & ->).
        exists root, dirs, files, file. repeat split; auto.
        simpl. right. apply in_flat_map. exists (d, sub). now split.
Qed.

(** [find_images] only reads. *)
Lemma find_images_reads (path : string) (w : world) :
  exists found, find_images path w = (Ok found, w).
Proof.
  unfold find_images, bind. rewrite os_path_isfile_eq.
  destruct (isfile_in w path); eexists; reflexivity.
Qed.

Lemma find_images_directory (root : string) (w : world) (es : list (string * FS.node)) :
  node_at w root = Some (FS.Dir es) ->
  find_images root w = (Ok (walk_images (FS.walk root (FS.Dir es))), w).
Proof.
  intros H. unfold find_images, bind, os_walk. rewrite os_path_isfile_eq.
  unfold isfile_in. rewrite H. unfold ret. now rewrite H.
Qed.

(** What [glob("*" + ext)] lists in a directory. *)
Lemma glob_plain (glob_pattern : string -> string -> world -> result (list string))
      (d ext : string) (w : world) :
  qupath_img2ome.plain ext = true ->
  qupath_img2ome.glob glob_pattern d ("*" ++ ext) w = qupath_img2ome.glob_suffix d ext w.
Proof. intros H. cbn [append qupath_img2ome.glob]. now rewrite H. Qed.

Lemma glob_suffix_directory (d ext : string) (w : world) (es : list (string * FS.node)) :
  node_at w d = Some (FS.Dir es) ->
  qupath_img2ome.glob_suffix d ext w
  = (Ok (map (fun kv => qupath_img2ome.child d (fst kv))
             (filter (fun kv => PyStr.endswith (fst kv) ext) es)), w).
Proof. intros H. unfold qupath_img2ome.glob_suffix. now rewrite H. Qed.

Lemma gather_files_directory
      (glob_pattern : string -> string -> world -> result (list string))
      (d : string) (extensions : list string) (w : world)
      (es : list (string * FS.node)) :
  forallb qupath_img2ome.plain extensions = true ->
  node_at w d = Some (FS.Dir es) ->
  qupath_img2ome.gather_files glob_pattern d extensions w
  = (Ok (flat_map (fun ext =>
                     map (fun kv => qupath_img2ome.child d (fst kv))
                         (filter (fun kv => PyStr.endswith (fst kv) ext) es))
                  extensions), w).
Proof.
  intros P H. unfold qupath_img2ome.gather_files.
  change (flat_map _ extensions) with
    ([] ++ flat_map (fun ext =>
                       map (fun kv => qupath_img2ome.child d (fst kv))
                           (filter (fun kv => PyStr.endswith (fst kv) ext) es))
                    extensions)%list.
  generalize (@nil string) as acc.
  induction extensions as [ | ext r IH]; intros acc.
  - cbn [for_each flat_map]. now rewrite app_nil_r.
  - cbn [forallb] in P. apply andb_prop in P as [Pe Pr].
    cbn [for_each flat_map]. unfold bind at 1 2.
    rewrite (glob_plain _ _ _ _ Pe), (glob_suffix_directory d ext w es H).
    unfold ret. rewrite (IH Pr). now rewrite app_assoc.
Qed.

(** C7 (as amended). On a directory, [find_images] of [img2ome.py] returns
    the regular files anywhere beneath it whose extension, in lower case,
    is one of [image_extensions], each with the path [os.path.join] builds
    on the way down, and nothing else.  The discovery of
    [qupath_img2ome.py] is different.  For extensions without wildcard or
    slash, every path it lists is an entry of the directory itself whose
    name ends with one of the extensions as it is written, and every
    regular file of the directory itself with such a name is listed: it
    does not go into subdirectories and does not fold the case. *)
Theorem discovery_of_images_in_directory
        (w : world) (root : string) (es : list (string * FS.node)) :
  node_at w root = Some (FS.Dir es) ->
  (exists found,
      find_images root w = (Ok found, w)
      /\ forall p,
          In p found
          <-> exists name,
            file_beneath root (FS.Dir es) name p
            /\ PyStr.mem (PyStr.lower (snd (posixpath.splitext name))) image_extensions
               = true)
  /\ (forall (glob_pattern : string -> string -> world -> result (list string))
             (extensions : list string),
         forallb qupath_img2ome.plain extensions = true ->
         exists files,
           qupath_img2ome.gather_files glob_pattern root extensions w = (Ok files, w)
           /\ (forall p,
                  In p files ->
                  exists ext name n,
                    In ext extensions /\ In (name, n) es
                    /\ PyStr.endswith name ext = true
                    /\ p = qupath_img2ome.child root name)
           /\ (forall ext name content,
                  In ext extensions -> In (name, FS.File content) es ->
                  PyStr.endswith name ext = true ->
                  In (qupath_img2ome.child root name) files)).
Proof.
  intros H. split.
  - exists (walk_images (FS.walk root (FS.Dir es))).
    split; [now apply find_images_directory | ].
    intros p. apply walk_images_beneath.
  - intros glob_pattern extensions P.
    rewrite (gather_files_directory glob_pattern root extensions w es P H).
    eexists. split; [reflexivity | ]. split.
    + intros p Hp. apply in_flat_map in Hp as (ext & He & Hp).
      apply in_map_iff in Hp as ([name n] & <- & Hkv).
      apply filter_In in Hkv as [Hkv Hs]. now exists ext, name, n.
    + intros ext name content He Hkv Hs. apply in_flat_map. exists ext.
      split; [exact He | ].
      apply in_map_iff. exists (name, FS.File content). split; [reflexivity | ].
      apply filter_In. now split.
Qed.

Lemma discovery_of_images_in_directory_witness :
  node_at (Scenario.at_data Scenario.flat_tree) "in"
  = Some (FS.Dir [("x.tif", FS.File "x"); ("y.png", FS.File "y"); ("z.txt", FS.File "z")])
  /\ find_images "in" (Scenario.at_data Scenario.flat_tree)
     = (Ok ["in/x.tif"; "in/y.png"], Scenario.at_data Scenario.flat_tree)
  /\ (exists found,
         find_images "in" (Scenario.at_data Scenario.flat_tree)
         = (Ok found, Scenario.at_data Scenario.flat_tree)
         /\ forall p,
             In p found
             <-> exists name,
               file_beneath "in" (FS.Dir [("x.tif", FS.File "x"); ("y.png", FS.File "y");
                                          ("z.txt", FS.File "z")]) name p
               /\ PyStr.mem (PyStr.lower (snd (posixpath.splitext name))) image_extensions
                  = true)
  /\ forallb qupath_img2ome.plain Scenario.qupath_extensions = true
  /\ qupath_img2ome.gather_files Scenario.no_pattern "in" Scenario.qupath_extensions
                                 (Scenario.at_data Scenario.flat_tree)
     = (Ok ["in/x.tif"; "in/y.png"], Scenario.at_data Scenario.flat_tree)
  /\ exists files,
      qupath_img2ome.gather_files Scenario.no_pattern "in" Scenario.qupath_extensions
                                  (Scenario.at_data Scenario.flat_tree)
      = (Ok files, Scenario.at_data Scenario.flat_tree)
      /\ (forall p,
             In p files ->
             exists ext name n,
               In ext Scenario.qupath_extensions
               /\ In (name, n) [("x.tif", FS.File "x"); ("y.png", FS.File "y");
                                ("z.txt", FS.File "z")]
               /\ PyStr.endswith name ext = true
               /\ p = qupath_img2ome.child "in" name)
      /\ (forall ext name content,
             In ext Scenario.qupath_extensions ->
             In (name, FS.File content) [("x.tif", FS.File "x"); ("y.png", FS.File "y");
                                         ("z.txt", FS.File "z")] ->
             PyStr.endswith name ext = true ->
             In (qupath_img2ome.child "in" name) files).
Proof.
  split; [reflexivity | split; [reflexivity | split]].
  - apply (proj1 (discovery_of_images_in_directory
                    (Scenario.at_data Scenario.flat_tree) "in"
                    [("x.tif", FS.File "x"); ("y.png", FS.File "y"); ("z.txt", FS.File "z")]
                    eq_refl)).
  - split; [reflexivity | split; [reflexivity | ]].
    apply (proj2 (discovery_of_images_in_directory
                    (Scenario.at_data Scenario.flat_tree) "in"
                    [("x.tif", FS.File "x"); ("y.png", FS.File "y"); ("z.txt", FS.File "z")]
                    eq_refl)
                 Scenario.no_pattern Scenario.qupath_extensions).
    reflexivity.
Defined.

(** C7 (counterexample). A directory with [a.tif], [B.TIF] and
    [sub/c.tif]: all three are files beneath it with the extension [.tif]
    up to case, and [find_images] returns them, but the discovery of
    [qupath_img2ome.py] with its default extensions returns [a.tif]
    alone. *)
Lemma qupath_discovery_is_flat_and_case_sensitive :
  fst (qupath_img2ome.gather_files Scenario.no_pattern (qupath_img2ome.Path "in")
                                   Scenario.qupath_extensions
                                   (Scenario.at_data Scenario.mixed_tree))
  = Ok ["in/a.tif"]
  /\ forallb qupath_img2ome.plain Scenario.qupath_extensions = true
  /\ PyStr.mem (PyStr.lower (snd (posixpath.splitext "B.TIF"))) Scenario.qupath_extensions
     = true
  /\ PyStr.mem (PyStr.lower (snd (posixpath.splitext "c.tif"))) Scenario.qupath_extensions
     = true
  /\ fst (find_images "in" (Scenario.at_data Scenario.mixed_tree))
     = Ok ["in/a.tif"; "in/B.TIF"; "in/sub/c.tif"].
Proof. vm_compute. repeat split. Qed.

(** ** A run that finds no image *)

Lemma os_makedirs_ok (p : string) (w w1 : world) :
  os_makedirs p w = (Ok tt, w1) ->
  log w1 = log w /\ cwd_parts w1 = cwd_parts w
  /\ isdir_in w1 p = true
  /\ (isdir_in w p = true -> fs w1 = fs w).
Proof.
  unfold os_makedirs. destruct (PyStr.truthy p) eqn:T; [ | discriminate].
  destruct (FS.mkdirs (FS.resolve (cwd w) p) (fs w)) as [n | ] eqn:Mk; [ | discriminate].
  intros [= <-]. repeat split.
  - destruct (mkdirs_dir _ _ _ Mk) as [es Hes].
    unfold isdir_in, node_at. rewrite T. simpl.
    change (cwd (set_fs w n)) with (cwd w). now rewrite Hes.
  - unfold isdir_in, node_at. rewrite T.
    destruct (FS.lookup (FS.resolve (cwd w) p) (fs w)) as [[c | es] | ] eqn:L;
      try discriminate.
    intros _. rewrite (mkdirs_existing _ _ _ L) in Mk. now injection Mk as <-.
Qed.

(** C3 (as amended). When discovery finds no image, [main] prints
    [No supported images found in ...] and exits with status 1: nothing
    else is printed, no child process is started and the loop over the
    images is not entered.  The output directory is there all the same:
    [main] creates it, with its missing parents, before it looks for
    images; when it was there already the file system is left as it was. *)
Theorem no_image_found_exits_with_1 (exec : tool) (a : args) (w w1 : world) :
  os_makedirs (output_dir a) w = (Ok tt, w1) ->
  fst (find_images (input_path a) w1) = Ok [] ->
  main exec a w
  = (Raise (SystemExit 1),
     World (fs w1) (cwd_parts w)
           (log w ++ [Stdout ("No supported images found in " ++ input_path a)]))
  /\ exit_status (fst (main exec a w)) = 1%Z
  /\ spawned (log (snd (main exec a w))) = spawned (log w)
  /\ isdir_in (snd (main exec a w)) (output_dir a) = true
  /\ (isdir_in w (output_dir a) = true -> fs (snd (main exec a w)) = fs w).
Proof.
  intros Mk Hfind.
  destruct (os_makedirs_ok _ _ _ Mk) as (Hlog & Hcwd & Hdir & Hsame).
  destruct (find_images_reads (input_path a) w1) as [found Hf].
  rewrite Hf in Hfind. injection Hfind as ->.
  assert (E : main exec a w
              = (Raise (SystemExit 1),
                 World (fs w1) (cwd_parts w)
                       (log w ++ [Stdout ("No supported images found in "
                                          ++ input_path a)]))).
  { unfold main. rewrite (bind_ok _ _ _ _ _ Mk).
    rewrite (bind_ok _ _ _ _ _ (os_path_isfile_eq _ _)).
    rewrite (bind_ok _ _ _ _ _ Hf).
    rewrite (bind_ok _ _ _ _ _ (print_eq _ _)).
    unfold sys_exit, raise. now rewrite Hlog, Hcwd. }
  rewrite E. cbn [fst snd fs log exit_status]. repeat split.
  - rewrite spawned_app. cbn. now rewrite app_nil_r.
  - rewrite <- Hcwd. exact Hdir.
  - exact Hsame.
Qed.

Lemma no_image_found_exits_with_1_witness :
  os_makedirs "out" (Scenario.at_data Scenario.empty_tree)
  = (Ok tt, Scenario.at_data
              (FS.Dir [("data", FS.Dir [("in", FS.Dir []); ("out", FS.Dir [])])]))
  /\ fst (find_images "in"
            (Scenario.at_data
               (FS.Dir [("data", FS.Dir [("in", FS.Dir []); ("out", FS.Dir [])])])))
     = Ok []
  /\ exit_status (fst (main Scenario.converters (Scenario.cli "in" "out" false)
                            (Scenario.at_data Scenario.empty_tree))) = 1%Z.
Proof.
  split; [reflexivity | split; [reflexivity | ]].
  apply (no_image_found_exits_with_1
           Scenario.converters (Scenario.cli "in" "out" false)
           (Scenario.at_data Scenario.empty_tree)
           (Scenario.at_data
              (FS.Dir [("data", FS.Dir [("in", FS.Dir []); ("out", FS.Dir [])])]))
           eq_refl eq_refl).
Defined.

(** C3 (counterexample). [img2ome.py in out] where [in] is an empty
    directory and [out] does not exist: no image is found and the process
    exits with status 1, and the directory [out] has been created. *)
Lemma output_directory_is_created_when_no_image_is_found :
  fst (find_images "in" (Scenario.at_data Scenario.empty_tree)) = Ok []
  /\ exists_in (Scenario.at_data Scenario.empty_tree) "out" = false
  /\ exit_status (fst (main Scenario.converters (Scenario.cli "in" "out" false)
                            (Scenario.at_data Scenario.empty_tree))) = 1%Z
  /\ isdir_in (snd (main Scenario.converters (Scenario.cli "in" "out" false)
                          (Scenario.at_data Scenario.empty_tree))) "out" = true.
Proof. vm_compute. repeat split. Qed.

End Discovery.

(** ** Exceptions that leave the loop, and the exit status *)

Section ExitStatus.
Import img2ome.

Lemma never_exits_ret {A : Type} (a : A) : never_exits (ret a).
Proof. intros w e w'. discriminate. Qed.

Lemma never_exits_print (line : string) : never_exits (print line).
Proof. intros w e w'. discriminate. Qed.

Lemma never_exits_bind {A B : Type} (m : M A) (k : A -> M B) :
  never_exits m -> (forall a, never_exits (k a)) -> never_exits (bind m k).
Proof.
  intros Hm Hk w e w'. unfold bind.
  destruct (m w) as [[a | e0] w1] eqn:E.
  - apply Hk.
  - intros [= <- <-]. now apply (Hm w e0 w1).
Qed.

Lemma never_exits_attempt (body : M unit) (catches : exn -> bool)
      (handler : exn -> M unit) :
  never_exits body -> (forall e, never_exits (handler e)) ->
  never_exits (attempt body catches handler).
Proof.
  intros Hb Hh w e w'. unfold attempt.
  destruct (body w) as [[u | e0] w1] eqn:E; [discriminate | ].
  destruct (catches e0).
  - apply never_exits_bind; [apply Hh | intros; apply never_exits_ret].
  - intros [= <- <-]. now apply (Hb w e0 w1).
Qed.

Lemma never_exits_exists (p : string) : never_exits (os_path_exists p).
Proof. intros w e w'. discriminate. Qed.

Lemma never_exits_remove (p : string) : never_exits (os_remove p).
Proof.
  intros w e w'. unfold os_remove.
  destruct (node_at w p) as [[c | es] | ]; [discriminate | | ]; now intros [= <- _].
Qed.

Lemma never_exits_makedirs (p : string) : never_exits (os_makedirs p).
Proof.
  intros w e w'. unfold os_makedirs.
  destruct (PyStr.truthy p); [ | now intros [= <- _]].
  destruct (FS.mkdirs _ _); [discriminate | now intros [= <- _]].
Qed.

Lemma never_exits_rmtree (p : string) : never_exits (shutil_rmtree p).
Proof.
  intros w e w'. unfold shutil_rmtree.
  destruct (node_at w p) as [[c | es] | ]; [ | discriminate | ]; now intros [= <- _].
Qed.

Lemma never_exits_run (exec : tool) (cmd : list string) :
  never_exits (subprocess_run exec cmd).
Proof.
  intros w e w'. unfold subprocess_run.
  destruct (exec cmd (cwd w) (fs w)) as [[[s | k | ] err] n].
  - destruct (Z.eqb _ 0); [discriminate | now intros [= <- _]].
  - destruct (Z.eqb _ 0); [discriminate | now intros [= <- _]].
  - now intros [= <- _].
Qed.

Lemma never_exits_relpath (path start : string) : never_exits (os_path_relpath path start).
Proof.
  intros w e w'. unfold os_path_relpath.
  destruct (posixpath.relpath _ _ _); [discriminate | now intros [= <- _]].
Qed.

Lemma never_exits_cleanup (keep_zarr : bool) (zarr : string) :
  never_exits (cleanup_zarr keep_zarr zarr).
Proof.
  unfold cleanup_zarr. destruct (negb keep_zarr); [ | apply never_exits_ret].
  apply never_exits_bind; [apply never_exits_exists | ].
  intros [ | ]; [apply never_exits_rmtree | apply never_exits_ret].
Qed.

Lemma never_exits_convert_image (exec : tool) (image_path output_dir : string)
      (a1 a2 : list string) (keep_zarr overwrite : bool) :
  never_exits (convert_image exec image_path output_dir a1 a2 keep_zarr overwrite).
Proof.
  assert (S2 : never_exits (run_raw2ometiff exec image_path output_dir a2 keep_zarr)).
  { unfold run_raw2ometiff.
    repeat (apply never_exits_bind; [try apply never_exits_print | intros ?]).
    - apply never_exits_attempt; [apply never_exits_run | intros; apply never_exits_print].
    - destruct (negb _); [apply never_exits_ret | ].
      apply never_exits_bind; [apply never_exits_cleanup | intros ?].
      apply never_exits_bind; [apply never_exits_print | intros; apply never_exits_ret]. }
  assert (S1 : never_exits (run_stages exec image_path output_dir a1 a2 keep_zarr)).
  { unfold run_stages.
    repeat (apply never_exits_bind; [try apply never_exits_print | intros ?]).
    - apply never_exits_attempt; [apply never_exits_run | intros; apply never_exits_print].
    - destruct (negb _); [apply never_exits_ret | exact S2]. }
  unfold convert_image.
  apply never_exits_bind; [apply never_exits_exists | intros there].
  destruct there; [ | exact S1].
  destruct overwrite.
  - apply never_exits_bind.
    + apply never_exits_attempt; [apply never_exits_remove | intros; apply never_exits_print].
    + intros [ | ]; [exact S1 | apply never_exits_ret].
  - apply never_exits_bind; [apply never_exits_print | intros; apply never_exits_ret].
Qed.

Lemma never_exits_convert_item (exec : tool) (a : args) (input_dir image_path : string) :
  never_exits (convert_item exec a input_dir image_path).
Proof.
  unfold convert_item.
  apply never_exits_bind; [apply never_exits_relpath | intros rel].
  apply never_exits_bind; [apply never_exits_makedirs | intros _].
  apply never_exits_convert_image.
Qed.

Lemma count_true_cons (r : result bool) (rs : list (result bool)) :
  count_true (r :: rs) = (if returned_true r then 1 else 0) + count_true rs.
Proof. unfold count_true. simpl. now destruct (returned_true r). Qed.

Lemma count_true_le (rs : list (result bool)) : count_true rs <= length rs.
Proof. unfold count_true. apply filter_length_le. Qed.

Lemma count_true_all (rs : list (result bool)) :
  count_true rs = length rs <-> forallb returned_true rs = true.
Proof.
  induction rs as [ | r rs IH]; [now split | ].
  rewrite count_true_cons. simpl. pose proof (count_true_le rs).
  destruct (returned_true r); simpl.
  - rewrite <- IH. lia.
  - split; [lia | discriminate].
Qed.

Lemma loop_step (exec : tool) (a : args) (input_dir x : string) (r : list string)
      (c : nat) (w : world) :
  for_each (x :: r) (convert_one exec a input_dir) c w
  = match convert_item exec a input_dir x w with
    | (Ok b, w1) => for_each r (convert_one exec a input_dir) (if b then c + 1 else c) w1
    | (Raise e, w1) => (Raise e, w1)
    end.
Proof.
  simpl. unfold convert_one at 1. unfold bind.
  destruct (convert_item exec a input_dir x w) as [[b | e] w1]; reflexivity.
Qed.

(** The loop of [main] by what the items gave: the count of the items that
    returned [True] when every item returned, and the exception of the
    first item that raised otherwise. *)
Lemma loop_by_item_results (exec : tool) (a : args) (input_dir : string)
      (image_paths : list string) :
  forall (c : nat) (w : world),
    let rs := item_results exec a input_dir image_paths w in
    if forallb returned rs
    then length rs = length image_paths
         /\ exists w', for_each image_paths (convert_one exec a input_dir) c w
                       = (Ok (c + count_true rs), w')
    else exists e w', for_each image_paths (convert_one exec a input_dir) c w
                      = (Raise e, w')
                      /\ not_exit e = true.
Proof.
  induction image_paths as [ | x r IH]; intros c w.
  - simpl. split; [reflexivity | ]. exists w. unfold ret, count_true. simpl.
    now rewrite Nat.add_0_r.
  - rewrite loop_step. cbn [item_results].
    destruct (convert_item exec a input_dir x w) as [[b | e] w1] eqn:E.
    + specialize (IH (if b then c + 1 else c) w1). cbv zeta in IH.
      cbv zeta. cbn [forallb returned andb length].
      destruct (forallb returned (item_results exec a input_dir r w1)).
      * destruct IH as [Hl (w' & IH)]. split; [now rewrite Hl | ].
        exists w'. rewrite IH, count_true_cons. f_equal. f_equal.
        destruct b; simpl; lia.
      * exact IH.
    + cbv zeta. cbn [forallb returned andb]. exists e, w1. split; [reflexivity | ].
      now apply (never_exits_convert_item exec a input_dir x w e w1).
Qed.

Lemma returned_true_returned (rs : list (result bool)) :
  forallb returned_true rs = true -> forallb returned rs = true.
Proof.
  induction rs as [ | r rs IH]; [reflexivity | ]. simpl.
  intros H. apply andb_prop in H as [Hr Hrs]. rewrite (IH Hrs).
  now destruct r as [[ | ] | e].
Qed.

Lemma exit_status_not_exit (e : exn) : not_exit e = true -> exit_status (Raise e) = 1%Z.
Proof. now destruct e. Qed.

(** [img2ome.main] once images were found. *)
Lemma main_by_item_results (exec : tool) (a : args) (w w1 : world) (images : list string) :
  os_makedirs (output_dir a) w = (Ok tt, w1) ->
  fst (find_images (input_path a) w1) = Ok images ->
  images <> [] ->
  let input_dir :=
    if isfile_in w1 (input_path a) then posixpath.dirname (input_path a)
    else input_path a in
  let w2 := World (fs w1) (cwd_parts w1)
                  (log w1 ++ [Stdout ("Found " ++ PyStr.str_nat (length images)
                                      ++ " image(s) to convert")]) in
  let rs := item_results exec a input_dir images w2 in
  if forallb returned rs
  then length rs = length images
       /\ exists w3,
           main exec a w
           = ((if Nat.ltb (count_true rs) (length images)
               then Raise (SystemExit 1) else Ok tt),
              World (fs w3) (cwd_parts w3)
                    (log w3 ++ [Stdout ("Successfully converted "
                                        ++ PyStr.str_nat (count_true rs) ++ "/"
                                        ++ PyStr.str_nat (length images) ++ " images.")]))
  else exists e w3, main exec a w = (Raise e, w3) /\ not_exit e = true.
Proof.
  intros Mk Hfind Hne input_dir w2 rs.
  destruct (find_images_reads (input_path a) w1) as [found Hf].
  rewrite Hf in Hfind. injection Hfind as ->.
  pose proof (loop_by_item_results exec a input_dir images 0 w2) as L.
  cbv zeta in L. fold rs in L.
  assert (E : main exec a w
              = bind (for_each images (convert_one exec a input_dir) 0)
                     (fun success_count =>
                        print ("Successfully converted " ++ PyStr.str_nat success_count
                               ++ "/" ++ PyStr.str_nat (length images) ++ " images.") ;;
                        if Nat.ltb success_count (length images)
                        then sys_exit 1 else ret tt) w2).
  { unfold main. rewrite (bind_ok _ _ _ _ _ Mk).
    rewrite (bind_ok _ _ _ _ _ (os_path_isfile_eq _ _)).
    rewrite (bind_ok _ _ _ _ _ Hf).
    destruct images as [ | x r]; [contradiction | ].
    rewrite (bind_ok _ _ _ _ _ (print_eq _ _)). reflexivity. }
  rewrite E. destruct (forallb returned rs).
  - destruct L as [Hl (w3 & L)]. split; [exact Hl | ]. exists w3.
    rewrite (bind_ok _ _ _ _ _ L). cbn [Nat.add].
    rewrite (bind_ok _ _ _ _ _ (print_eq _ _)).
    destruct (Nat.ltb (count_true rs) (length images)); reflexivity.
  - destruct L as (e & w3 & L & He). exists e, w3.
    split; [ | exact He]. now rewrite (bind_raise _ _ _ _ _ L).
Qed.

(** Listing reads the file system and leaves the world as it is. *)
Lemma glob_reads (glob_pattern : string -> string -> world -> result (list string))
      (d pattern : string) (w : world) :
  snd (qupath_img2ome.glob glob_pattern d pattern w) = w.
Proof.
  unfold qupath_img2ome.glob.
  destruct pattern as [ | c ext]; [reflexivity | ].
  destruct c as [[ | ] [ | ] [ | ] [ | ] [ | ] [ | ] [ | ] [ | ]]; try reflexivity.
  destruct (qupath_img2ome.plain ext); reflexivity.
Qed.

Lemma gather_files_reads
      (glob_pattern : string -> string -> world -> result (list string))
      (d : string) (extensions : list string) (w : world) :
  snd (qupath_img2ome.gather_files glob_pattern d extensions w) = w.
Proof.
  unfold qupath_img2ome.gather_files. generalize (@nil string) as acc.
  induction extensions as [ | ext r IH]; intros acc; [reflexivity | ].
  cbn [for_each]. unfold bind at 1 2.
  pose proof (glob_reads glob_pattern d ("*" ++ ext) w) as G.
  destruct (qupath_img2ome.glob glob_pattern d ("*" ++ ext) w) as [[found | e] w0];
    cbn [snd] in G; subst w0; [ | reflexivity].
  unfold ret. apply IH.
Qed.

Lemma process_file_eq
      (float : Type) (float_ne_one float_gt_one : float -> bool)
      (str_float : float -> string) (exec : capturing_tool)
      (output_path output_format : string) (o : qupath_img2ome.options float)
      (file : string) (success_count : nat) :
  qupath_img2ome.process_file float_ne_one float_gt_one str_float exec
                              output_path output_format o file success_count
  = (converted <- qupath_img2ome.convert_image
                    float_ne_one float_gt_one str_float exec file
                    (output_file output_path output_format file) o ;;
     ret (if converted then success_count + 1 else success_count)).
Proof.
  unfold qupath_img2ome.process_file, output_file.
  destruct (String.eqb output_format "tiff"); reflexivity.
Qed.

(** The loop of [process_directory] by what its items gave: when every
    call of [convert_image] returned, the loop ends with the number of
    calls that returned [True]. *)
Lemma qupath_loop_by_item_results
      (float : Type) (float_ne_one float_gt_one : float -> bool)
      (str_float : float -> string) (exec : capturing_tool)
      (output_path output_format : string) (o : qupath_img2ome.options float)
      (files : list string) :
  forall (c : nat) (w : world),
    let rs := qupath_item_results float_ne_one float_gt_one str_float exec
                                  output_path output_format o files w in
    forallb returned rs = true ->
    length rs = length files
    /\ exists w',
        for_each files
                 (qupath_img2ome.process_file float_ne_one float_gt_one str_float exec
                                              output_path output_format o) c w
        = (Ok (c + count_true rs), w').
Proof.
  induction files as [ | file rest IH]; intros c w rs Hret.
  - split; [reflexivity | ]. exists w. cbn. now rewrite Nat.add_0_r.
  - subst rs. cbn [qupath_item_results for_each] in *.
    rewrite process_file_eq. unfold bind at 1 2.
    destruct (qupath_img2ome.convert_image _ _ _ _ file _ o w) as [[b | e] w1];
      [ | discriminate Hret].
    cbn [forallb returned andb] in Hret.
    destruct (IH (if b then c + 1 else c) w1 Hret) as [Hl (w' & E)].
    split; [cbn [length]; now rewrite Hl | ].
    exists w'. unfold ret. rewrite E. rewrite count_true_cons.
    destruct b; cbn [returned_true]; f_equal; f_equal; lia.
Qed.

(** A directory run of [qupath_img2ome.py] that lists at least one file,
    when every call of [convert_image] returned: it prints the summary and
    returns. *)
Lemma process_directory_by_item_results
      (float : Type) (float_ne_one float_gt_one : float -> bool)
      (str_float : float -> string) (exec : capturing_tool)
      (glob_pattern : string -> string -> world -> result (list string))
      (input_dir output_dir output_format : string) (extensions : list string)
      (o : qupath_img2ome.options float) (w w1 : world) (files : list string) :
  os_makedirs (qupath_img2ome.Path output_dir) w = (Ok tt, w1) ->
  fst (qupath_img2ome.gather_files glob_pattern (qupath_img2ome.Path input_dir)
                                   extensions w1) = Ok files ->
  files <> [] ->
  let rs := qupath_item_results float_ne_one float_gt_one str_float exec
                                (qupath_img2ome.Path output_dir) output_format o
                                files w1 in
  forallb returned rs = true ->
  length rs = length files
  /\ exists w3,
      qupath_img2ome.process_directory float_ne_one float_gt_one str_float exec
                                       glob_pattern input_dir output_dir
                                       output_format extensions o w
      = (Ok tt,
         World (fs w3) (cwd_parts w3)
               (log w3 ++ [Stdout ("Successfully converted "
                                   ++ PyStr.str_nat (count_true rs) ++ " of "
                                   ++ PyStr.str_nat (length files) ++ " files")])).
Proof.
  intros Mk Hg Hne rs Hret.
  destruct (qupath_loop_by_item_results float float_ne_one float_gt_one str_float exec
              (qupath_img2ome.Path output_dir) output_format o files 0 w1 Hret)
    as [Hl (w3 & L)].
  split; [exact Hl | ]. exists w3.
  unfold qupath_img2ome.process_directory. rewrite (bind_ok _ _ _ _ _ Mk).
  pose proof (gather_files_reads glob_pattern (qupath_img2ome.Path input_dir)
                extensions w1) as R.
  destruct (qupath_img2ome.gather_files glob_pattern (qupath_img2ome.Path input_dir)
              extensions w1) as [r w2] eqn:G.
  cbn [fst snd] in Hg, R. subst r w2.
  rewrite (bind_ok _ _ _ _ _ G).
  destruct files as [ | f r]; [contradiction | ].
  rewrite (bind_ok _ _ _ _ _ L). cbn [Nat.add]. apply print_eq.
Qed.

(** C4 (as amended). A run of [img2ome.py] that finds at least one image
    and in which every call of [convert_image] returned: the last line
    printed is the summary with the count of the calls that returned
    [True] over the number of images, and the process exits with status 0
    exactly when every call returned [True], with status 1 when one
    returned [False].  A directory run of [qupath_img2ome.py] that lists
    at least one file and in which every call of [convert_image] returned:
    the last line printed is the summary with the count of the calls that
    returned [True] and the number of files, and [process_directory]
    returns, so that the process ends with status 0, also when conversions
    failed. *)
Theorem exit_status_by_item_results
        (exec : tool) (a : args) (w w1 : world) (images : list string) :
  os_makedirs (output_dir a) w = (Ok tt, w1) ->
  fst (find_images (input_path a) w1) = Ok images ->
  images <> [] ->
  let input_dir :=
    if isfile_in w1 (input_path a) then posixpath.dirname (input_path a)
    else input_path a in
  let w2 := World (fs w1) (cwd_parts w1)
                  (log w1 ++ [Stdout ("Found " ++ PyStr.str_nat (length images)
                                      ++ " image(s) to convert")]) in
  let rs := item_results exec a input_dir images w2 in
  let run := main exec a w in
  (forallb returned rs = true ->
   length rs = length images
   /\ (exit_status (fst run) = 0%Z <-> forallb returned_true rs = true)
   /\ (forallb returned_true rs = false -> exit_status (fst run) = 1%Z)
   /\ count_true rs <= length images
   /\ last (printed (log (snd run))) ""
      = "Successfully converted " ++ PyStr.str_nat (count_true rs) ++ "/"
        ++ PyStr.str_nat (length images) ++ " images.")
  /\ (forall (float : Type) (float_ne_one float_gt_one : float -> bool)
             (str_float : float -> string) (qexec : capturing_tool)
             (glob_pattern : string -> string -> world -> result (list string))
             (input_dir0 output_dir0 output_format : string)
             (extensions : list string) (o : qupath_img2ome.options float)
             (v v1 : world) (files : list string),
         os_makedirs (qupath_img2ome.Path output_dir0) v = (Ok tt, v1) ->
         fst (qupath_img2ome.gather_files glob_pattern (qupath_img2ome.Path input_dir0)
                                          extensions v1) = Ok files ->
         files <> [] ->
         let qrs := qupath_item_results float_ne_one float_gt_one str_float qexec
                                        (qupath_img2ome.Path output_dir0) output_format
                                        o files v1 in
         let qrun := qupath_img2ome.process_directory
                       float_ne_one float_gt_one str_float qexec glob_pattern
                       input_dir0 output_dir0 output_format extensions o v in
         forallb returned qrs = true ->
         length qrs = length files
         /\ fst qrun = Ok tt
         /\ exit_status (fst qrun) = 0%Z
         /\ count_true qrs <= length files
         /\ last (printed (log (snd qrun))) ""
            = "Successfully converted " ++ PyStr.str_nat (count_true qrs) ++ " of "
              ++ PyStr.str_nat (length files) ++ " files")
  /\ (forall (float : Type) (float_ne_one float_gt_one : float -> bool)
             (str_float : float -> string) (qexec : capturing_tool)
             (glob_pattern : string -> string -> world -> result (list string))
             (qa : qupath_img2ome.args float) (v : world),
         isfile_in v (qupath_img2ome.Path (qupath_img2ome.input qa)) = false ->
         isdir_in v (qupath_img2ome.Path (qupath_img2ome.input qa)) = true ->
         qupath_img2ome.main float_ne_one float_gt_one str_float qexec glob_pattern qa v
         = qupath_img2ome.process_directory
             float_ne_one float_gt_one str_float qexec glob_pattern
             (qupath_img2ome.Path (qupath_img2ome.input qa)) (qupath_img2ome.output qa)
             (qupath_img2ome.format qa) (qupath_img2ome.extensions qa)
             (qupath_img2ome.opts qa) v).
Proof.
  intros Mk Hfind Hne input_dir w2 rs run.
  split; [ | split].
  - intros Hret.
    pose proof (main_by_item_results exec a w w1 images Mk Hfind Hne) as R.
    cbv zeta in R. fold input_dir w2 rs run in R. rewrite Hret in R.
    destruct R as [Hl (w3 & R)].
    pose proof (count_true_le rs) as Hle.
    pose proof (count_true_all rs) as Hall.
    assert (Hx : exit_status (fst run) = 0%Z <-> forallb returned_true rs = true).
    { rewrite R. cbn [fst]. rewrite <- Hl in *.
      destruct (Nat.ltb_spec (count_true rs) (length rs)) as [Hlt | Hge]; cbn.
      - split; [discriminate | ]. intros H. apply Hall in H. lia.
      - split; [ | reflexivity]. intros _. apply Hall. lia. }
    split; [exact Hl | split; [exact Hx | split; [ | split]]].
    + intros Hf. rewrite R. cbn [fst]. rewrite <- Hl.
      destruct (Nat.ltb_spec (count_true rs) (length rs)) as [Hlt | Hge];
        [reflexivity | ].
      assert (Ht : forallb returned_true rs = true) by (apply Hall; lia).
      congruence.
    + now rewrite <- Hl.
    + rewrite R. cbn [snd log]. rewrite printed_app. cbn [printed flat_map app].
      apply last_last.
  - intros F ne gt str qexec gp input_dir0 output_dir0 fmt exts o v v1 files
           Mk0 Hg Hne0 qrs qrun Hret.
    destruct (process_directory_by_item_results F ne gt str qexec gp input_dir0
                output_dir0 fmt exts o v v1 files Mk0 Hg Hne0 Hret)
      as [Hl (w3 & R)].
    fold qrs in Hl, R. fold qrun in R.
    split; [exact Hl | ]. rewrite R. cbn [fst snd log exit_status].
    split; [reflexivity | split; [reflexivity | split]].
    + rewrite <- Hl. apply count_true_le.
    + rewrite printed_app. cbn [printed flat_map app]. apply last_last.
  - intros F ne gt str qexec gp qa v Hfile Hdir. unfold qupath_img2ome.main.
    rewrite (bind_ok _ _ _ _ _ (os_path_isfile_eq _ _)), Hfile.
    now rewrite (bind_ok _ _ _ _ _ (os_path_isdir_eq _ _)), Hdir.
Qed.

Lemma exit_status_by_item_results_witness :
  (os_makedirs "out" (Scenario.at_data Scenario.flat_tree) = (Ok tt, Scenario.ready)
   /\ fst (find_images "in" Scenario.ready) = Ok ["in/x.tif"; "in/y.png"]
   /\ ["in/x.tif"; "in/y.png"] <> []
   /\ exit_status (fst (main Scenario.raw2ometiff_fails (Scenario.cli "in" "out" false)
                             (Scenario.at_data Scenario.flat_tree))) = 1%Z
   /\ last (printed (log (snd (main Scenario.raw2ometiff_fails
                                    (Scenario.cli "in" "out" false)
                                    (Scenario.at_data Scenario.flat_tree))))) ""
      = "Successfully converted 0/2 images.")
  /\ (os_makedirs (qupath_img2ome.Path "out") (Scenario.at_data Scenario.flat_tree)
      = (Ok tt, Scenario.ready)
      /\ fst (qupath_img2ome.gather_files Scenario.no_pattern (qupath_img2ome.Path "in")
                                          Scenario.qupath_extensions Scenario.ready)
         = Ok ["in/x.tif"; "in/y.png"]
      /\ exit_status
           (fst (qupath_img2ome.process_directory
                   Scenario.whole_ne_one Scenario.whole_gt_one Scenario.str_whole
                   (Scenario.captured_text Scenario.always_fails) Scenario.no_pattern
                   "in" "out" "tiff" Scenario.qupath_extensions Scenario.qupath_defaults
                   (Scenario.at_data Scenario.flat_tree))) = 0%Z
      /\ last (printed
                 (log (snd (qupath_img2ome.process_directory
                              Scenario.whole_ne_one Scenario.whole_gt_one
                              Scenario.str_whole
                              (Scenario.captured_text Scenario.always_fails)
                              Scenario.no_pattern "in" "out" "tiff"
                              Scenario.qupath_extensions Scenario.qupath_defaults
                              (Scenario.at_data Scenario.flat_tree))))) ""
         = "Successfully converted 0 of 2 files").
Proof.
  assert (Hne : ["in/x.tif"; "in/y.png"] <> []) by discriminate.
  split.
  - split; [reflexivity | split; [reflexivity | split; [exact Hne | ]]].
    pose proof (proj1 (exit_status_by_item_results
                         Scenario.raw2ometiff_fails (Scenario.cli "in" "out" false)
                         (Scenario.at_data Scenario.flat_tree) Scenario.ready
                         ["in/x.tif"; "in/y.png"] eq_refl eq_refl Hne) eq_refl)
      as (_ & _ & H1 & _ & H2).
    split; [exact (H1 eq_refl) | exact H2].
  - split; [reflexivity | split; [reflexivity | ]].
    pose proof (proj1 (proj2 (exit_status_by_item_results
                                Scenario.raw2ometiff_fails (Scenario.cli "in" "out" false)
                                (Scenario.at_data Scenario.flat_tree) Scenario.ready
                                ["in/x.tif"; "in/y.png"] eq_refl eq_refl Hne))
                      Z Scenario.whole_ne_one Scenario.whole_gt_one Scenario.str_whole
                      (Scenario.captured_text Scenario.always_fails) Scenario.no_pattern
                      "in" "out" "tiff" Scenario.qupath_extensions
                      Scenario.qupath_defaults
                      (Scenario.at_data Scenario.flat_tree) Scenario.ready
                      ["in/x.tif"; "in/y.png"] eq_refl eq_refl Hne eq_refl)
      as (_ & _ & H1 & _ & H2).
    split; [exact H1 | exact H2].
Defined.

(** C4 (counterexample). [qupath_img2ome.py in out] on a directory with
    [x.tif], [y.png] and [z.txt], where QuPath exits with status 1 each
    time: two images are found, both conversions fail and [convert_image]
    returns [False] twice, the summary says 0 of 2, and the process ends
    with status 0, not 1. *)
Lemma qupath_exits_with_0_when_conversions_fail :
  fst (qupath_img2ome.gather_files Scenario.no_pattern (qupath_img2ome.Path "in")
                                   Scenario.qupath_extensions Scenario.ready)
  = Ok ["in/x.tif"; "in/y.png"]
  /\ qupath_item_results Scenario.whole_ne_one Scenario.whole_gt_one Scenario.str_whole
                         (Scenario.captured_text Scenario.always_fails)
                         (qupath_img2ome.Path "out") "tiff" Scenario.qupath_defaults
                         ["in/x.tif"; "in/y.png"] Scenario.ready
     = [Ok false; Ok false]
  /\ printed (log (snd (Scenario.qupath_main
                          (Scenario.captured_text Scenario.always_fails)
                          (Scenario.qupath_cli "in" "out")
                          (Scenario.at_data Scenario.flat_tree))))
     = ["Error converting in/x.tif: failed"; "Error converting in/y.png: failed";
        "Successfully converted 0 of 2 files"]
  /\ exit_status (fst (Scenario.qupath_main
                         (Scenario.captured_text Scenario.always_fails)
                         (Scenario.qupath_cli "in" "out")
                         (Scenario.at_data Scenario.flat_tree)))
     = 0%Z
  /\ exit_status (fst (Scenario.qupath_main
                         (Scenario.captured_text Scenario.always_fails)
                         (Scenario.qupath_cli "in" "out")
                         (Scenario.at_data Scenario.flat_tree)))
     <> 1%Z.
Proof. vm_compute. repeat split. discriminate. Qed.

End ExitStatus.

(** ** Relative paths and the output subdirectory *)

Section RelativePaths.
Import PyStr.

Lemma fold_components_join (step : list string -> string -> list string) (x n : string) :
  proper_name n = true ->
  (forall s, step s "" = s) ->
  (forall s, step s n = (s ++ [n])%list) ->
  fold_left step (split sep (posixpath.join x n)) []
  = (fold_left step (split sep x) [] ++ [n])%list.
Proof.
  intros H Hskip Hpush. pose proof (proper_name_inv _ H) as (_ & Hn & _).
  destruct (join_name x n H) as [[E ->] | [(x' & -> & E) | (_ & _ & E)]]; rewrite E.
  - rewrite (split_no_sep _ Hn). simpl. rewrite Hskip. apply Hpush.
  - change ("/") with (String sep ""). rewrite !split_append_sep, !fold_left_app.
    rewrite (split_no_sep _ Hn). simpl. rewrite Hskip. apply Hpush.
  - rewrite split_append_sep, fold_left_app, (split_no_sep _ Hn). simpl. apply Hpush.
Qed.

Lemma norm_step_skip (k : nat) (s : list string) : posixpath.norm_step k s "" = s.
Proof. reflexivity. Qed.

Lemma norm_step_proper (k : nat) (s : list string) (n : string) :
  proper_name n = true -> posixpath.norm_step k s n = (s ++ [n])%list.
Proof.
  intros H. apply proper_name_inv in H as (_ & _ & H1 & H2 & H0).
  unfold posixpath.norm_step.
  apply String.eqb_neq in H0, H1, H2. rewrite H0, H1, H2. reflexivity.
Qed.

Lemma kept_join (x n : string) :
  proper_name n = true -> kept (posixpath.join x n) = (kept x ++ [n])%list.
Proof.
  intros H. apply fold_components_join; [exact H | | ].
  - intros s. apply norm_step_skip.
  - intros s. now apply norm_step_proper.
Qed.

Lemma startswith_cwd (parts : list string) (y : string) :
  startswith (("/" ++ String.concat "/" parts) ++ y) "/" = true.
Proof. reflexivity. Qed.

Lemma anchored_abs (parts : list string) (p : string) :
  startswith (anchored ("/" ++ String.concat "/" parts) p) "/" = true.
Proof.
  unfold anchored, posixpath.isabs. destruct (startswith p "/") eqn:E; [exact E | ].
  unfold posixpath.join. rewrite E.
  destruct (negb _ || _); apply startswith_cwd.
Qed.

Lemma anchored_join (c root n : string) :
  proper_name n = true ->
  anchored c (posixpath.join root n) = posixpath.join (anchored c root) n.
Proof.
  intros H. unfold anchored, posixpath.isabs.
  pose proof (proper_not_abs n H) as Hn.
  destruct (startswith root "/") eqn:E.
  - assert (T : truthy root = true) by (destruct root; [discriminate | reflexivity]).
    rewrite (join_relative root n Hn).
    destruct (negb (truthy root) || endswith root "/");
      rewrite (startswith_sep_append root _ T), E; reflexivity.
  - assert (R : startswith (posixpath.join root n) "/" = false).
    { rewrite (join_relative root n Hn).
      destruct (truthy root) eqn:T.
      - destruct (negb true || endswith root "/");
          now rewrite (startswith_sep_append root _ T).
      - apply truthy_false in T. subst root. exact Hn. }
    rewrite R. now apply join_assoc_name.
Qed.

(** Every component [split] gives is free of slashes. *)
Lemma split_parts_no_sep (s : string) : Forall (fun c => no_sep c = true) (split sep s).
Proof.
  induction s as [ | a r IH]; simpl; [now constructor | ].
  destruct (Ascii.eqb a sep) eqn:E; [now constructor | ].
  destruct (split sep r) as [ | x xs]; [now constructor; [simpl; rewrite E | ] | ].
  inversion IH as [ | ? ? Hx Hxs]; subst. constructor; [ | exact Hxs].
  simpl. now rewrite E, Hx.
Qed.

Lemma clean_removelast (comps : list string) : clean comps -> clean (removelast comps).
Proof.
  unfold clean. induction comps as [ | c r IH]; [auto | ]. intros H.
  inversion H as [ | ? ? Hc Hr]; subst. simpl.
  destruct r; [constructor | ]. constructor; [exact Hc | now apply IH].
Qed.

Lemma norm_step_clean (k : nat) (comps : list string) (c : string) :
  no_sep c = true -> clean comps -> clean (posixpath.norm_step k comps c).
Proof.
  intros Hc Hs. unfold posixpath.norm_step.
  destruct (String.eqb_spec c "") as [E0 | E0]; [exact Hs | ].
  destruct (String.eqb c "."); [exact Hs | ]. cbn [orb].
  destruct (negb (String.eqb c "..") || _).
  - apply Forall_app. split; [exact Hs | ]. constructor; [ | constructor].
    split; [exact Hc | ]. destruct c; [contradiction | reflexivity].
  - now apply clean_removelast.
Qed.

Lemma kept_clean (s : string) : clean (kept s).
Proof.
  unfold kept. pose proof (split_parts_no_sep s) as H.
  assert (G : forall l acc, Forall (fun c => no_sep c = true) l -> clean acc ->
                            clean (fold_left (posixpath.norm_step 1) l acc)).
  { induction l as [ | c r IH]; intros acc Hl Hacc; [exact Hacc | ].
    inversion Hl; subst. simpl. apply IH; [assumption | ]. now apply norm_step_clean. }
  apply G; [exact H | constructor].
Qed.

Lemma join_cons (c : string) (r : list string) :
  r <> [] -> PyStr.join "/" (c :: r) = c ++ String sep (PyStr.join "/" r).
Proof. destruct r; [contradiction | reflexivity]. Qed.

(** Joining with slashes and splitting at slashes. *)
Lemma split_join (comps : list string) :
  clean comps -> comps <> [] -> split sep (PyStr.join "/" comps) = comps.
Proof.
  induction comps as [ | c r IH]; [contradiction | ]. intros H _.
  inversion H as [ | ? ? [Hc _] Hr]; subst.
  destruct r as [ | c' r'].
  - simpl. now apply split_no_sep.
  - rewrite join_cons by discriminate. rewrite split_append_sep.
    rewrite (split_no_sep c Hc), IH; [reflexivity | exact Hr | discriminate].
Qed.

Lemma lstrip_clean (comps : list string) :
  clean comps -> lstrip sep (PyStr.join "/" comps) = PyStr.join "/" comps.
Proof.
  intros H. destruct comps as [ | c r]; [reflexivity | ].
  inversion H as [ | ? ? [Hc Ht] Hr]; subst.
  assert (G : forall y, lstrip sep (c ++ y) = c ++ y).
  { intros y. destruct c as [ | a c']; [discriminate | ]. simpl in *.
    apply andb_prop in Hc as [Ha _]. apply negb_true_iff in Ha. now rewrite Ha. }
  destruct r as [ | c' r'].
  - simpl. rewrite <- (append_nil_r c). apply G.
  - rewrite join_cons by discriminate. apply G.
Qed.

Lemma truthy_join_clean (comps : list string) :
  clean comps -> comps <> [] -> truthy (PyStr.join "/" comps) = true.
Proof.
  intros H Hne. destruct comps as [ | c r]; [contradiction | ].
  inversion H as [ | ? ? [_ Ht] _]; subst.
  destruct c; [discriminate | ]. destruct r; reflexivity.
Qed.

(** The list of components [relpath] computes for a path. *)
Lemma relpath_components (parts : list string) (p : string) :
  let c := "/" ++ String.concat "/" parts in
  let tail := lstrip sep (posixpath.abspath c p) in
  (if truthy tail then split sep tail else []) = kept (anchored c p).
Proof.
  intros c tail. subst tail.
  assert (E : exists sl, (sl = "/" \/ sl = "//")
                         /\ posixpath.abspath c p = sl ++ PyStr.join "/" (kept (anchored c p))).
  { pose proof (anchored_abs parts p) as Habs. fold c in Habs.
    assert (N : posixpath.abspath c p = posixpath.normpath (anchored c p)).
    { unfold posixpath.abspath, anchored. now destruct (posixpath.isabs p). }
    rewrite N. unfold posixpath.normpath.
    assert (T : truthy (anchored c p) = true)
      by (destruct (anchored c p); [discriminate | reflexivity]).
    rewrite T, Habs. cbn [negb].
    destruct (startswith (anchored c p) "//" && negb (startswith (anchored c p) "///")).
    - exists "//". split; [now right | reflexivity].
    - exists "/". split; [now left | reflexivity]. }
  destruct E as (sl & Hsl & ->).
  pose proof (kept_clean (anchored c p)) as Hc.
  assert (L : lstrip sep (sl ++ PyStr.join "/" (kept (anchored c p)))
              = PyStr.join "/" (kept (anchored c p))).
  { destruct Hsl as [-> | ->]; simpl; now apply lstrip_clean. }
  rewrite L. destruct (kept (anchored c p)) as [ | x xs] eqn:K; [reflexivity | ].
  rewrite truthy_join_clean, split_join; try discriminate; auto.
Qed.

Lemma commonprefix_app (x y : list string) : posixpath.commonprefix x (x ++ y) = x.
Proof. induction x as [ | a x IH]; [now destruct y | ]. simpl. now rewrite String.eqb_refl, IH. Qed.

Lemma path_below_snoc (root : string) (names : list string) (n : string) :
  path_below root (names ++ [n]) = posixpath.join (path_below root names) n.
Proof. unfold path_below. now rewrite fold_left_app. Qed.

Lemma kept_path_below (c root : string) (names : list string) :
  Forall (fun n => proper_name n = true) names ->
  kept (anchored c (path_below root names)) = (kept (anchored c root) ++ names)%list.
Proof.
  induction names as [ | n names IH] using rev_ind; intros H.
  - simpl. now rewrite app_nil_r.
  - apply Forall_app in H as [Hs Hn]. inversion Hn; subst.
    rewrite path_below_snoc, anchored_join, kept_join, IH, app_assoc; auto.
Qed.

Lemma truthy_path_below (root : string) (names : list string) (n : string) :
  proper_name n = true -> truthy (path_below root (names ++ [n])) = true.
Proof.
  intros H. rewrite path_below_snoc. apply join_truthy.
  now apply proper_name_inv in H as (H & _).
Qed.

(** [os.path.relpath] of a path built by [os.walk] beneath [root]: the
    names on the way down, joined with slashes. *)
Lemma relpath_below (parts : list string) (root : string) (names : list string) (n : string) :
  Forall (fun x => proper_name x = true) (names ++ [n]) ->
  posixpath.relpath ("/" ++ String.concat "/" parts) (path_below root (names ++ [n])) root
  = Some (PyStr.join "/" (names ++ [n])).
Proof.
  intros H. unfold posixpath.relpath.
  assert (Hn : proper_name n = true).
  { apply Forall_app in H as [_ Hn]. now inversion Hn. }
  rewrite (truthy_path_below root names n Hn). cbn [negb].
  pose proof (relpath_components parts root) as R1.
  pose proof (relpath_components parts (path_below root (names ++ [n]))) as R2.
  cbv zeta in R1, R2. rewrite R1, R2.
  rewrite (kept_path_below _ root (names ++ [n]) H).
  rewrite commonprefix_app, Nat.sub_diag, skipn_app, Nat.sub_diag, skipn_all.
  simpl. destruct (names ++ [n])%list eqn:E; [now destruct names | reflexivity].
Qed.

Lemma rstrip_append_sep (x : string) : rstrip sep (x ++ "/") = rstrip sep x.
Proof.
  induction x as [ | a r IH]; [reflexivity | ].
  change (String a r ++ "/") with (String a (r ++ "/")).
  cbn [rstrip]. now rewrite IH.
Qed.

Lemma rstrip_no_sep (n : string) : no_sep n = true -> rstrip sep n = n.
Proof.
  induction n as [ | a r IH]; [reflexivity | ]. simpl. intros H.
  apply andb_prop in H as [Ha Hr]. rewrite (IH Hr).
  apply negb_true_iff in Ha. rewrite Ha. now destruct r.
Qed.

Lemma rstrip_stable_append (a b : string) :
  truthy b = true -> rstrip sep b = b -> rstrip sep (a ++ b) = a ++ b.
Proof.
  intros T H. induction a as [ | c a IH]; [exact H | ].
  change (String c a ++ b) with (String c (a ++ b)). cbn [rstrip]. rewrite IH.
  destruct (a ++ b) eqn:E; [ | reflexivity].
  destruct a; [simpl in E; subst b; discriminate | discriminate].
Qed.

Lemma rstrip_join_clean (comps : list string) :
  clean comps -> rstrip sep (PyStr.join "/" comps) = PyStr.join "/" comps.
Proof.
  induction comps as [ | c r IH]; [reflexivity | ]. intros H.
  inversion H as [ | ? ? [Hc Ht] Hr]; subst.
  destruct r as [ | c' r'].
  - simpl. now apply rstrip_no_sep.
  - rewrite join_cons by discriminate.
    change (c ++ String sep (PyStr.join "/" (c' :: r')))
      with (c ++ ("/" ++ PyStr.join "/" (c' :: r'))).
    rewrite <- append_assoc. apply rstrip_stable_append.
    + apply truthy_join_clean; [exact Hr | discriminate].
    + now apply IH.
Qed.

Lemma proper_clean (names : list string) :
  Forall (fun n => proper_name n = true) names -> clean names.
Proof.
  intros H. unfold clean. eapply Forall_impl; [ | exact H].
  intros n Hn. apply proper_name_inv in Hn as (T & N & _). now split.
Qed.

Lemma join_snoc (names : list string) (n : string) :
  names <> [] ->
  PyStr.join "/" (names ++ [n]) = PyStr.join "/" names ++ String sep n.
Proof.
  induction names as [ | c r IH]; [contradiction | ]. intros _.
  destruct r as [ | c' r'].
  - reflexivity.
  - change ((c :: c' :: r') ++ [n])%list with (c :: ((c' :: r') ++ [n]))%list.
    rewrite join_cons by (simpl; discriminate).
    rewrite IH by discriminate. rewrite (join_cons c (c' :: r')) by discriminate.
    rewrite append_assoc. reflexivity.
Qed.

(** [os.path.dirname] of a relative path: the names but the last, joined
    with slashes. *)
Lemma dirname_join (names : list string) (n : string) :
  Forall (fun x => proper_name x = true) (names ++ [n]) ->
  posixpath.dirname (PyStr.join "/" (names ++ [n])) = PyStr.join "/" names.
Proof.
  intros H. apply Forall_app in H as [Hs Hn]. inversion Hn as [ | ? ? Hp _]; subst.
  pose proof (proper_name_inv n Hp) as (_ & Hns & _).
  unfold posixpath.dirname. destruct names as [ | c r].
  - simpl. now rewrite (rpartition_no_sep n Hns).
  - rewrite join_snoc by discriminate. rewrite (rpartition_dir_name _ n Hns).
    cbn [fst].
    assert (T : truthy (PyStr.join "/" (c :: r) ++ "/") = true)
      by (apply truthy_append_r; reflexivity).
    assert (A : all_char sep (PyStr.join "/" (c :: r) ++ "/") = false).
    { inversion Hs as [ | ? ? Hc _]; subst.
      apply proper_name_inv in Hc as (Tc & Nc & _).
      destruct c as [ | a c']; [discriminate | ]. simpl in Nc.
      apply andb_prop in Nc as [Ha _]. apply negb_true_iff in Ha.
      destruct r; simpl; now rewrite Ha. }
    rewrite T, A. cbn [negb andb]. rewrite rstrip_append_sep.
    apply rstrip_join_clean. now apply proper_clean.
Qed.

(** [os.path.basename] of a path built by [os.path.join]: the file name. *)
Lemma basename_join (x n : string) :
  proper_name n = true -> posixpath.basename (posixpath.join x n) = n.
Proof.
  intros H. pose proof (proper_name_inv n H) as (_ & Hn & _).
  unfold posixpath.basename.
  destruct (join_name x n H) as [[E _] | [(x' & _ & E) | (_ & _ & E)]]; rewrite E.
  - now rewrite (rpartition_no_sep n Hn).
  - now rewrite (rpartition_dir_name x' n Hn).
  - now rewrite (rpartition_dir_name x n Hn).
Qed.

Lemma image_name_below (root : string) (names : list string) (n : string) :
  proper_name n = true ->
  img2ome.image_name (path_below root (names ++ [n]))
  = fst (posixpath.splitext n).
Proof.
  intros H. unfold img2ome.image_name.
  now rewrite path_below_snoc, basename_join.
Qed.

End RelativePaths.

(** ** Invariants of the world through [convert_image] *)

Section Invariants.
Import img2ome.

Lemma preserves_ret {A : Type} (I : world -> Prop) (a : A) : preserves I (ret a).
Proof. intros w r w' H [= _ <-]. exact H. Qed.

Lemma preserves_bind {A B : Type} (I : world -> Prop) (m : M A) (k : A -> M B) :
  preserves I m -> (forall a, preserves I (k a)) -> preserves I (bind m k).
Proof.
  intros Hm Hk w r w' H. unfold bind.
  destruct (m w) as [[a | e] w1] eqn:E.
  - apply (Hk a). now apply (Hm w (Ok a) w1).
  - intros [= _ <-]. now apply (Hm w (Raise e) w1).
Qed.

Lemma preserves_attempt (I : world -> Prop) (body : M unit) (catches : exn -> bool)
      (handler : exn -> M unit) :
  preserves I body -> (forall e, preserves I (handler e)) ->
  preserves I (attempt body catches handler).
Proof.
  intros Hb Hh w r w' H. unfold attempt.
  destruct (body w) as [[u | e] w1] eqn:E.
  - intros [= _ <-]. now apply (Hb w (Ok u) w1).
  - assert (H1 : I w1) by now apply (Hb w (Raise e) w1).
    destruct (catches e).
    + apply preserves_bind; [apply Hh | intros; apply preserves_ret | exact H1].
    + now intros [= _ <-].
Qed.

Section ConvertImageKeeps.
Variable exec : tool.
Variable c0 : list string.
Variable P : FS.node -> Prop.
Variables image_path output_dir : string.

Hypothesis tools_keep :
  forall cmd n, P n -> P (snd (exec cmd ("/" ++ String.concat "/" c0) n)).
Hypothesis remove_keeps :
  forall n, P n ->
            P (FS.delete (FS.resolve ("/" ++ String.concat "/" c0)
                                     (ometiff_path image_path output_dir)) n).
Hypothesis rmtree_keeps :
  forall n, P n ->
            P (FS.delete (FS.resolve ("/" ++ String.concat "/" c0)
                                     (zarr_dir image_path output_dir)) n).

Lemma preserves_print (line : string) : preserves (kept_world c0 P) (print line).
Proof. intros w r w' H [= _ <-]. exact H. Qed.

Lemma preserves_exists (p : string) : preserves (kept_world c0 P) (os_path_exists p).
Proof. intros w r w' H [= _ <-]. exact H. Qed.

Lemma preserves_run (cmd : list string) : preserves (kept_world c0 P) (subprocess_run exec cmd).
Proof.
  intros w r w' [Hc HP]. unfold subprocess_run.
  assert (E : cwd w = "/" ++ String.concat "/" c0) by (unfold cwd; now rewrite Hc).
  rewrite E. pose proof (tools_keep cmd (fs w) HP) as K.
  destruct (exec cmd ("/" ++ String.concat "/" c0) (fs w)) as [[[s | k | ] err] n];
    simpl in K.
  - destruct (Z.eqb _ 0); intros [= _ <-]; now split.
  - destruct (Z.eqb _ 0); intros [= _ <-]; now split.
  - intros [= _ <-]. now split.
Qed.

Lemma preserves_remove :
  preserves (kept_world c0 P) (os_remove (ometiff_path image_path output_dir)).
Proof.
  intros w r w' [Hc HP]. unfold os_remove.
  assert (E : cwd w = "/" ++ String.concat "/" c0) by (unfold cwd; now rewrite Hc).
  destruct (node_at w _) as [[c | es] | ]; intros [= _ <-]; try now split.
  split; [exact Hc | ]. simpl. rewrite E. now apply remove_keeps.
Qed.

Lemma preserves_rmtree :
  preserves (kept_world c0 P) (shutil_rmtree (zarr_dir image_path output_dir)).
Proof.
  intros w r w' [Hc HP]. unfold shutil_rmtree.
  assert (E : cwd w = "/" ++ String.concat "/" c0) by (unfold cwd; now rewrite Hc).
  destruct (node_at w _) as [[c | es] | ]; intros [= _ <-]; try now split.
  split; [exact Hc | ]. simpl. rewrite E. now apply rmtree_keeps.
Qed.

Lemma preserves_convert_image (a1 a2 : list string) (keep_zarr overwrite : bool) :
  preserves (kept_world c0 P)
            (convert_image exec image_path output_dir a1 a2 keep_zarr overwrite).
Proof.
  assert (C : preserves (kept_world c0 P)
                        (cleanup_zarr keep_zarr (zarr_dir image_path output_dir))).
  { unfold cleanup_zarr. destruct (negb keep_zarr); [ | apply preserves_ret].
    apply preserves_bind; [apply preserves_exists | ].
    intros [ | ]; [apply preserves_rmtree | apply preserves_ret]. }
  assert (S2 : preserves (kept_world c0 P)
                         (run_raw2ometiff exec image_path output_dir a2 keep_zarr)).
  { unfold run_raw2ometiff.
    repeat (apply preserves_bind; [try apply preserves_print | intros ?]).
    - apply preserves_attempt; [apply preserves_run | intros; apply preserves_print].
    - destruct (negb _); [apply preserves_ret | ].
      apply preserves_bind; [exact C | intros ?].
      apply preserves_bind; [apply preserves_print | intros; apply preserves_ret]. }
  assert (S1 : preserves (kept_world c0 P)
                         (run_stages exec image_path output_dir a1 a2 keep_zarr)).
  { unfold run_stages.
    repeat (apply preserves_bind; [try apply preserves_print | intros ?]).
    - apply preserves_attempt; [apply preserves_run | intros; apply preserves_print].
    - destruct (negb _); [apply preserves_ret | exact S2]. }
  unfold convert_image.
  apply preserves_bind; [apply preserves_exists | intros there].
  destruct there; [ | exact S1].
  destruct overwrite.
  - apply preserves_bind.
    + apply preserves_attempt; [apply preserves_remove | intros; apply preserves_print].
    + intros [ | ]; [exact S1 | apply preserves_ret].
  - apply preserves_bind; [apply preserves_print | intros; apply preserves_ret].
Qed.

End ConvertImageKeeps.

(** [convert_image] and the loop body leave the working directory. *)
Lemma convert_item_keeps_cwd (exec : tool) (a : args) (input_dir image_path : string)
      (w w' : world) (r : result bool) :
  convert_item exec a input_dir image_path w = (r, w') -> cwd_parts w' = cwd_parts w.
Proof.
  unfold convert_item, bind, os_path_relpath.
  destruct (posixpath.relpath (cwd w) image_path input_dir) as [rel | ];
    [ | now intros [= _ <-]].
  destruct (os_makedirs (output_subdir a rel) w) as [[u | e] w1] eqn:Mk.
  - assert (H1 : cwd_parts w1 = cwd_parts w).
    { unfold os_makedirs in Mk. destruct (PyStr.truthy _); [ | discriminate].
      destruct (FS.mkdirs _ _); [ | discriminate]. now injection Mk as _ <-. }
    intros H.
    apply (preserves_convert_image exec (cwd_parts w) (fun _ => True) image_path
             (output_subdir a rel) (fun _ _ _ => I) (fun _ _ => I) (fun _ _ => I)
             _ _ _ _ w1 r w') in H.
    + apply H.
    + now split.
  - intros [= _ <-]. unfold os_makedirs in Mk.
    destruct (PyStr.truthy _); [ | now injection Mk as _ <-].
    destruct (FS.mkdirs _ _); [discriminate | now injection Mk as _ <-].
Qed.

End Invariants.

(** ** The output location of an image *)

Section OutputLocation.
Import img2ome.

Lemma resolve_keeps_dir_remove (c : string) (image_path output_dir : string)
      (n : FS.node) (es : list (string * FS.node)) :
  FS.lookup (FS.resolve c output_dir) n = Some (FS.Dir es) ->
  exists es',
    FS.lookup (FS.resolve c output_dir)
              (FS.delete (FS.resolve c (ometiff_path image_path output_dir)) n)
    = Some (FS.Dir es').
Proof.
  intros H. rewrite ometiff_path_resolve.
  now apply delete_keeps_dir with es; [discriminate | ].
Qed.

Lemma resolve_keeps_dir_rmtree (c : string) (image_path output_dir : string)
      (n : FS.node) (es : list (string * FS.node)) :
  FS.lookup (FS.resolve c output_dir) n = Some (FS.Dir es) ->
  exists es',
    FS.lookup (FS.resolve c output_dir)
              (FS.delete (FS.resolve c (zarr_dir image_path output_dir)) n)
    = Some (FS.Dir es').
Proof.
  intros H. rewrite zarr_dir_resolve.
  now apply delete_keeps_dir with es; [discriminate | ].
Qed.

(** [convert_image] leaves its output directory in place when the tools
    do. *)
Lemma convert_image_keeps_output_dir
      (exec : tool) (image_path output_dir : string) (a1 a2 : list string)
      (keep_zarr overwrite : bool) (w w' : world) (r : result bool) :
  keeps_dir exec (FS.resolve (cwd w) output_dir) ->
  isdir_in w output_dir = true ->
  convert_image exec image_path output_dir a1 a2 keep_zarr overwrite w = (r, w') ->
  isdir_in w' output_dir = true.
Proof.
  intros Hk Hd Hrun.
  assert (T : PyStr.truthy output_dir = true).
  { unfold isdir_in, node_at in Hd. now destruct (PyStr.truthy output_dir). }
  set (p := FS.resolve (cwd w) output_dir) in *.
  pose (P := fun n : FS.node => exists es, FS.lookup p n = Some (FS.Dir es)).
  assert (I0 : kept_world (cwd_parts w) P w).
  { split; [reflexivity | ]. unfold isdir_in, node_at in Hd. rewrite T in Hd.
    fold p in Hd. destruct (FS.lookup p (fs w)) as [[c | es] | ] eqn:L; try discriminate.
    unfold P. now exists es. }
  assert (I1 : kept_world (cwd_parts w) P w').
  { apply (preserves_convert_image exec (cwd_parts w) P image_path output_dir)
      with (a1 := a1) (a2 := a2) (keep_zarr := keep_zarr) (overwrite := overwrite)
           (w := w) (r := r); auto.
    - intros cmd n [es Hes]. apply (Hk cmd _ n es Hes).
    - intros n [es Hes]. now apply resolve_keeps_dir_remove with es.
    - intros n [es Hes]. now apply resolve_keeps_dir_rmtree with es. }
  destruct I1 as [Hc [es Hes]].
  unfold isdir_in, node_at. rewrite T.
  assert (E : cwd w' = cwd w) by (unfold cwd; now rewrite Hc).
  rewrite E. fold p. now rewrite Hes.
Qed.

(** Every file beneath a directory has a path of the form
    [path_below top (comps ++ [name])]. *)
Lemma file_beneath_path (top : string) (n : FS.node) (name p : string) :
  file_beneath top n name p ->
  exists comps, p = path_below top (comps ++ [name]).
Proof.
  induction 1 as [top es name content Hin | top es d sub name p Hin Hsub IH].
  - now exists [].
  - destruct IH as [comps ->]. now exists (d :: comps).
Qed.

(** C8. An image that [os.walk] reports beneath the input root, by the
    directory names [comps] and the file name [file] (as
    [root/a/b/img.tif] is by [a], [b] and [img.tif]), has its OME-TIFF at
    the output directory joined with the same directory names and the
    stem of the file name with [.ome.tiff] ([output_dir/a/b/img.ome.tiff]).
    The loop body makes that subdirectory before it calls
    [convert_image]: when [os.makedirs] raises, nothing is converted;
    otherwise the subdirectory is there when the pipeline starts, and it is
    still there when the item ends, whether it returns [True], returns
    [False] or raises, provided the tools do not remove it. *)
Theorem output_mirrors_input_tree
        (exec : tool) (a : args) (w : world) (root : string)
        (comps : list string) (file : string) :
  Forall (fun n => proper_name n = true) (comps ++ [file]) ->
  let image_path := path_below root (comps ++ [file]) in
  let subdir := posixpath.join (output_dir a) (PyStr.join "/" comps) in
  ometiff_path image_path subdir
  = posixpath.join subdir (fst (posixpath.splitext file) ++ ".ome.tiff")
  /\ match os_makedirs subdir w with
     | (Ok _, w1) =>
         isdir_in w1 subdir = true
         /\ convert_item exec a root image_path w
            = convert_image exec image_path subdir (bf2raw_args a) (raw2ometiff_args a)
                            (keep_zarr a) (overwrite a) w1
         /\ (keeps_dir exec (FS.resolve (cwd w) subdir) ->
             isdir_in (snd (convert_item exec a root image_path w)) subdir = true)
     | (Raise e, w1) => convert_item exec a root image_path w = (Raise e, w1)
     end.
Proof.
  intros H image_path subdir.
  assert (Hf : proper_name file = true).
  { apply Forall_app in H as [_ Hf]. now inversion Hf. }
  split.
  - unfold ometiff_path, image_path. now rewrite image_name_below.
  - assert (R : os_path_relpath image_path root w
                = (Ok (PyStr.join "/" (comps ++ [file])), w)).
    { unfold os_path_relpath, image_path, cwd. now rewrite relpath_below. }
    assert (S : output_subdir a (PyStr.join "/" (comps ++ [file])) = subdir).
    { unfold output_subdir, subdir. now rewrite dirname_join. }
    assert (E : convert_item exec a root image_path w
                = bind (os_makedirs subdir)
                       (fun _ => convert_image exec image_path subdir (bf2raw_args a)
                                               (raw2ometiff_args a) (keep_zarr a)
                                               (overwrite a)) w).
    { unfold convert_item. rewrite (bind_ok _ _ _ _ _ R). now rewrite S. }
    rewrite E. unfold bind at 1 2 3.
    destruct (os_makedirs subdir w) as [[[] | e] w1] eqn:Mk; [ | reflexivity].
    destruct (os_makedirs_ok _ _ _ Mk) as (_ & Hc & Hd & _).
    split; [exact Hd | split; [reflexivity | ]].
    intros Hk.
    destruct (convert_image exec image_path subdir (bf2raw_args a) (raw2ometiff_args a)
                            (keep_zarr a) (overwrite a) w1) as [r w2] eqn:C.
    cbn [snd].
    apply (convert_image_keeps_output_dir exec image_path subdir (bf2raw_args a)
             (raw2ometiff_args a) (keep_zarr a) (overwrite a) w1 w2 r);
      [ | exact Hd | exact C].
    assert (Ec : cwd w1 = cwd w) by (unfold cwd; now rewrite Hc).
    now rewrite Ec.
Qed.

End OutputLocation.

Section OutputLocationExample.
Import img2ome.

Lemma output_mirrors_input_tree_witness :
  Forall (fun n => proper_name n = true) (["a"; "b"] ++ ["img.tif"])
  /\ path_below "root" ["a"; "b"; "img.tif"] = "root/a/b/img.tif"
  /\ ometiff_path "root/a/b/img.tif" "out/a/b" = "out/a/b/img.ome.tiff"
  /\ fst (convert_item Scenario.always_fails (Scenario.cli "root" "out" false) "root"
                       "root/a/b/img.tif" (Scenario.at_data Scenario.deep_tree))
     = Ok false
  /\ isdir_in (snd (convert_item Scenario.always_fails (Scenario.cli "root" "out" false)
                                 "root" "root/a/b/img.tif"
                                 (Scenario.at_data Scenario.deep_tree)))
              "out/a/b" = true.
Proof.
  assert (H : Forall (fun n => proper_name n = true) (["a"; "b"] ++ ["img.tif"]))
    by (repeat constructor).
  assert (K : keeps_dir Scenario.always_fails
                        (FS.resolve (cwd (Scenario.at_data Scenario.deep_tree)) "out/a/b")).
  { intros cmd dir n es L. now exists es. }
  split; [exact H | split; [reflexivity | ]].
  pose proof (output_mirrors_input_tree
                Scenario.always_fails (Scenario.cli "root" "out" false)
                (Scenario.at_data Scenario.deep_tree) "root" ["a"; "b"] "img.tif" H) as T.
  split; [exact (proj1 T) | split; [vm_compute; reflexivity | ]].
  exact (proj2 (proj2 (proj2 T)) K).
Defined.

End OutputLocationExample.

(** ** Running a batch again *)

Section Idempotence.
Import img2ome.

Lemma skip_existing (exec : tool) (image_path output_dir : string)
      (a1 a2 : list string) (keep_zarr : bool) (w : world) :
  exists_in w (ometiff_path image_path output_dir) = true ->
  convert_image exec image_path output_dir a1 a2 keep_zarr false w
  = (Ok true,
     World (fs w) (cwd_parts w) (log w ++ [Stdout (skip_line image_path output_dir)])).
Proof.
  intros H. unfold convert_image, bind. now rewrite os_path_exists_eq, H.
Qed.

Lemma parent_of_existing_output (image_path output_dir : string) (w : world) :
  exists_in w (ometiff_path image_path output_dir) = true ->
  exists es, FS.lookup (FS.resolve (cwd w) output_dir) (fs w) = Some (FS.Dir es).
Proof.
  unfold exists_in, node_at.
  destruct (PyStr.truthy (ometiff_path image_path output_dir)); [ | discriminate].
  rewrite ometiff_path_resolve.
  destruct (FS.lookup _ (fs w)) as [m | ] eqn:L; [ | discriminate].
  intros _. now apply lookup_parent in L.
Qed.

Lemma makedirs_existing_dir (p : string) (w : world) (es : list (string * FS.node)) :
  PyStr.truthy p = true ->
  FS.lookup (FS.resolve (cwd w) p) (fs w) = Some (FS.Dir es) ->
  os_makedirs p w = (Ok tt, World (fs w) (cwd_parts w) (log w)).
Proof.
  intros T L. unfold os_makedirs. rewrite T, (mkdirs_existing _ _ _ L). reflexivity.
Qed.

(** An item whose OME-TIFF exists is skipped: nothing changes but the
    log, which gets the line that says so. *)
Lemma skip_item (exec : tool) (a : args) (input_dir image_path rel_path : string)
      (w : world) :
  overwrite a = false ->
  posixpath.relpath (cwd w) image_path input_dir = Some rel_path ->
  PyStr.truthy (output_subdir a rel_path) = true ->
  exists_in w (ometiff_path image_path (output_subdir a rel_path)) = true ->
  convert_item exec a input_dir image_path w
  = (Ok true,
     World (fs w) (cwd_parts w)
           (log w ++ [Stdout (skip_line image_path (output_subdir a rel_path))])).
Proof.
  intros Ho Hrel T Hex. unfold convert_item.
  assert (R : os_path_relpath image_path input_dir w = (Ok rel_path, w))
    by (unfold os_path_relpath; now rewrite Hrel).
  rewrite (bind_ok _ _ _ _ _ R).
  destruct (parent_of_existing_output _ _ _ Hex) as [es L].
  rewrite (bind_ok _ _ _ _ _ (makedirs_existing_dir _ _ es T L)).
  rewrite Ho. now rewrite skip_existing.
Qed.

(** What a run in which every item returned tells about the batch: the
    relative path of every image is defined and its output subdirectory
    is not the empty path. *)
Lemma completed_run_facts (exec : tool) (a : args) (input_dir : string)
      (image_paths : list string) :
  forall (c c' : nat) (w w' : world),
    for_each image_paths (convert_one exec a input_dir) c w = (Ok c', w') ->
    cwd_parts w' = cwd_parts w
    /\ Forall (fun image_path =>
                 exists rel_path,
                   posixpath.relpath (cwd w) image_path input_dir = Some rel_path
                   /\ PyStr.truthy (output_subdir a rel_path) = true)
              image_paths.
Proof.
  induction image_paths as [ | x r IH]; intros c c' w w'.
  - intros [= _ <-]. split; [reflexivity | constructor].
  - rewrite loop_step.
    destruct (convert_item exec a input_dir x w) as [[b | e] w1] eqn:E; [ | discriminate].
    intros H. destruct (IH _ _ _ _ H) as [Hc Hall].
    pose proof (convert_item_keeps_cwd _ _ _ _ _ _ _ E) as Hc1.
    assert (Ec : cwd w1 = cwd w) by (unfold cwd; now rewrite Hc1).
    split; [congruence | ]. constructor.
    + unfold convert_item, bind, os_path_relpath in E.
      destruct (posixpath.relpath (cwd w) x input_dir) as [rel | ]; [ | discriminate].
      exists rel. split; [reflexivity | ].
      unfold os_makedirs in E. now destruct (PyStr.truthy (output_subdir a rel)).
    + now rewrite Ec in Hall.
Qed.

(** The second run, item by item. *)
Lemma rerun_skips (exec : tool) (a : args) (input_dir : string)
      (image_paths : list string) :
  overwrite a = false ->
  forall (c : nat) (w : world),
    Forall (fun image_path =>
              exists rel_path,
                posixpath.relpath (cwd w) image_path input_dir = Some rel_path
                /\ PyStr.truthy (output_subdir a rel_path) = true)
           image_paths ->
    outputs_exist a input_dir image_paths w ->
    exists w' lines,
      for_each image_paths (convert_one exec a input_dir) c w
      = (Ok (c + length image_paths), w')
      /\ fs w' = fs w
      /\ log w' = (log w ++ map Stdout lines)%list
      /\ length lines = length image_paths
      /\ Forall (fun line => PyStr.startswith line "Skipping " = true) lines.
Proof.
  intros Ho. induction image_paths as [ | x r IH]; intros c w Hall Hex.
  - exists w, []. simpl. rewrite Nat.add_0_r, app_nil_r. repeat split. constructor.
  - inversion Hall as [ | ? ? (rel & Hrel & T) Hr]; subst.
    assert (Hx : exists_in w (ometiff_path x (output_subdir a rel)) = true)
      by (apply Hex; [now left | exact Hrel]).
    rewrite loop_step, (skip_item exec a input_dir x rel w Ho Hrel T Hx).
    cbv beta iota.
    set (w1 := World (fs w) (cwd_parts w)
                     (log w ++ [Stdout (skip_line x (output_subdir a rel))])).
    destruct (IH (c + 1) w1) as (w' & lines & Hrun & Hfs & Hlog & Hlen & Hskip).
    + exact Hr.
    + intros y rely Hy Hrely. apply (Hex y rely); [now right | exact Hrely].
    + exists w', (skip_line x (output_subdir a rel) :: lines).
      rewrite Hrun, Hfs, Hlog. simpl. rewrite <- app_assoc. simpl.
      replace (c + 1 + length r) with (c + S (length r)) by lia.
      repeat split; try lia.
      constructor; [reflexivity | exact Hskip].
Qed.

(** C9 (as amended). A batch run with [overwrite=false] in which every
    item returned [True], and after which the OME-TIFF of every image is
    on disk: running the loop again over the same images returns [True]
    for every item through the skip path, starts no child process and
    leaves the file system as it is. *)
Theorem second_run_skips_every_item
        (exec : tool) (a : args) (input_dir : string) (image_paths : list string)
        (w0 w1 : world) :
  overwrite a = false ->
  for_each image_paths (convert_one exec a input_dir) 0 w0
  = (Ok (length image_paths), w1) ->
  outputs_exist a input_dir image_paths w1 ->
  exists w2 lines,
    for_each image_paths (convert_one exec a input_dir) 0 w1
    = (Ok (length image_paths), w2)
    /\ fs w2 = fs w1
    /\ spawned (log w2) = spawned (log w1)
    /\ printed (log w2) = (printed (log w1) ++ lines)%list
    /\ length lines = length image_paths
    /\ Forall (fun line => PyStr.startswith line "Skipping " = true) lines.
Proof.
  intros Ho Hfirst Hex.
  destruct (completed_run_facts exec a input_dir image_paths _ _ _ _ Hfirst)
    as [Hc Hall].
  assert (Ec : cwd w1 = cwd w0) by (unfold cwd; now rewrite Hc).
  rewrite <- Ec in Hall.
  destruct (rerun_skips exec a input_dir image_paths Ho 0 w1 Hall Hex)
    as (w2 & lines & Hrun & Hfs & Hlog & Hlen & Hskip).
  exists w2, lines. rewrite Hrun, Hlog, spawned_app, printed_app.
  assert (S : forall l, spawned (map Stdout l) = []) by (induction l; auto).
  assert (Q : forall l, printed (map Stdout l) = l)
    by (induction l as [ | x l IHl]; [auto | simpl; now rewrite IHl]).
  rewrite S, Q, app_nil_r. repeat split; auto.
Qed.

Lemma second_run_skips_every_item_witness :
  overwrite (Scenario.cli "in" "out" false) = false
  /\ for_each ["in/x.tif"; "in/y.png"]
              (convert_one Scenario.converters (Scenario.cli "in" "out" false) "in")
              0 Scenario.ready
     = (Ok (length ["in/x.tif"; "in/y.png"]), Scenario.converted_twice)
  /\ outputs_exist (Scenario.cli "in" "out" false) "in" ["in/x.tif"; "in/y.png"]
                   Scenario.converted_twice
  /\ exists w2 lines,
      for_each ["in/x.tif"; "in/y.png"]
               (convert_one Scenario.converters (Scenario.cli "in" "out" false) "in")
               0 Scenario.converted_twice
      = (Ok (length ["in/x.tif"; "in/y.png"]), w2)
      /\ fs w2 = fs Scenario.converted_twice
      /\ spawned (log w2) = spawned (log Scenario.converted_twice)
      /\ printed (log w2) = (printed (log Scenario.converted_twice) ++ lines)%list
      /\ length lines = length ["in/x.tif"; "in/y.png"]
      /\ Forall (fun line => PyStr.startswith line "Skipping " = true) lines.
Proof.
  assert (H1 : for_each ["in/x.tif"; "in/y.png"]
                        (convert_one Scenario.converters (Scenario.cli "in" "out" false)
                                     "in") 0 Scenario.ready
               = (Ok (length ["in/x.tif"; "in/y.png"]), Scenario.converted_twice))
    by (vm_compute; reflexivity).
  assert (H2 : outputs_exist (Scenario.cli "in" "out" false) "in"
                             ["in/x.tif"; "in/y.png"] Scenario.converted_twice).
  { intros p rel [<- | [<- | []]] E; vm_compute in E; injection E as <-;
      vm_compute; reflexivity. }
  split; [reflexivity | split; [exact H1 | split; [exact H2 | ]]].
  exact (second_run_skips_every_item
           Scenario.converters (Scenario.cli "in" "out" false) "in"
           ["in/x.tif"; "in/y.png"] Scenario.ready Scenario.converted_twice
           eq_refl H1 H2).
Defined.

(** C9 (counterexample). [img2ome.py in out --split] with a raw2ometiff
    that splits its output: it exits with 0 and writes no file under the
    name [convert_image] looks for.  The first run returns [True] for both
    images; the second run finds no OME-TIFF to skip and starts the four
    child processes again. *)
Lemma second_run_converts_again_without_outputs :
  overwrite (Scenario.cli_split "in" "out") = false
  /\ fst (for_each ["in/x.tif"; "in/y.png"]
                   (convert_one Scenario.splitting (Scenario.cli_split "in" "out") "in")
                   0 Scenario.ready)
     = Ok 2
  /\ exists_in Scenario.split_once "out/x.ome.tiff" = false
  /\ length (spawned (log Scenario.split_once)) = 4
  /\ fst (for_each ["in/x.tif"; "in/y.png"]
                   (convert_one Scenario.splitting (Scenario.cli_split "in" "out") "in")
                   0 Scenario.split_once)
     = Ok 2
  /\ length (spawned (log (snd (for_each ["in/x.tif"; "in/y.png"]
                                         (convert_one Scenario.splitting
                                                      (Scenario.cli_split "in" "out")
                                                      "in")
                                         0 Scenario.split_once))))
     = 8.
Proof. vm_compute. repeat split. Qed.

End Idempotence.

(* ================================================================== *)
(** * Further properties of [img2ome.py] *)

(** ** [convert_image]: the stages, the clean-up and the overwrite *)

Section ConvertImageMore.
Import img2ome.





Lemma spawned_stdout (l : list event) (lines : list string) :
  spawned (l ++ map Stdout lines) = spawned l.
Proof.
  rewrite spawned_app. induction lines as [ | x r IH]; cbn; [now rewrite app_nil_r | ].
  exact IH.
Qed.
















(** ** The name of the output *)











End ConvertImageMore.

(** ** [main] and [find_images]: inputs and outputs at the edges *)

Section MainMore.
Import img2ome.









(** ** A single input file *)








(** ** What discovery returns *)






End MainMore.

(* ================================================================== *)
(** * Further properties of [qupath_img2ome.py] *)

Section QuPath.
Variable float : Type.
Variables float_ne_one float_gt_one : float -> bool.
Variable str_float : float -> string.
Variable exec : capturing_tool.





















End QuPath.

Section QuPathExamples.









End QuPathExamples.
